(* ===== verification/_CoqProject ===== *)
-Q . S2P
Prelude.v
JsString.v
JsDate.v
Transaction.v
Aggregate.v
Filter.v
Sort.v
Months.v
Series.v
Dashboard.v
Json.v
Storage.v
App.v
Render.v
Charts.v
Export.v
View.v
Schema.v
Pwa.v
