(* ===== verification/Prelude.v ===== *)
(** * Finance tracker: a verification development

    This library models the client-side personal finance tracker of
    [src/] (src/script.js, src/charts.js, src/export.js) and proves it
    correct.  The program keeps one global array of transactions, mirrored
    to [localStorage]; every user action runs a handler to completion that
    mutates the array, writes it back, and refreshes what the page shows
    (dashboard texts, charts, the filtered and sorted table, the month
    list); the exports format the same filtered list; a service worker
    and an install prompt are set up at load.

    ** Files, in dependency order, and what they model

    - [Prelude] (this file): the scope [js_scope] for [===] and [!==],
      [reduce_sum] (the [arr.reduce((s, t) => s + f(t), 0)] idiom) and
      [findIndex], the tactics [js_cases] and [z_enum], the lemmas on
      sums and [List.filter] the components share, and [eventually], the
      reachability of a goal in a transition system.
    - [JsString], [JsDate]: the JavaScript runtime the source relies on,
      modelled from the ECMAScript definitions: [toLowerCase] on ASCII,
      [includes], the string order, [String(n)] for integers, [padStart];
      the proleptic calendar ([days_from_civil] and its inverse), date-only
      ISO parsing as UTC ([Date_parse]), the local fields at a fixed offset
      [tz] ([getFullYear], [getMonth], [getDate], [setDate]) and the date
      part of [toISOString].
    - [Transaction]: the transaction record and the store of
      src/script.js (the array and [editingTransactionId]) with
      [handleFormSubmit], [deleteTransaction], [openEditModal],
      [openAddModal], [closeModal]; [store_step] is the transition system
      with a clock for [Date.now()].
    - [Aggregate]: the totals of [updateDashboard], the pie data, the
      per-category bar data ([getCategoryExpenseData]) and the savings
      progress.
    - [Filter]: [filterTransactionData] and its four predicates.
    - [Sort]: [sortTable]; [Array.prototype.sort] is the class
      [ArraySort] with its laws, discharged by an insertion sort (V8 on
      arrays below 64 elements).
    - [Months]: [populateMonthFilter] (the [Set] of month keys, sorted
      and reversed, with their labels).
    - [Series]: [getLast7DaysData], a loop with fuel whose iterations
      each read the clock ([clock i] is the [new Date()] of iteration
      [i]); [Charts] and [View] pass these reads along.
    - [Dashboard]: [formatCurrency] with id-ID digit grouping and the
      texts [updateDashboard] writes.
    - [Json], [Storage]: [JSON.stringify] and [JSON.parse] on the values
      the program stores, and the stored form of the transactions.
    - [App]: the global state with [localStorage] (a [gmap]), the
      start-up [app_load] and the state changes of the handlers as
      [app_step]; [app_reachable] is the set of states a page reaches.
    - [Render]: [renderTransactionTable] (the message or the rows, with
      the local date, the description or '-', the signed amount and the
      inline handler codes) and the sort icons.
    - [Charts]: what [initializeCharts] hands to Chart.js and what
      [updateCharts] overwrites.
    - [Export]: the content of [exportToPDF] and [exportToExcel].
    - [View]: the page, [App]'s state with a record of the DOM the
      handlers write; [initializeApp] and one definition per handler
      ([handleFormSubmit_page], [deleteTransaction_page],
      [sortTable_page], [setSavingsTarget], [currencySelect_change],
      [toggleDarkMode], [filterTransactions]) composing [app_step] with
      the refresh calls in the code's order; [ui_step] dispatches the
      events as [setupEventListeners] does.
    - [Schema]: the format of the stored list as a type of JSON values.
    - [Pwa]: [registerServiceWorker], the [beforeinstallprompt] listener,
      [showInstallPrompt] and the offline indicator as a transition system
      whose asynchronous callbacks are explicit steps.

    ** What the theorems show

    - Store: ids stay unique in every reachable state while each submit
      reads a later clock; add, edit (including an id that is not found)
      and delete have their exact effect (an edit keeps the id and takes
      every other field from the form); two adds in the same millisecond
      duplicate an id, and deleting it removes both.
    - Aggregates: the bar chart keeps exactly the positive categories and
      sums to the total expense; the savings progress is capped at 100 and
      may be negative; every operation moves the balance by the signed
      amount.
    - Filter: refinement of the Date-based code by the string-level filter
      of the specification (the month is the date string's prefix) east
      of UTC for dates of a year from 1000 on, bounds, and the month key
      west of UTC, which moves the first of every month into the month
      before.
    - Sort: direction toggling per column, sortedness for
      any lawful sort, date order equals string order on valid dates, and
      ties reversed by the two-case comparator.
    - Month list, series, dashboard: the options are the months that
      occur, newest first, each selecting at least one transaction; the
      series' loop stops after its seven steps, its balances grow by the
      signed amounts between two dates and end at the dashboard balance,
      but east of UTC its last point lags a day in the early hours of
      every local day; the printed amount determines the absolute value
      only; a target lowered to 0 leaves the old progress on screen.
    - Persistence: [JSON.parse] inverts [JSON.stringify] (a lemma of the
      runtime model, [JSON_parse_print]); in every
      reachable state a reload gives the in-memory transactions back up to
      order, and the stored text has the type of the stored list.
    - Page: in every reachable page the theme, the charts, the dashboard
      texts and the month options show the current state and the table
      the current transactions under the current inputs but the month
      (after every add, edit or delete the month select is reset after
      the table was drawn under the old month); from every
      page the user can empty the list ([eventually]); [updateCharts]
      rebuilds exactly what [initializeCharts] builds; the table, the PDF
      report and the spreadsheet list the same rows with the same texts,
      and during the early hours of a local day east of UTC the file
      names carry the UTC date of the day before while the title shows
      the local date.
    - Install: the worker's blob: URL is never registered; any timer
      still pending once [deferredPrompt] is cleared opens a dialog whose
      confirmation calls [prompt()] on [null] (a second dialog replaces
      an open one and counts as its dismissal).

    ** Bounds and fuel

    [getLast7DaysData] runs [i] from 6 to 0, so fuel 7 is exact and any
    larger fuel gives the same result ([last_days_loop_fuel]).  The
    refinement of [Filter] assumes years from 1000 on: [String(year)]
    has four digits there, as the string prefix of the specification
    needs.
    [JSON_parse] gives the parser one more unit of fuel than the length of
    the text, which bounds the nesting and element count it needs
    ([need_le_length]).  The liveness of [View] needs one confirmed delete
    per transaction, the measure of [eventually_measure].

    ** Choices

    - Amounts are integers ([Z]); integer doubles below 2^53 add exactly,
      which is the range this model speaks about.  Fractional amounts,
      [NaN] amounts and [parseFloat] on fractions are not modelled.
    - Strings are Stdlib [string] (8-bit characters); case mapping and
      order are JavaScript's on ASCII text.
    - A time value is an integer of milliseconds; [NaN] is [None].  The
      time zone is a fixed offset [tz] (no daylight saving time).
    - The DOM is modelled by the values the handlers write, not by the
      markup; a dialog's outcome is an input of the step that follows it.
    - The browser parts beyond ECMAScript ([URL.createObjectURL], the
      scheme check of service worker registration, the evaluation of an
      inline [onclick] literal) are modelled from their specifications.

    ** Not modelled

    The markup and CSS classes of the rendered HTML and the dark theme's
    styling; the texts of the SweetAlert dialogs; the values [openEditModal],
    [openAddModal] and [initializeApp] put into the form fields and the
    currency select (the submitted form and the chosen currency are
    inputs of the events); Chart.js drawing, html2pdf and XLSX file writing;
    console logging.  The page's HTML is not part of the repository, so
    the initial DOM is a parameter (a body without the class 'dark', no
    chart). *)

From Stdlib Require Export ZArith Lia String Ascii.
From stdpp Require Export base list strings relations.

(** ** Notation for the JavaScript comparisons used by the source *)

Declare Scope js_scope.
Delimit Scope js_scope with js.

(** Strict equality on values of a type with decidable equality. *)
Notation "a === b" := (bool_decide (a = b)) (at level 70, no associativity) : js_scope.
Notation "a !== b" := (negb (bool_decide (a = b))) (at level 70, no associativity) : js_scope.

Open Scope js_scope.

(** ** Shared definitions *)

(** [arr.reduce((s, x) => s + f(x), 0)]: a left fold starting at 0. *)
Definition reduce_sum {A} (f : A -> Z) (l : list A) : Z :=
  fold_left (fun s x => (s + f x)%Z) l 0%Z.

(** [arr.findIndex(p)]: the first index satisfying [p], or -1. *)
Fixpoint findIndex {A} (p : A -> bool) (l : list A) : Z :=
  match l with
  | [] => (-1)%Z
  | x :: r => if p x then 0%Z else
               let i := findIndex p r in
               if (i =? -1)%Z then (-1)%Z else (i + 1)%Z
  end.

(** [arr.find(p)]: the first element satisfying [p]. *)
Fixpoint find_first {A} (p : A -> bool) (l : list A) : option A :=
  match l with
  | [] => None
  | x :: r => if p x then Some x else find_first p r
  end.

(** ** Automation *)

Create HintDb ft discriminated.

(** Case analysis on the boolean tests a JavaScript model produces. *)
Ltac js_cases :=
  repeat match goal with
  | |- context [bool_decide ?P] => case_bool_decide
  | H : context [bool_decide ?P] |- _ => case_bool_decide
  end; simplify_eq/=.

(** ** Lemmas on [reduce_sum] *)

Section ReduceSum.
Context {A : Type} (f : A -> Z).

Lemma fold_left_add_shift (l : list A) (a : Z) :
    fold_left (fun s x => (s + f x)%Z) l a = (a + reduce_sum f l)%Z.
  Proof.
    unfold reduce_sum. revert a. induction l as [|x l IH]; intros a; simpl.
    - lia.
    - rewrite (IH (a + f x)%Z), (IH (0 + f x)%Z). lia.
  Qed.

Lemma reduce_sum_nil : reduce_sum f [] = 0%Z.
  Proof. reflexivity. Qed.

Lemma reduce_sum_cons x l : reduce_sum f (x :: l) = (f x + reduce_sum f l)%Z.
  Proof. unfold reduce_sum at 1. simpl. rewrite fold_left_add_shift. lia. Qed.

Lemma reduce_sum_app l1 l2 :
    reduce_sum f (l1 ++ l2) = (reduce_sum f l1 + reduce_sum f l2)%Z.
  Proof.
    induction l1 as [|x l1 IH]; simpl.
    - rewrite reduce_sum_nil. lia.
    - rewrite !reduce_sum_cons, IH. lia.
  Qed.

Lemma reduce_sum_Permutation l1 l2 :
    l1 ≡ₚ l2 -> reduce_sum f l1 = reduce_sum f l2.
  Proof.
    induction 1; rewrite ?reduce_sum_cons; lia.
  Qed.

Lemma reduce_sum_nonneg l :
    Forall (fun x => 0 <= f x)%Z l -> (0 <= reduce_sum f l)%Z.
  Proof.
    induction 1; rewrite ?reduce_sum_nil, ?reduce_sum_cons; lia.
  Qed.

  (** Splitting a sum by a boolean test. *)
Lemma reduce_sum_filter_split (p : A -> bool) l :
    reduce_sum f l =
    (reduce_sum f (List.filter p l) + reduce_sum f (List.filter (fun x => negb (p x)) l))%Z.
  Proof.
    induction l as [|x l IH]; simpl; [reflexivity|].
    destruct (p x); simpl; rewrite ?reduce_sum_cons, IH; lia.
  Qed.

End ReduceSum.

Lemma reduce_sum_ext {A} (f g : A -> Z) (l : list A) :
  (forall x, In x l -> f x = g x) -> reduce_sum f l = reduce_sum g l.
Proof.
  induction l as [|x l IH]; intros H; [reflexivity|].
  rewrite !reduce_sum_cons, H, IH; [reflexivity|..]; auto with datatypes.
Qed.

Create Rewrite HintDb ft_rw.
Lemma reduce_sum_insert {A} (f : A -> Z) (l : list A) i x y :
  l !! i = Some y -> reduce_sum f (<[i := x]> l) = (reduce_sum f l - f y + f x)%Z.
Proof.
  revert i. induction l as [|z l IH]; intros [|i] H; simpl in *; try discriminate.
  - injection H as ->. rewrite !reduce_sum_cons. lia.
  - rewrite !reduce_sum_cons, (IH i H). lia.
Qed.

Lemma reduce_sum_map {A B} (f : B -> Z) (g : A -> B) (l : list A) :
  reduce_sum f (map g l) = reduce_sum (fun x => f (g x)) l.
Proof. induction l as [|x l IH]; simpl; rewrite ?reduce_sum_cons, ?IH; reflexivity. Qed.

#[export] Hint Rewrite @reduce_sum_nil @reduce_sum_cons @reduce_sum_app : ft_rw.

(** ** Lemmas on [List.filter] (the JavaScript [arr.filter(p)]) *)

Section FilterFacts.
Context {A : Type}.

Lemma findIndex_shift_pos (i : Z) :
    (0 <= i)%Z -> (if (i =? -1)%Z then (-1)%Z else (i + 1)%Z) = (i + 1)%Z.
  Proof. intros H. destruct (Z.eqb_spec i (-1)); lia. Qed.

Lemma filter_true_id (p : A -> bool) (l : list A) :
    (forall x, In x l -> p x = true) -> List.filter p l = l.
  Proof.
    induction l as [|x l IH]; intros H; simpl; [reflexivity|].
    rewrite H by auto with datatypes. f_equal. auto with datatypes.
  Qed.

Lemma filter_idem (p : A -> bool) (l : list A) :
    List.filter p (List.filter p l) = List.filter p l.
  Proof.
    apply filter_true_id. intros x Hx. apply filter_In in Hx. tauto.
  Qed.

Lemma filter_filter_and (p q : A -> bool) (l : list A) :
    List.filter p (List.filter q l) = List.filter (fun x => q x && p x) l.
  Proof.
    induction l as [|x l IH]; simpl; [reflexivity|].
    destruct (q x); simpl; [destruct (p x); simpl; rewrite IH|]; auto.
  Qed.

Lemma filter_ext_in (p q : A -> bool) (l : list A) :
    (forall x, In x l -> p x = q x) -> List.filter p l = List.filter q l.
  Proof.
    induction l as [|x l IH]; intros H; simpl; [reflexivity|].
    rewrite H by auto with datatypes. rewrite IH by auto with datatypes. reflexivity.
  Qed.

  (** The index [findIndex] returns is -1 or a valid position. *)
Lemma findIndex_range (p : A -> bool) (l : list A) :
    findIndex p l = (-1)%Z \/ (0 <= findIndex p l < Z.of_nat (length l))%Z.
  Proof.
    induction l as [|x l IH]; simpl; [auto|].
    destruct (p x); [right; lia|].
    destruct IH as [-> | Hr]; [auto|].
    rewrite (findIndex_shift_pos _ (proj1 Hr)). right. lia.
  Qed.

Lemma findIndex_lookup (p : A -> bool) (l : list A) :
    (0 <= findIndex p l)%Z ->
    exists x, l !! Z.to_nat (findIndex p l) = Some x /\ p x = true /\
              find_first p l = Some x.
  Proof.
    induction l as [|x l IH]; simpl; [lia|].
    destruct (p x) eqn:Hx; [intros _; exists x; auto|].
    destruct (findIndex_range p l) as [E|Hr]; [rewrite E; simpl; lia|].
    rewrite (findIndex_shift_pos _ (proj1 Hr)). intros _.
    destruct IH as (y & Hy & Hpy & Hf); [lia|].
    exists y. rewrite Z2Nat.inj_add, Nat.add_1_r by lia. auto.
  Qed.

Lemma findIndex_none (p : A -> bool) (l : list A) :
    findIndex p l = (-1)%Z <-> Forall (fun x => p x = false) l.
  Proof.
    induction l as [|x l IH]; simpl; [split; auto|].
    rewrite Forall_cons. destruct (p x) eqn:Hx; [split; [lia|intros [? _]; congruence]|].
    destruct (findIndex_range p l) as [E|Hr].
    - rewrite E. split; [intros _; split; [reflexivity|apply IH; exact E]|reflexivity].
    - rewrite (findIndex_shift_pos _ (proj1 Hr)). split; [lia|].
      intros [_ H]. apply IH in H. lia.
  Qed.
Lemma find_first_Some_In (p : A -> bool) (l : list A) x :
    find_first p l = Some x -> In x l /\ p x = true.
  Proof.
    induction l as [|y l IH]; simpl; [discriminate|].
    destruct (p y) eqn:Hy; [intros [= <-]; auto|]. intros H. apply IH in H. tauto.
  Qed.

Lemma find_first_None (p : A -> bool) (l : list A) :
    find_first p l = None <-> Forall (fun x => p x = false) l.
  Proof.
    induction l as [|y l IH]; simpl; [split; auto|].
    rewrite Forall_cons. destruct (p y) eqn:Hy; [split; [discriminate|intros [? _]; congruence]|].
    rewrite IH. tauto.
  Qed.
Lemma alter_as_insert (f : A -> A) (l : list A) i x :
    l !! i = Some x -> alter f i l = <[i := f x]> l.
  Proof.
    revert i. induction l as [|y l IH]; intros [|i] H; simpl in *; try discriminate.
    - congruence.
    - f_equal. apply IH. exact H.
  Qed.

Lemma Forall_List_filter (P : A -> Prop) (p : A -> bool) (l : list A) :
    Forall P l -> Forall P (List.filter p l).
  Proof.
    induction 1 as [|x l Hx _ IH]; simpl; [constructor|].
    destruct (p x); [constructor|]; assumption.
  Qed.

Lemma Permutation_List_filter (p : A -> bool) (l1 l2 : list A) :
    l1 ≡ₚ l2 -> List.filter p l1 ≡ₚ List.filter p l2.
  Proof.
    induction 1; simpl; repeat case_match; try constructor; eauto using Permutation_trans.
  Qed.
End FilterFacts.

(** ** Case analysis on a small integer range *)

Lemma Z_range_In (lo x : Z) (n : nat) :
  (lo <= x < lo + Z.of_nat n)%Z ->
  List.In x (List.map (fun k => (lo + Z.of_nat k)%Z) (List.seq 0 n)).
Proof.
  intros H. apply in_map_iff. exists (Z.to_nat (x - lo)). split; [lia|]. apply in_seq. lia.
Qed.

(** [z_enum x lo n] splits the goal into the [n] cases [x = lo], ...,
    [x = lo + n - 1], the bounds being proved by [lia]. *)
Ltac z_enum x lo n :=
  let l := eval vm_compute in (List.map (fun k => (lo + Z.of_nat k)%Z) (List.seq 0 n)) in
  let Hc := fresh "Hc" in
  assert (Hc : List.In x l) by (exact (Z_range_In lo x n ltac:(lia)));
  cbv [List.In] in Hc; repeat destruct Hc as [<-|Hc]; try contradiction.

(** ** Eventually reaching a goal

    [eventually step P s]: some sequence of [step]s from [s] reaches a
    state satisfying [P] (a finite path, so a liveness property of the
    transition system [step]). *)

Section Eventually.
Context {State : Type} (step : State -> State -> Prop).

Inductive eventually (P : State -> Prop) : State -> Prop :=
  | eventually_done s : P s -> eventually P s
  | eventually_step s s' : step s s' -> eventually P s' -> eventually P s.

#[local] Hint Constructors eventually : core.

Lemma eventually_trans (P Q : State -> Prop) s :
  eventually P s -> (forall m, P m -> eventually Q m) -> eventually Q s.
Proof. induction 1; eauto. Qed.

Lemma eventually_weaken (P Q : State -> Prop) s :
  eventually P s -> (forall m, P m -> Q m) -> eventually Q s.
Proof. intros H HPQ. eapply eventually_trans; [exact H|]. auto. Qed.

(** A measure that some step strictly decreases until [P] holds gives
    [P] eventually. *)
Lemma eventually_measure (P : State -> Prop) (mu : State -> nat) :
  (forall s, P s \/ exists s', step s s' /\ (P s' \/ mu s' < mu s)%nat) ->
  forall s, eventually P s.
Proof.
  intros Hdec s. remember (mu s) as n eqn:En. revert s En.
  induction (lt_wf n) as [n _ IH]; intros s ->.
  destruct (Hdec s) as [HP|(s' & Hs & [HP|Hlt])]; eauto.
Qed.

End Eventually.
