(* ===== verification/JsString.v ===== *)
(** * The JavaScript string runtime used by the finance tracker

    The source calls [String.prototype.toLowerCase] (search and category
    sort keys), [String.prototype.includes] (free-text search), the
    relational operators on strings (category sort, the date cut-off of
    the 7-day series), [Number.prototype.toString] (transaction ids built
    from [Date.now()], the year of a month key) and [padStart] (month
    numbers).  These are runtime semantics, modelled from the ECMAScript
    definitions on ASCII text.  The file proves the facts the components
    rely on: [includes] decides the substring relation, the string order
    is a strict total order, and the decimal printing of integers is
    injective (through its parse/print round trip). *)

From S2P Require Import Prelude.
From Stdlib Require Import DecimalString DecimalZ.

Open Scope string_scope.

(** ** Case mapping *)

(** [toLowerCase] on one character: ASCII capitals are mapped to the
    small letters; every other character is unchanged. *)
Definition ascii_toLower (c : ascii) : ascii :=
  let n := nat_of_ascii c in
  if (65 <=? n)%nat && (n <=? 90)%nat then ascii_of_nat (n + 32) else c.

Fixpoint toLowerCase (s : string) : string :=
  match s with
  | EmptyString => EmptyString
  | String c r => String (ascii_toLower c) (toLowerCase r)
  end.

(** ** Substring search *)

(** [s.includes(sub)]: [sub] occurs in [s] at some position. *)
Fixpoint includes (s sub : string) : bool :=
  String.prefix sub s ||
  match s with
  | EmptyString => false
  | String _ r => includes r sub
  end.

(** ** Relational comparison of strings *)

(** [a < b] on strings: lexicographic order of the code units, a proper
    prefix being smaller. *)
Fixpoint js_str_lt (a b : string) : bool :=
  match a, b with
  | _, EmptyString => false
  | EmptyString, String _ _ => true
  | String c a', String d b' =>
      if (nat_of_ascii c <? nat_of_ascii d)%nat then true
      else if (nat_of_ascii d <? nat_of_ascii c)%nat then false
      else js_str_lt a' b'
  end.

(** [a <= b] is [!(b < a)] for strings. *)
Definition js_str_le (a b : string) : bool := negb (js_str_lt b a).

(** ** Numbers printed as strings *)

(** [String(z)] / [z.toString()] for an integer-valued number. *)
Definition number_to_string (z : Z) : string :=
  NilZero.string_of_int (Z.to_int z).

(** [s.padStart(n, c)] with a one-character filler. *)
Definition padStart (s : string) (n : nat) (c : ascii) : string :=
  if (String.length s <? n)%nat
  then String.append (string_of_list_ascii (List.repeat c (n - String.length s))) s
  else s.

(** ** Lemmas *)

(** [String.append] does not unfold by [simpl] under stdpp's settings. *)
Lemma append_cons c a b : String.append (String c a) b = String c (String.append a b).
Proof. reflexivity. Qed.

Lemma append_empty_l b : String.append "" b = b.
Proof. reflexivity. Qed.

Lemma append_empty_r a : String.append a "" = a.
Proof. induction a as [|c a IH]; [reflexivity|]. rewrite append_cons. congruence. Qed.

Lemma append_assoc_str a b c :
  String.append (String.append a b) c = String.append a (String.append b c).
Proof. induction a as [|x a IH]; [reflexivity|]. rewrite !append_cons, IH. reflexivity. Qed.

Lemma length_append_str a b :
  String.length (String.append a b) = (String.length a + String.length b)%nat.
Proof. induction a as [|x a IH]; [reflexivity|]. rewrite append_cons. simpl. now rewrite IH. Qed.

Lemma js_str_lt_cons_same c a b : js_str_lt (String c a) (String c b) = js_str_lt a b.
Proof. simpl. now rewrite Nat.ltb_irrefl. Qed.

Lemma toLowerCase_append a b :
  toLowerCase (String.append a b) = String.append (toLowerCase a) (toLowerCase b).
Proof. induction a as [|c a IH]; [reflexivity|]. rewrite !append_cons. simpl. now rewrite IH. Qed.

Lemma ascii_toLower_idem c : ascii_toLower (ascii_toLower c) = ascii_toLower c.
Proof.
  unfold ascii_toLower.
  destruct ((65 <=? nat_of_ascii c)%nat && (nat_of_ascii c <=? 90)%nat) eqn:E.
  - apply andb_true_iff in E as [E1 E2].
    apply Nat.leb_le in E1, E2.
    rewrite nat_ascii_embedding by lia.
    replace ((65 <=? nat_of_ascii c + 32)%nat && (nat_of_ascii c + 32 <=? 90)%nat)
      with false; [reflexivity|].
    symmetry. apply andb_false_iff. right. apply Nat.leb_gt. lia.
  - rewrite E. reflexivity.
Qed.

Lemma toLowerCase_idem s : toLowerCase (toLowerCase s) = toLowerCase s.
Proof. induction s as [|c s IH]; simpl; [reflexivity|]. now rewrite ascii_toLower_idem, IH. Qed.

Lemma toLowerCase_empty_iff s : toLowerCase s = "" <-> s = "".
Proof. destruct s; simpl; split; congruence. Qed.

Lemma prefix_spec sub s :
  String.prefix sub s = true <-> exists q, s = String.append sub q.
Proof.
  revert s. induction sub as [|c sub IH]; intros s.
  - destruct s; simpl; split; eauto.
  - destruct s as [|d s]; simpl.
    + split; [discriminate|intros [q Hq]; discriminate].
    + destruct (ascii_dec c d) as [->|Hne].
      * rewrite IH. split; intros [q Hq]; exists q; rewrite append_cons in *; congruence.
      * split; [discriminate|intros [q Hq]; rewrite append_cons in *; congruence].
Qed.

(** [includes] decides the substring relation. *)
Lemma includes_spec s sub :
  includes s sub = true <->
  exists p q, s = String.append p (String.append sub q).
Proof.
  induction s as [|c s IH]; cbn [includes].
  - rewrite orb_false_r, prefix_spec. split.
    + intros [q Hq]. exists "", q. exact Hq.
    + intros [p [q Hpq]]. exists q. destruct p; simpl in *; [exact Hpq|discriminate].
  - rewrite orb_true_iff, prefix_spec, IH. split.
    + intros [[q Hq] | [p [q Hpq]]].
      * exists "", q. exact Hq.
      * exists (String c p), q. rewrite append_cons. congruence.
    + intros [p [q Hpq]]. destruct p as [|d p]; rewrite ?append_cons, ?append_empty_l in Hpq.
      * left. exists q. exact Hpq.
      * right. injection Hpq as -> Hs. eauto.
Qed.

Lemma includes_empty s : includes s "" = true.
Proof. apply includes_spec. exists "", s. reflexivity. Qed.

Lemma includes_refl s : includes s s = true.
Proof. apply includes_spec. exists "", "". simpl. now rewrite append_empty_r. Qed.

(** The string order is a strict total order. *)
Lemma js_str_lt_irrefl a : js_str_lt a a = false.
Proof. induction a as [|c a IH]; simpl; [reflexivity|]. now rewrite Nat.ltb_irrefl. Qed.

Lemma nat_of_ascii_inj c d : nat_of_ascii c = nat_of_ascii d -> c = d.
Proof.
  intros H. rewrite <- (ascii_nat_embedding c), <- (ascii_nat_embedding d). congruence.
Qed.

Lemma js_str_lt_trans a b c :
  js_str_lt a b = true -> js_str_lt b c = true -> js_str_lt a c = true.
Proof.
  revert b c. induction a as [|x a IH]; intros [|y b] [|z c]; simpl; try congruence.
  destruct (Nat.ltb_spec (nat_of_ascii x) (nat_of_ascii y));
  destruct (Nat.ltb_spec (nat_of_ascii y) (nat_of_ascii x));
  destruct (Nat.ltb_spec (nat_of_ascii y) (nat_of_ascii z));
  destruct (Nat.ltb_spec (nat_of_ascii z) (nat_of_ascii y));
  destruct (Nat.ltb_spec (nat_of_ascii x) (nat_of_ascii z));
  destruct (Nat.ltb_spec (nat_of_ascii z) (nat_of_ascii x));
  try congruence; try lia; eauto.
Qed.

Lemma js_str_lt_total a b :
  a <> b -> js_str_lt a b = true \/ js_str_lt b a = true.
Proof.
  revert b. induction a as [|x a IH]; intros [|y b] Hne; simpl; auto; try congruence.
  destruct (Nat.ltb_spec (nat_of_ascii x) (nat_of_ascii y)); auto.
  destruct (Nat.ltb_spec (nat_of_ascii y) (nat_of_ascii x)); auto.
  assert (x = y) as -> by (apply nat_of_ascii_inj; lia).
  apply IH. congruence.
Qed.

Lemma js_str_lt_asym a b : js_str_lt a b = true -> js_str_lt b a = false.
Proof.
  intros H. destruct (js_str_lt b a) eqn:E; [|reflexivity].
  pose proof (js_str_lt_trans _ _ _ H E). rewrite js_str_lt_irrefl in *. congruence.
Qed.

(** Printing an integer is injective: the printed form parses back. *)
Lemma number_to_string_roundtrip z :
  option_map Z.of_int (NilZero.int_of_string (number_to_string z)) = Some z.
Proof.
  unfold number_to_string. rewrite NilZero.isi.
  - simpl. now rewrite DecimalZ.of_to.
  - intros H. pose proof (DecimalZ.of_to z) as E. rewrite H in E. simpl in E.
    destruct z; simpl in H; try discriminate; destruct p; discriminate.
  - intros H. pose proof (DecimalZ.of_to z) as E. rewrite H in E. simpl in E.
    destruct z; simpl in H; try discriminate; destruct p; discriminate.
Qed.

Lemma number_to_string_inj a b : number_to_string a = number_to_string b -> a = b.
Proof.
  intros H. pose proof (number_to_string_roundtrip a) as Ha.
  rewrite H, number_to_string_roundtrip in Ha. congruence.
Qed.

Lemma number_to_string_nonempty z : number_to_string z <> "".
Proof.
  unfold number_to_string. destruct (Z.to_int z) as [d|d]; destruct d; discriminate.
Qed.

#[export] Hint Resolve includes_empty includes_refl js_str_lt_irrefl : ft.

(** [a <= b] on strings is a total order. *)
Lemma js_str_le_trans a b c :
  js_str_le a b = true -> js_str_le b c = true -> js_str_le a c = true.
Proof.
  unfold js_str_le. intros Hab Hbc. apply negb_true_iff in Hab, Hbc. apply negb_true_iff.
  destruct (js_str_lt c a) eqn:Eca; [|reflexivity]. exfalso.
  destruct (decide (a = b)) as [->|Hne]; [congruence|].
  destruct (js_str_lt_total a b Hne) as [H|H]; [|congruence].
  pose proof (js_str_lt_trans _ _ _ Eca H). congruence.
Qed.

Lemma js_str_le_neq_lt a b : js_str_le a b = true -> a <> b -> js_str_lt a b = true.
Proof.
  unfold js_str_le. intros H Hne. apply negb_true_iff in H.
  destruct (js_str_lt_total a b Hne) as [H'|H']; congruence.
Qed.

Lemma js_str_lt_le a b : js_str_lt a b = true -> js_str_le a b = true.
Proof. intros H. unfold js_str_le. now rewrite (js_str_lt_asym _ _ H). Qed.
