(* ===== verification/JsDate.v ===== *)
(** * The JavaScript [Date] runtime used by the finance tracker

    The source builds dates with [new Date(s)] on [YYYY-MM-DD] strings
    (filter, sort, month keys, table rendering), reads local fields with
    [getFullYear]/[getMonth]/[getDate], moves a date with [setDate]
    (7-day series) and prints the UTC date with
    [toISOString().split('T')[0]].  This file models these runtime
    operations from the ECMAScript definitions:

    - time values are integers of milliseconds; a day is [ms_per_day];
    - the calendar is the proleptic Gregorian one; [days_from_civil] and
      [civil_from_days] convert between a day number (days since
      1970-01-01) and a (year, month, day) triple, following H. Hinnant's
      era-based algorithm, which computes ECMAScript's [MakeDay],
      [YearFromTime], [MonthFromTime] and [DateFromTime];
    - local time is UTC plus a fixed offset [tz] in milliseconds (the
      program's users are in Indonesia, which has no daylight saving).

    The round trips of the two conversions are proved with [lia] on the
    division facts ([Z.div_mod_to_equations]), without enumeration. *)

From S2P Require Import Prelude JsString.

Open Scope Z_scope.

(** ** Calendar *)

Definition ms_per_day : Z := 86400000.

Definition is_leap (y : Z) : bool :=
  ((y mod 4 =? 0) && negb (y mod 100 =? 0)) || (y mod 400 =? 0).

Definition days_in_month (y m : Z) : Z :=
  if m =? 2 then (if is_leap y then 29 else 28)
  else if (m =? 4) || (m =? 6) || (m =? 9) || (m =? 11) then 30
  else 31.

Definition valid_date (y m d : Z) : Prop := 1 <= m <= 12 /\ 1 <= d <= days_in_month y m.

(** Days from March 1 of year 0 of a 400-year era to March 1 of year
    [yoe] of the era, and from March 1 to the first day of the [mp]-th
    month of a March-based year. *)
Definition year_start (yoe : Z) : Z := 365 * yoe + yoe / 4 - yoe / 100 + yoe / 400.
Definition month_start (mp : Z) : Z := (153 * mp + 2) / 5.

(** [MakeDay(y, m - 1, d)]: the day number of a civil date.  A day past
    the end of the month counts on into the next months, as [MakeDay]
    does. *)
Definition days_from_civil (y m d : Z) : Z :=
  let y' := if m <=? 2 then y - 1 else y in
  let era := y' / 400 in
  let yoe := y' mod 400 in
  let mp := if 2 <? m then m - 3 else m + 9 in
  era * 146097 + year_start yoe + month_start mp + d - 1 - 719468.

(** [YearFromTime], [MonthFromTime] + 1 and [DateFromTime] of a day number. *)
Definition civil_from_days (z : Z) : Z * Z * Z :=
  let z' := z + 719468 in
  let era := z' / 146097 in
  let doe := z' mod 146097 in
  let yoe := (doe - doe / 1460 + doe / 36524 - doe / 146096) / 365 in
  let doy := doe - year_start yoe in
  let mp := (5 * doy + 2) / 153 in
  let d := doy - month_start mp + 1 in
  let m := if mp <? 10 then mp + 3 else mp - 9 in
  (era * 400 + yoe + (if m <=? 2 then 1 else 0), m, d).

(** [WeekDay(t)]: 0 is Sunday. *)
Definition week_day (z : Z) : Z := (z + 4) mod 7.

(** ** Lemmas on the calendar *)

Lemma yoe_bounds doe :
  0 <= doe < 146097 ->
  let yoe := (doe - doe / 1460 + doe / 36524 - doe / 146096) / 365 in
  0 <= yoe < 400 /\ year_start yoe <= doe < year_start (yoe + 1).
Proof. intros H. unfold year_start. Z.div_mod_to_equations. lia. Qed.

Lemma year_start_mono a b : 0 <= a -> a < b -> year_start a < year_start b.
Proof. intros. unfold year_start. Z.div_mod_to_equations. lia. Qed.

Lemma yoe_unique doe y1 y2 :
  0 <= y1 -> 0 <= y2 ->
  year_start y1 <= doe < year_start (y1 + 1) ->
  year_start y2 <= doe < year_start (y2 + 1) -> y1 = y2.
Proof.
  intros H1 H2 [Ha Hb] [Hc Hd].
  destruct (Z.lt_trichotomy y1 y2) as [Hlt|[Heq|Hgt]]; [|exact Heq|].
  - pose proof (year_start_mono (y1 + 1) y2 ltac:(lia)).
    destruct (Z.eq_dec (y1 + 1) y2); subst; lia.
  - pose proof (year_start_mono (y2 + 1) y1 ltac:(lia)).
    destruct (Z.eq_dec (y2 + 1) y1); subst; lia.
Qed.

Lemma month_bounds doy :
  0 <= doy < 366 ->
  let mp := (5 * doy + 2) / 153 in
  0 <= mp < 12 /\ month_start mp <= doy < month_start (mp + 1).
Proof. intros H. unfold month_start. Z.div_mod_to_equations. lia. Qed.

Lemma month_unique doy mp :
  0 <= mp < 12 -> month_start mp <= doy < month_start (mp + 1) ->
  (5 * doy + 2) / 153 = mp.
Proof. unfold month_start. intros. Z.div_mod_to_equations. lia. Qed.

Lemma year_length yoe :
  0 <= yoe < 400 -> year_start (yoe + 1) - year_start yoe =
    if is_leap (yoe + 1) then 366 else 365.
Proof.
  intros H. unfold is_leap, year_start.
  destruct (Z.eqb_spec ((yoe + 1) mod 4) 0), (Z.eqb_spec ((yoe + 1) mod 100) 0),
    (Z.eqb_spec ((yoe + 1) mod 400) 0); simpl; Z.div_mod_to_equations; lia.
Qed.

(** Day number to civil date and back is the identity. *)
Lemma days_from_civil_from_days z :
  let '(y, m, d) := civil_from_days z in days_from_civil y m d = z.
Proof.
  unfold civil_from_days.
  set (z' := z + 719468). set (era := z' / 146097). set (doe := z' mod 146097).
  assert (Hdoe : 0 <= doe < 146097) by (subst doe; apply Z.mod_pos_bound; lia).
  assert (Hz : z' = era * 146097 + doe) by (subst era doe; pose proof (Z.div_mod z' 146097); lia).
  destruct (yoe_bounds doe Hdoe) as [Hy Hys].
  set (yoe := (doe - doe / 1460 + doe / 36524 - doe / 146096) / 365) in *.
  assert (Hyl : year_start (yoe + 1) - year_start yoe <= 366)
    by (rewrite year_length by lia; destruct (is_leap _); lia).
  destruct (month_bounds (doe - year_start yoe) ltac:(lia)) as [Hm Hms].
  set (mp := (5 * (doe - year_start yoe) + 2) / 153) in *.
  unfold days_from_civil.
  destruct (Z.ltb_spec mp 10) as [Hlt|Hge].
  - destruct (Z.leb_spec (mp + 3) 2); [lia|]. destruct (Z.ltb_spec 2 (mp + 3)); [|lia].
    replace (era * 400 + yoe + 0) with (yoe + era * 400) by lia.
    rewrite Z.div_add by lia. rewrite Z.mod_add by lia.
    rewrite (Z.div_small yoe 400), (Z.mod_small yoe 400) by lia.
    replace (mp + 3 - 3) with mp by lia. lia.
  - destruct (Z.leb_spec (mp - 9) 2); [|lia]. destruct (Z.ltb_spec 2 (mp - 9)); [lia|].
    replace (era * 400 + yoe + 1 - 1) with (yoe + era * 400) by lia.
    rewrite Z.div_add by lia. rewrite Z.mod_add by lia.
    rewrite (Z.div_small yoe 400), (Z.mod_small yoe 400) by lia.
    replace (mp - 9 + 9) with mp by lia. lia.
Qed.

Lemma is_leap_mod400 a b : a mod 400 = b mod 400 -> is_leap a = is_leap b.
Proof.
  intros H. unfold is_leap.
  assert (a mod 4 = b mod 4) as -> by (Z.div_mod_to_equations; lia).
  assert (a mod 100 = b mod 100) as -> by (Z.div_mod_to_equations; lia).
  now rewrite H.
Qed.

(** A valid date lies in its March-based year and in its month. *)
Lemma doy_bounds y m d :
  valid_date y m d ->
  let y' := if m <=? 2 then y - 1 else y in
  let yoe := y' mod 400 in
  let mp := if 2 <? m then m - 3 else m + 9 in
  0 <= mp < 12 /\
  month_start mp <= month_start mp + d - 1 < month_start (mp + 1) /\
  month_start mp + d - 1 < year_start (yoe + 1) - year_start yoe.
Proof.
  intros [Hm Hd]. simpl.
  assert (Hyoe : 0 <= (if m <=? 2 then y - 1 else y) mod 400 < 400) by (apply Z.mod_pos_bound; lia).
  rewrite year_length by exact Hyoe.
  assert (Hl : m = 2 -> is_leap ((y - 1) mod 400 + 1) = is_leap y).
  { intros _. apply is_leap_mod400. Z.div_mod_to_equations. lia. }
  unfold days_in_month in Hd.
  z_enum m 1 12%nat;
    simpl in *; unfold month_start;
    repeat match goal with
    | |- context [if is_leap ?a then _ else _] => destruct (is_leap a) eqn:?
    | H : context [if is_leap ?a then _ else _] |- _ => destruct (is_leap a) eqn:?
    end; try (specialize (Hl eq_refl); congruence); Z.div_mod_to_equations; lia.
Qed.

(** A valid civil date converted to a day number and back is unchanged. *)
Lemma civil_from_days_from_civil y m d :
  valid_date y m d -> civil_from_days (days_from_civil y m d) = (y, m, d).
Proof.
  intros Hv. pose proof (doy_bounds y m d Hv) as (Hmp & Hms & Hyl). simpl in *.
  destruct Hv as [Hm _]. unfold civil_from_days, days_from_civil.
  remember (if m <=? 2 then y - 1 else y) as y' eqn:Ey' in *.
  remember (if 2 <? m then m - 3 else m + 9) as mp eqn:Emp in *.
  assert (Hyoe : 0 <= y' mod 400 < 400) by (apply Z.mod_pos_bound; lia).
  assert (Hy' : y' = y' / 400 * 400 + y' mod 400) by (pose proof (Z.div_mod y' 400); lia).
  remember (y' mod 400) as yoe eqn:Eyoe in *. remember (y' / 400) as era eqn:Eera in *.
  assert (Hys : year_start (yoe + 1) <= 146097)
    by (unfold year_start; Z.div_mod_to_equations; lia).
  assert (0 <= month_start mp) by (unfold month_start; Z.div_mod_to_equations; lia).
  remember (year_start yoe + (month_start mp + d - 1)) as doe eqn:Edoe.
  assert (Hdoe : 0 <= doe < 146097).
  { assert (0 <= year_start yoe) by (unfold year_start; Z.div_mod_to_equations; lia).
    pose proof (month_start mp). unfold month_start in *. Z.div_mod_to_equations. lia. }
  replace (era * 146097 + year_start yoe + month_start mp + d - 1 - 719468 + 719468)
    with (doe + era * 146097) by lia.
  rewrite Z.div_add, Z.mod_add, (Z.div_small doe), (Z.mod_small doe) by lia.
  destruct (yoe_bounds doe Hdoe) as [Hy2 Hys2].
  rewrite (yoe_unique doe _ yoe (proj1 Hy2) (proj1 Hyoe) Hys2 ltac:(lia)).
  replace (doe - year_start yoe) with (month_start mp + d - 1) by lia.
  rewrite (month_unique _ mp Hmp Hms).
  replace (month_start mp + d - 1 - month_start mp + 1) with d by lia.
  subst mp y'.
  destruct (Z.ltb_spec 2 m); destruct (Z.leb_spec m 2); try lia.
  - destruct (Z.ltb_spec (m - 3) 10); [|lia].
    replace (m - 3 + 3) with m by lia. destruct (Z.leb_spec m 2); [lia|].
    repeat f_equal; lia.
  - destruct (Z.ltb_spec (m + 9) 10); [lia|].
    replace (m + 9 - 9) with m by lia. destruct (Z.leb_spec m 2); [|lia].
    repeat f_equal; lia.
Qed.

(** The first days of consecutive months are a month length apart. *)
Lemma days_month_step y m :
  1 <= m <= 11 -> days_from_civil y (m + 1) 1 = days_from_civil y m 1 + days_in_month y m.
Proof.
  intros Hm. unfold days_from_civil, days_in_month.
  z_enum m 1 11%nat; simpl;
    unfold month_start; try (Z.div_mod_to_equations; lia).
  (* February: the March-based year changes. *)
  change ((153 * (2 + 1 - 3) + 2) / 5) with 0. change ((153 * (2 + 9) + 2) / 5) with 337.
  assert (Hyl : year_start ((y - 1) mod 400 + 1) - year_start ((y - 1) mod 400) =
                if is_leap ((y - 1) mod 400 + 1) then 366 else 365)
    by (apply year_length, Z.mod_pos_bound; lia).
  rewrite (is_leap_mod400 ((y - 1) mod 400 + 1) y) in Hyl by (Z.div_mod_to_equations; lia).
  assert (Hr : 0 <= (y - 1) mod 400 < 400) by (apply Z.mod_pos_bound; lia).
  destruct (Z.eq_dec ((y - 1) mod 400) 399) as [E|E].
  - assert (Hq : y / 400 = (y - 1) / 400 + 1) by (Z.div_mod_to_equations; lia).
    assert (Hm0 : y mod 400 = 0) by (Z.div_mod_to_equations; lia).
    rewrite Hq, Hm0. rewrite E in Hyl |- *.
    change (year_start (399 + 1)) with 146097 in Hyl. change (year_start 0) with 0.
    destruct (is_leap y); lia.
  - assert (Hq : y / 400 = (y - 1) / 400) by (Z.div_mod_to_equations; lia).
    assert (Hm0 : y mod 400 = (y - 1) mod 400 + 1) by (Z.div_mod_to_equations; lia).
    rewrite Hq, Hm0. destruct (is_leap y); lia.
Qed.

Lemma days_year_step y : days_from_civil (y + 1) 1 1 = days_from_civil y 12 1 + 31.
Proof.
  unfold days_from_civil, month_start. simpl. replace (y + 1 - 1) with y by lia.
  Z.div_mod_to_equations. lia.
Qed.

Lemma days_in_month_bounds y m : 28 <= days_in_month y m <= 31.
Proof. unfold days_in_month. repeat (destruct (_ =? _) || destruct (is_leap _) || destruct (_ || _)); lia. Qed.

(** The first day of the month with index [n] (12 * year + month - 1). *)
Definition month_index_start (n : Z) : Z := days_from_civil (n / 12) (n mod 12 + 1) 1.

Lemma month_index_step n :
  month_index_start (n + 1) = month_index_start n + days_in_month (n / 12) (n mod 12 + 1).
Proof.
  unfold month_index_start.
  assert (Hr : 0 <= n mod 12 < 12) by (apply Z.mod_pos_bound; lia).
  destruct (Z.eq_dec (n mod 12) 11) as [E|E].
  - assert (Hq : (n + 1) / 12 = n / 12 + 1) by (Z.div_mod_to_equations; lia).
    assert (Hr' : (n + 1) mod 12 = 0) by (Z.div_mod_to_equations; lia).
    rewrite Hq, Hr', E. change (0 + 1) with 1. change (11 + 1) with 12.
    rewrite days_year_step. reflexivity.
  - assert (Hq : (n + 1) / 12 = n / 12) by (Z.div_mod_to_equations; lia).
    assert (Hr' : (n + 1) mod 12 = n mod 12 + 1) by (Z.div_mod_to_equations; lia).
    rewrite Hq, Hr'. apply days_month_step. lia.
Qed.

Lemma month_index_mono n (k : nat) :
  month_index_start n + days_in_month (n / 12) (n mod 12 + 1) <=
  month_index_start (n + 1 + Z.of_nat k).
Proof.
  induction k as [|k IH].
  - simpl. rewrite Z.add_0_r, month_index_step. lia.
  - rewrite Nat2Z.inj_succ.
    replace (n + 1 + Z.succ (Z.of_nat k)) with ((n + 1 + Z.of_nat k) + 1) by lia.
    rewrite month_index_step.
    pose proof (days_in_month_bounds ((n + 1 + Z.of_nat k) / 12) ((n + 1 + Z.of_nat k) mod 12 + 1)).
    lia.
Qed.

(** The lexicographic order of (year, month, day) triples. *)
Definition date_lt (a b : Z * Z * Z) : Prop :=
  let '(y1, m1, d1) := a in let '(y2, m2, d2) := b in
  y1 < y2 \/ (y1 = y2 /\ (m1 < m2 \/ (m1 = m2 /\ d1 < d2))).

Lemma days_from_civil_day y m d : days_from_civil y m d = days_from_civil y m 1 + (d - 1).
Proof. unfold days_from_civil. lia. Qed.

Lemma month_index_start_civil y m :
  1 <= m <= 12 -> month_index_start (12 * y + (m - 1)) = days_from_civil y m 1.
Proof.
  intros Hm. unfold month_index_start.
  replace ((12 * y + (m - 1)) / 12) with y by (Z.div_mod_to_equations; lia).
  replace ((12 * y + (m - 1)) mod 12 + 1) with m by (Z.div_mod_to_equations; lia).
  reflexivity.
Qed.

(** [MakeDay] is strictly increasing along the calendar order. *)
Lemma days_from_civil_lt y1 m1 d1 y2 m2 d2 :
  valid_date y1 m1 d1 -> valid_date y2 m2 d2 -> date_lt (y1, m1, d1) (y2, m2, d2) ->
  days_from_civil y1 m1 d1 < days_from_civil y2 m2 d2.
Proof.
  intros [Hm1 Hd1] [Hm2 Hd2] Hlt. rewrite (days_from_civil_day y1), (days_from_civil_day y2).
  destruct (Z.eq_dec (12 * y1 + (m1 - 1)) (12 * y2 + (m2 - 1))) as [E|E].
  - assert (y1 = y2 /\ m1 = m2) as [-> ->] by lia. simpl in Hlt. lia.
  - assert (12 * y1 + (m1 - 1) < 12 * y2 + (m2 - 1)) as Hn by (simpl in Hlt; lia).
    pose proof (month_index_mono (12 * y1 + (m1 - 1))
                  (Z.to_nat (12 * y2 + (m2 - 1) - (12 * y1 + (m1 - 1)) - 1))) as Hmono.
    rewrite Z2Nat.id in Hmono by lia.
    replace (12 * y1 + (m1 - 1) + 1 + (12 * y2 + (m2 - 1) - (12 * y1 + (m1 - 1)) - 1))
      with (12 * y2 + (m2 - 1)) in Hmono by lia.
    rewrite !month_index_start_civil in Hmono by lia.
    replace ((12 * y1 + (m1 - 1)) / 12) with y1 in Hmono by (Z.div_mod_to_equations; lia).
    replace ((12 * y1 + (m1 - 1)) mod 12 + 1) with m1 in Hmono by (Z.div_mod_to_equations; lia).
    lia.
Qed.

(** ** ISO date strings *)

Definition digit_char (n : Z) : ascii := ascii_of_nat (Z.to_nat n + 48).

Definition digit_value (c : ascii) : option Z :=
  let n := nat_of_ascii c in
  if (48 <=? n)%nat && (n <=? 57)%nat then Some (Z.of_nat n - 48) else None.

(** A number printed on two digits, zero-padded ([padStart(2, '0')] for
    numbers below 100). *)
Definition two_digits (n : Z) : string :=
  String (digit_char (n / 10 mod 10)) (String (digit_char (n mod 10)) "").

Definition four_digits (n : Z) : string := String.append (two_digits (n / 100)) (two_digits (n mod 100)).

Definition six_digits (n : Z) : string :=
  String.append (two_digits (n / 10000)) (four_digits (n mod 10000)).

(** The year field of [toISOString]: four digits from 0 to 9999, a sign
    and six digits otherwise. *)
Definition iso_year (y : Z) : string :=
  if (0 <=? y) && (y <=? 9999) then four_digits y
  else String (if y <? 0 then "-"%char else "+"%char) (six_digits (Z.abs y)).

Definition iso_date_string (y m d : Z) : string :=
  String.append (iso_year y) (String "-"%char (String.append (two_digits m) (String "-"%char (two_digits d)))).

(** [t.toISOString().split('T')[0]]: the UTC date of a time value. *)
Definition iso_date_part (t : Z) : string :=
  let '(y, m, d) := civil_from_days (t / ms_per_day) in iso_date_string y m d.

(** The date-only form [YYYY-MM-DD] of [Date.parse], as V8 reads it: four
    digits, a dash, a month 01-12, a dash, a day 01-31 (a day past the
    end of the month is carried into the next month by [MakeDay]). *)
Definition parse_iso_date (s : string) : option (Z * Z * Z) :=
  match s with
  | String a1 (String a2 (String a3 (String a4 (String s1
      (String b1 (String b2 (String s2 (String c1 (String c2 EmptyString))))))))) =>
      match digit_value a1, digit_value a2, digit_value a3, digit_value a4,
            digit_value b1, digit_value b2, digit_value c1, digit_value c2 with
      | Some y1, Some y2, Some y3, Some y4, Some m1, Some m2, Some d1, Some d2 =>
          let y := 1000 * y1 + 100 * y2 + 10 * y3 + y4 in
          let m := 10 * m1 + m2 in
          let d := 10 * d1 + d2 in
          if Ascii.eqb s1 "-"%char && Ascii.eqb s2 "-"%char && (1 <=? m) && (m <=? 12) &&
             (1 <=? d) && (d <=? 31)
          then Some (y, m, d) else None
      | _, _, _, _, _, _, _, _ => None
      end
  | _ => None
  end.

(** [new Date(s)]: the time value of a date-only string, or [None] for
    an invalid date ([NaN]). *)
Definition Date_parse (s : string) : option Z :=
  match parse_iso_date s with
  | Some (y, m, d) => Some (days_from_civil y m d * ms_per_day)
  | None => None
  end.

(** ** Local time with a fixed offset *)

(** [LocalTime(t)]: [tz] milliseconds ahead of UTC. *)
Definition local_civil (tz t : Z) : Z * Z * Z := civil_from_days ((t + tz) / ms_per_day).

(** [getFullYear()], [getMonth()] (0-based) and [getDate()]. *)
Definition getFullYear (tz t : Z) : Z := let '(y, _, _) := local_civil tz t in y.
Definition getMonth (tz t : Z) : Z := let '(_, m, _) := local_civil tz t in m - 1.
Definition getDate (tz t : Z) : Z := let '(_, _, d) := local_civil tz t in d.

(** [date.setDate(dt)]: the same local time of day on day [dt] of the
    local month ([MakeDay] carries out-of-range days). *)
Definition setDate (tz t dt : Z) : Z :=
  let lt := t + tz in
  let '(y, m, _) := civil_from_days (lt / ms_per_day) in
  days_from_civil y m dt * ms_per_day + lt mod ms_per_day - tz.

(** [Date] objects compared with [<], [<=], [>], [>=]: their time values,
    [NaN] comparing false. *)
Definition time_le (a b : option Z) : bool :=
  match a, b with Some x, Some y => x <=? y | _, _ => false end.
Definition time_gt (a b : option Z) : bool :=
  match a, b with Some x, Some y => y <? x | _, _ => false end.

Definition valid_dateb (y m d : Z) : bool :=
  (1 <=? m) && (m <=? 12) && (1 <=? d) && (d <=? days_in_month y m).

(** A string the date input can produce: [YYYY-MM-DD] naming a real day. *)
Definition iso_valid (s : string) : bool :=
  match parse_iso_date s with Some (y, m, d) => valid_dateb y m d | None => false end.

(** ** Lemmas on ISO strings *)

Lemma valid_dateb_spec y m d : valid_dateb y m d = true <-> valid_date y m d.
Proof. unfold valid_dateb, valid_date. rewrite !andb_true_iff, !Z.leb_le. tauto. Qed.

Lemma nat_of_digit_char k : 0 <= k <= 9 -> nat_of_ascii (digit_char k) = (Z.to_nat k + 48)%nat.
Proof. intros H. unfold digit_char. apply nat_ascii_embedding. lia. Qed.

Lemma digit_value_char k : 0 <= k <= 9 -> digit_value (digit_char k) = Some k.
Proof.
  intros H. unfold digit_value. rewrite nat_of_digit_char by exact H.
  destruct (Nat.leb_spec 48 (Z.to_nat k + 48)); [|lia].
  destruct (Nat.leb_spec (Z.to_nat k + 48) 57); [|lia]. simpl. f_equal. lia.
Qed.

Lemma digit_value_inv c k : digit_value c = Some k -> 0 <= k <= 9 /\ c = digit_char k.
Proof.
  unfold digit_value. destruct (Nat.leb_spec 48 (nat_of_ascii c)); [|discriminate].
  destruct (Nat.leb_spec (nat_of_ascii c) 57); [|discriminate]. simpl.
  intros [= <-]. split; [lia|]. unfold digit_char.
  replace (Z.to_nat (Z.of_nat (nat_of_ascii c) - 48) + 48)%nat with (nat_of_ascii c) by lia.
  symmetry. apply ascii_nat_embedding.
Qed.

Lemma js_str_lt_digit a b r1 r2 :
  0 <= a <= 9 -> 0 <= b <= 9 ->
  js_str_lt (String (digit_char a) r1) (String (digit_char b) r2) =
  if a <? b then true else if b <? a then false else js_str_lt r1 r2.
Proof.
  intros Ha Hb. simpl. rewrite !nat_of_digit_char by assumption.
  destruct (Z.ltb_spec a b); destruct (Z.ltb_spec b a);
  destruct (Nat.ltb_spec (Z.to_nat a + 48) (Z.to_nat b + 48));
  destruct (Nat.ltb_spec (Z.to_nat b + 48) (Z.to_nat a + 48)); try lia; reflexivity.
Qed.

Lemma js_str_lt_two_digits a b r1 r2 :
  0 <= a <= 99 -> 0 <= b <= 99 ->
  js_str_lt (String.append (two_digits a) r1) (String.append (two_digits b) r2) =
  if a <? b then true else if b <? a then false else js_str_lt r1 r2.
Proof.
  intros Ha Hb. unfold two_digits. rewrite !append_cons, !append_empty_l.
  rewrite !js_str_lt_digit by (Z.div_mod_to_equations; lia).
  assert (a / 10 mod 10 = a / 10) as -> by (Z.div_mod_to_equations; lia).
  assert (b / 10 mod 10 = b / 10) as -> by (Z.div_mod_to_equations; lia).
  destruct (Z.ltb_spec (a / 10) (b / 10)); destruct (Z.ltb_spec (b / 10) (a / 10));
  destruct (Z.ltb_spec (a mod 10) (b mod 10)); destruct (Z.ltb_spec (b mod 10) (a mod 10));
  destruct (Z.ltb_spec a b); destruct (Z.ltb_spec b a);
    try reflexivity; exfalso; Z.div_mod_to_equations; lia.
Qed.

Lemma js_str_lt_four_digits a b r1 r2 :
  0 <= a <= 9999 -> 0 <= b <= 9999 ->
  js_str_lt (String.append (four_digits a) r1) (String.append (four_digits b) r2) =
  if a <? b then true else if b <? a then false else js_str_lt r1 r2.
Proof.
  intros Ha Hb. unfold four_digits. rewrite !append_assoc_str.
  rewrite !js_str_lt_two_digits by (Z.div_mod_to_equations; lia).
  destruct (Z.ltb_spec (a / 100) (b / 100)); destruct (Z.ltb_spec (b / 100) (a / 100));
  destruct (Z.ltb_spec (a mod 100) (b mod 100)); destruct (Z.ltb_spec (b mod 100) (a mod 100));
  destruct (Z.ltb_spec a b); destruct (Z.ltb_spec b a);
    try reflexivity; exfalso; Z.div_mod_to_equations; lia.
Qed.

Lemma iso_year_four y : 0 <= y <= 9999 -> iso_year y = four_digits y.
Proof.
  intros H. unfold iso_year. destruct (Z.leb_spec 0 y); [|lia].
  destruct (Z.leb_spec y 9999); [reflexivity|lia].
Qed.

(** The string order of ISO dates is the calendar order. *)
Lemma iso_date_string_lt y1 m1 d1 y2 m2 d2 :
  0 <= y1 <= 9999 -> 0 <= y2 <= 9999 -> 0 <= m1 <= 99 -> 0 <= m2 <= 99 ->
  0 <= d1 <= 99 -> 0 <= d2 <= 99 ->
  js_str_lt (iso_date_string y1 m1 d1) (iso_date_string y2 m2 d2) = true <->
  date_lt (y1, m1, d1) (y2, m2, d2).
Proof.
  intros. unfold iso_date_string. rewrite !iso_year_four by assumption.
  rewrite js_str_lt_four_digits by assumption. rewrite js_str_lt_cons_same.
  rewrite js_str_lt_two_digits by assumption. rewrite js_str_lt_cons_same.
  rewrite <- (append_empty_r (two_digits d1)), <- (append_empty_r (two_digits d2)).
  rewrite js_str_lt_two_digits by assumption. simpl.
  destruct (Z.ltb_spec y1 y2); destruct (Z.ltb_spec y2 y1);
  destruct (Z.ltb_spec m1 m2); destruct (Z.ltb_spec m2 m1);
  destruct (Z.ltb_spec d1 d2); destruct (Z.ltb_spec d2 d1);
    split; intros; try lia; try discriminate; try reflexivity.
Qed.

Lemma two_digit_decomp n : 0 <= n <= 99 -> 10 * (n / 10 mod 10) + n mod 10 = n.
Proof. intros. Z.div_mod_to_equations. lia. Qed.

Lemma four_digit_decomp n :
  0 <= n <= 9999 ->
  1000 * (n / 100 / 10 mod 10) + 100 * (n / 100 mod 10) + 10 * (n mod 100 / 10 mod 10)
  + n mod 100 mod 10 = n.
Proof.
  intros H. pose proof (two_digit_decomp (n / 100) ltac:(Z.div_mod_to_equations; lia)).
  pose proof (two_digit_decomp (n mod 100) ltac:(Z.div_mod_to_equations; lia)).
  pose proof (Z.div_mod n 100). lia.
Qed.

Lemma two_digits_of a b :
  0 <= a <= 9 -> 0 <= b <= 9 -> (10 * a + b) / 10 mod 10 = a /\ (10 * a + b) mod 10 = b.
Proof. intros. split; Z.div_mod_to_equations; lia. Qed.

Lemma four_digits_of a b c e :
  0 <= a <= 9 -> 0 <= b <= 9 -> 0 <= c <= 9 -> 0 <= e <= 9 ->
  (1000 * a + 100 * b + 10 * c + e) / 100 = 10 * a + b /\
  (1000 * a + 100 * b + 10 * c + e) mod 100 = 10 * c + e.
Proof. intros. split; Z.div_mod_to_equations; lia. Qed.

Lemma parse_iso_date_string y m d :
  0 <= y <= 9999 -> 1 <= m <= 12 -> 1 <= d <= 31 ->
  parse_iso_date (iso_date_string y m d) = Some (y, m, d).
Proof.
  intros Hy Hm Hd. unfold iso_date_string. rewrite iso_year_four by exact Hy.
  unfold four_digits, two_digits. rewrite !append_cons, !append_empty_l. simpl.
  rewrite !digit_value_char by (Z.div_mod_to_equations; lia).
  match goal with |- (if ?c then _ else _) = _ => replace c with true end.
  - rewrite four_digit_decomp, !two_digit_decomp by lia. reflexivity.
  - symmetry. rewrite !two_digit_decomp by lia. rewrite !andb_true_iff, !Z.leb_le. lia.
Qed.

(** Every string the parser accepts is the canonical printing of its date. *)
Lemma parse_iso_date_canonical s y m d :
  parse_iso_date s = Some (y, m, d) ->
  s = iso_date_string y m d /\ 0 <= y <= 9999 /\ 1 <= m <= 12 /\ 1 <= d <= 31.
Proof.
  unfold parse_iso_date.
  destruct s as [|a1 [|a2 [|a3 [|a4 [|s1 [|b1 [|b2 [|s2 [|c1 [|c2 [|]]]]]]]]]]];
    try discriminate.
  destruct (digit_value a1) as [x1|] eqn:E1; [|discriminate].
  destruct (digit_value a2) as [x2|] eqn:E2; [|discriminate].
  destruct (digit_value a3) as [x3|] eqn:E3; [|discriminate].
  destruct (digit_value a4) as [x4|] eqn:E4; [|discriminate].
  destruct (digit_value b1) as [x5|] eqn:E5; [|discriminate].
  destruct (digit_value b2) as [x6|] eqn:E6; [|discriminate].
  destruct (digit_value c1) as [x7|] eqn:E7; [|discriminate].
  destruct (digit_value c2) as [x8|] eqn:E8; [|discriminate].
  apply digit_value_inv in E1 as [? ->], E2 as [? ->], E3 as [? ->], E4 as [? ->],
    E5 as [? ->], E6 as [? ->], E7 as [? ->], E8 as [? ->].
  destruct (Ascii.eqb_spec s1 "-"%char) as [->|]; [|discriminate].
  destruct (Ascii.eqb_spec s2 "-"%char) as [->|]; [|discriminate]. simpl.
  destruct (_ && _) eqn:Hc; [|discriminate]. intros [= <- <- <-].
  rewrite !andb_true_iff, !Z.leb_le in Hc.
  split; [|lia]. unfold iso_date_string. rewrite iso_year_four by lia.
  unfold four_digits. destruct (four_digits_of x1 x2 x3 x4) as [-> ->]; try assumption.
  unfold two_digits. rewrite !append_cons, !append_empty_l.
  destruct (two_digits_of x1 x2) as [-> ->]; try assumption.
  destruct (two_digits_of x3 x4) as [-> ->]; try assumption.
  destruct (two_digits_of x5 x6) as [-> ->]; try assumption.
  destruct (two_digits_of x7 x8) as [-> ->]; try assumption.
  reflexivity.
Qed.

Lemma date_lt_trichotomy a b : date_lt a b \/ a = b \/ date_lt b a.
Proof.
  destruct a as [[y1 m1] d1], b as [[y2 m2] d2]. simpl.
  destruct (Z.lt_trichotomy y1 y2) as [H|[->|H]]; [left; left; exact H| |right; right; left; exact H].
  destruct (Z.lt_trichotomy m1 m2) as [H|[->|H]];
    [left; right; split; [reflexivity|left; exact H]| |right; right; right; split; [reflexivity|left; exact H]].
  destruct (Z.lt_trichotomy d1 d2) as [H|[->|H]]; [left; right; split; [reflexivity|right; split; [reflexivity|exact H]]
    | right; left; reflexivity
    | right; right; right; split; [reflexivity|right; split; [reflexivity|exact H]]].
Qed.

Lemma days_from_civil_le_iff y1 m1 d1 y2 m2 d2 :
  valid_date y1 m1 d1 -> valid_date y2 m2 d2 ->
  days_from_civil y1 m1 d1 <= days_from_civil y2 m2 d2 <-> ~ date_lt (y2, m2, d2) (y1, m1, d1).
Proof.
  intros H1 H2. split.
  - intros Hle Hlt. pose proof (days_from_civil_lt _ _ _ _ _ _ H2 H1 Hlt). lia.
  - intros Hn. destruct (date_lt_trichotomy (y1, m1, d1) (y2, m2, d2)) as [Hlt|[Heq|Hgt]].
    + pose proof (days_from_civil_lt _ _ _ _ _ _ H1 H2 Hlt). lia.
    + injection Heq as -> -> ->. lia.
    + contradiction.
Qed.

(** Comparing the [Date] objects of two valid date strings is comparing
    the strings: [new Date(a) <= new Date(b)] exactly when [a <= b]. *)
Lemma time_le_iso s1 s2 :
  iso_valid s1 = true -> iso_valid s2 = true ->
  time_le (Date_parse s1) (Date_parse s2) = js_str_le s1 s2.
Proof.
  unfold iso_valid, Date_parse, js_str_le.
  destruct (parse_iso_date s1) as [[[y1 m1] d1]|] eqn:P1; [|discriminate].
  destruct (parse_iso_date s2) as [[[y2 m2] d2]|] eqn:P2; [|discriminate].
  intros V1%valid_dateb_spec V2%valid_dateb_spec.
  apply parse_iso_date_canonical in P1 as (-> & ? & ? & ?).
  apply parse_iso_date_canonical in P2 as (-> & ? & ? & ?). simpl.
  pose proof (iso_date_string_lt y2 m2 d2 y1 m1 d1) as Hs.
  pose proof (days_from_civil_le_iff y1 m1 d1 y2 m2 d2 V1 V2) as Hd.
  destruct (js_str_lt (iso_date_string y2 m2 d2) (iso_date_string y1 m1 d1)) eqn:E; simpl.
  - apply Z.leb_gt. unfold ms_per_day. rewrite <- Hs in Hd by lia. intuition lia.
  - apply Z.leb_le. unfold ms_per_day.
    assert (~ date_lt (y2, m2, d2) (y1, m1, d1)) as Hn by (rewrite <- Hs by lia; congruence).
    apply Hd in Hn. lia.
Qed.

(** In the first [tz] milliseconds of a local day [L] east of UTC, the
    UTC date is the day before: [iso_date_part] names day [L - 1]. *)
Lemma iso_date_part_early_morning tz t :
  0 < tz < ms_per_day -> (t + tz) mod ms_per_day < tz ->
  iso_date_part t = iso_date_part (((t + tz) / ms_per_day - 1) * ms_per_day).
Proof.
  intros Htz Hr. unfold iso_date_part. rewrite Z.div_mul by discriminate.
  replace (t / ms_per_day) with ((t + tz) / ms_per_day - 1); [reflexivity|].
  unfold ms_per_day in *. Z.div_mod_to_equations. nia.
Qed.
