(* ===== verification/Transaction.v ===== *)
(** * The transaction store

    The data model of [src/script.js] and the operations that change the
    global array [transactions] and the modal state
    [editingTransactionId]: [handleFormSubmit] (lines 224-252: add a new
    transaction, or overwrite the one being edited), [deleteTransaction]
    (254-275), [openAddModal] (192-199), [openEditModal] (201-215) and
    [closeModal] (217-221).  Persistence and the recomputation of the
    views that every mutation triggers are composed in later files; here
    the store is the pair of the array and the modal state.

    The invariant is that ids are unique.  It is preserved by edits and
    deletions unconditionally and by additions when the clock read by
    [Date.now()] has moved past every id already stored; two additions in
    the same millisecond break it ([submit_same_millisecond_duplicates]). *)

From S2P Require Import Prelude JsString.

Open Scope string_scope.
Open Scope Z_scope.

(** ** Data *)

(** [t.type]: the select offers ['income'] and ['expense']. *)
Inductive tx_type := Income | Expense.

#[export] Instance tx_type_eq_dec : EqDecision tx_type.
Proof. solve_decision. Defined.

(** A stored transaction [{ id, type, category, amount, date, description }]. *)
Record transaction := mkTransaction {
  id : string;
  type : tx_type;
  category : string;
  amount : Z;
  date : string;
  description : string
}.

#[export] Instance transaction_eq_dec : EqDecision transaction.
Proof. solve_decision. Defined.

(** [formData] of [handleFormSubmit]: the five form fields, already read
    from the DOM ([amount] through [parseFloat]). *)
Record form_data := mkFormData {
  form_type : tx_type;
  form_category : string;
  form_amount : Z;
  form_date : string;
  form_description : string
}.

(** The part of the global state this component owns. *)
Record store := mkStore {
  transactions : list transaction;
  editingTransactionId : option string
}.

(** ** Operations *)

(** [if (editingTransactionId)]: [null] and the empty string are falsy. *)
Definition editing_active (e : option string) : option string :=
  match e with
  | Some eid => if eid === "" then None else Some eid
  | None => None
  end.

(** [{ ...transactions[index], ...formData }]: the stored record with every
    form field overwritten; the id is kept. *)
Definition spread_form (t : transaction) (fd : form_data) : transaction :=
  {| id := id t; type := form_type fd; category := form_category fd;
     amount := form_amount fd; date := form_date fd;
     description := form_description fd |}.

(** [{ id: Date.now().toString(), ...formData }]. *)
Definition new_transaction (now : Z) (fd : form_data) : transaction :=
  {| id := number_to_string now; type := form_type fd;
     category := form_category fd; amount := form_amount fd;
     date := form_date fd; description := form_description fd |}.

(** [transactions[index] = f(transactions[index])]: a negative index
    ([findIndex] found nothing) writes a property named "-1" that is not
    an element of the array and is dropped by [JSON.stringify], so the
    element list is unchanged. *)
Definition assign_index (l : list transaction) (index : Z)
    (f : transaction -> transaction) : list transaction :=
  if index <? 0 then l else alter f (Z.to_nat index) l.

(** [closeModal]: hide the dialog and forget the edited id. *)
Definition closeModal (st : store) : store :=
  {| transactions := transactions st; editingTransactionId := None |}.

(** [openAddModal]: a fresh form, no edited id. *)
Definition openAddModal (st : store) : store :=
  {| transactions := transactions st; editingTransactionId := None |}.

(** [openEditModal(id)]: remember the id if a transaction has it. *)
Definition openEditModal (eid : string) (st : store) : store :=
  match find_first (fun t => id t === eid) (transactions st) with
  | None => st
  | Some _ => {| transactions := transactions st; editingTransactionId := Some eid |}
  end.

(** [handleFormSubmit]: edit the transaction being edited, or prepend a
    new one ([unshift]), then [closeModal()]. *)
Definition handleFormSubmit (now : Z) (formData : form_data) (st : store) : store :=
  let txs := transactions st in
  let txs' :=
    match editing_active (editingTransactionId st) with
    | Some eid =>
        let index := findIndex (fun t => id t === eid) txs in
        assign_index txs index (fun t => spread_form t formData)
    | None => new_transaction now formData :: txs
    end in
  closeModal {| transactions := txs'; editingTransactionId := editingTransactionId st |}.

(** [deleteTransaction(id)]: after the confirmation dialog resolves with
    [isConfirmed], keep the transactions whose id differs. *)
Definition deleteTransaction (isConfirmed : bool) (did : string) (st : store) : store :=
  if isConfirmed
  then {| transactions := List.filter (fun t => id t !== did) (transactions st);
          editingTransactionId := editingTransactionId st |}
  else st.

(** ** The store as a transition system

    The clock [c] is a lower bound for the next [Date.now()]: a submit at
    time [now >= c] moves it to [now + 1]. *)
Inductive store_step : Z * store -> Z * store -> Prop :=
  | step_submit c now fd st :
      c <= now -> store_step (c, st) (now + 1, handleFormSubmit now fd st)
  | step_delete c b did st : store_step (c, st) (c, deleteTransaction b did st)
  | step_open_edit c eid st : store_step (c, st) (c, openEditModal eid st)
  | step_open_add c st : store_step (c, st) (c, openAddModal st)
  | step_close c st : store_step (c, st) (c, closeModal st).

(** The invariant: ids are unique and none is the printed form of a time
    the clock has not reached yet. *)
Definition store_inv (cs : Z * store) : Prop :=
  NoDup (map id (transactions cs.2)) /\
  Forall (fun t => forall k, cs.1 <= k -> id t <> number_to_string k) (transactions cs.2).

(** ** Lemmas *)

Lemma map_id_alter (f : transaction -> transaction) i l :
  (forall t, id (f t) = id t) -> map id (alter f i l) = map id l.
Proof.
  intros Hf. revert i. induction l as [|t l IH]; intros [|i]; simpl; [done|done|..].
  - by rewrite Hf.
  - f_equal. apply IH.
Qed.

Lemma map_id_assign_index l index f :
  (forall t, id (f t) = id t) -> map id (assign_index l index f) = map id l.
Proof. intros Hf. unfold assign_index. destruct (index <? 0); auto using map_id_alter. Qed.

Lemma In_alter_inv (f : transaction -> transaction) i l t :
  In t (alter f i l) -> In t l \/ exists t0, In t0 l /\ t = f t0.
Proof.
  revert i. induction l as [|t1 l IH]; intros [|i]; simpl; try tauto.
  - intros [<-|H]; [right; eauto|left; auto].
  - intros [<-|H]; [left; auto|]. destruct (IH i H) as [?|(t0 & ? & ->)]; eauto.
Qed.

Lemma In_assign_index_inv l index f t :
  In t (assign_index l index f) -> In t l \/ exists t0, In t0 l /\ t = f t0.
Proof. unfold assign_index. destruct (index <? 0); [auto|apply In_alter_inv]. Qed.

Lemma NoDup_map_filter {A B} (g : A -> B) (p : A -> bool) l :
  NoDup (map g l) -> NoDup (map g (List.filter p l)).
Proof.
  induction l as [|x l IH]; simpl; [auto|].
  intros Hnd. apply NoDup_cons in Hnd as [Hx Hnd].
  destruct (p x); simpl; [|auto]. constructor; [|auto].
  rewrite list_elem_of_In in *. intros Hin. apply Hx. apply in_map_iff in Hin as (y & Hy & Hyin).
  apply filter_In in Hyin. apply in_map_iff. exists y. tauto.
Qed.

#[export] Hint Resolve map_id_alter map_id_assign_index NoDup_map_filter : ft.

Lemma findIndex_first_match (eid : string) l t :
  find_first (fun t => id t === eid) l = Some t ->
  exists i, findIndex (fun t => id t === eid) l = Z.of_nat i /\ l !! i = Some t.
Proof.
  intros Hf. destruct (findIndex_range (fun t => id t === eid) l) as [E|Hr].
  - apply findIndex_none in E. apply find_first_Some_In in Hf as [Hin Hp].
    rewrite Forall_forall in E. rewrite E in Hp; [discriminate|by apply list_elem_of_In].
  - destruct (findIndex_lookup _ l (proj1 Hr)) as (x & Hx & _ & Hf').
    exists (Z.to_nat (findIndex (fun t => id t === eid) l)).
    split; [lia|congruence].
Qed.

Lemma store_inv_clock_mono c c' txs e :
  c <= c' -> store_inv (c, mkStore txs e) -> store_inv (c', mkStore txs e).
Proof.
  intros Hc [Hnd Hf]. split; [exact Hnd|]. simpl in *.
  eapply Forall_impl; [exact Hf|]. intros t Ht k Hk. apply Ht. lia.
Qed.

Lemma store_step_inv s s' : store_step s s' -> store_inv s -> store_inv s'.
Proof.
  intros Hstep. destruct Hstep as [c now fd [txs e] Hc|c b did [txs e]|c eid [txs e]|c [txs e]|c [txs e]];
    intros [Hnd Hf]; simpl in *.
  - unfold handleFormSubmit, closeModal. simpl.
    destruct (editing_active e) as [eid|].
    + split; simpl.
      * rewrite map_id_assign_index by reflexivity. exact Hnd.
      * apply Forall_forall. intros t Ht%list_elem_of_In k Hk.
        apply In_assign_index_inv in Ht as [Ht|(t0 & Ht0 & ->)];
          rewrite Forall_forall in Hf.
        -- apply Hf; [by apply list_elem_of_In|lia].
        -- apply (Hf t0); [by apply list_elem_of_In|lia].
    + split; simpl.
      * constructor; [|exact Hnd]. rewrite list_elem_of_In, in_map_iff.
        intros (t & Ht & Hin). rewrite Forall_forall in Hf.
        apply (Hf t (proj2 (list_elem_of_In _ _) Hin) now Hc). exact Ht.
      * constructor.
        -- intros k Hk Heq. apply number_to_string_inj in Heq. simpl in Heq. lia.
        -- eapply Forall_impl; [exact Hf|]. intros t Ht k Hk. apply Ht. lia.
  - unfold deleteTransaction. destruct b; [|split; assumption]. split; simpl.
    + apply NoDup_map_filter. exact Hnd.
    + apply Forall_List_filter. exact Hf.
  - unfold openEditModal. simpl. destruct (find_first _ txs); split; assumption.
  - split; assumption.
  - split; assumption.
Qed.

(** ** Properties *)

(** The edit branch of [handleFormSubmit], as a lookup-and-insert. *)
Lemma submit_edit_insert now fd st eid t :
  editingTransactionId st = Some eid -> eid <> "" ->
  find_first (fun t => id t === eid) (transactions st) = Some t ->
  exists i, transactions st !! i = Some t /\
    transactions (handleFormSubmit now fd st) = <[i := spread_form t fd]> (transactions st).
Proof.
  intros He Hne Hf. destruct (findIndex_first_match eid _ t Hf) as (i & Hi & Hl).
  exists i. split; [exact Hl|].
  unfold handleFormSubmit, editing_active. rewrite He. js_cases.
  rewrite Hi. unfold assign_index.
  destruct (Z.ltb_spec (Z.of_nat i) 0); [lia|]. rewrite Nat2Z.id.
  exact (alter_as_insert (fun t0 => spread_form t0 fd) _ _ _ Hl).
Qed.

(** C6. Editing: when the modal edits a non-empty id that some transaction
    has, a submit replaces the first transaction with that id by the record
    with that id and the five form fields (type, category, amount, date,
    description), leaves every other position unchanged, and closes the
    modal. *)
Theorem handleFormSubmit_edit now fd st eid t :
  editingTransactionId st = Some eid -> eid <> "" ->
  find_first (fun t => id t === eid) (transactions st) = Some t ->
  exists i, transactions st !! i = Some t /\
    transactions (handleFormSubmit now fd st) =
      <[i := mkTransaction eid (form_type fd) (form_category fd) (form_amount fd)
                (form_date fd) (form_description fd)]> (transactions st) /\
    editingTransactionId (handleFormSubmit now fd st) = None.
Proof.
  intros He Hne Hf. destruct (submit_edit_insert now fd st eid t He Hne Hf) as (i & Hl & Hi).
  exists i. split; [exact Hl|]. split; [|reflexivity].
  apply find_first_Some_In in Hf as [_ Hp]. apply bool_decide_eq_true_1 in Hp.
  rewrite Hi, <- Hp. reflexivity.
Qed.

(** C7. Editing an id that no transaction has (the [findIndex] result is
    -1) leaves the list of transactions unchanged and closes the modal: the
    write goes to a property named "-1", which is not an element. *)
Theorem handleFormSubmit_edit_missing now fd st eid :
  editingTransactionId st = Some eid -> eid <> "" ->
  Forall (fun t => id t <> eid) (transactions st) ->
  handleFormSubmit now fd st = {| transactions := transactions st; editingTransactionId := None |}.
Proof.
  intros He Hne Hall. unfold handleFormSubmit, editing_active. rewrite He. js_cases.
  replace (findIndex _ _) with (-1) .
  - reflexivity.
  - symmetry. apply findIndex_none. eapply Forall_impl; [exact Hall|].
    intros t Ht. case_bool_decide; [contradiction|reflexivity].
Qed.

(** C8. Deleting: once the confirmation dialog is confirmed, the remaining
    transactions are exactly the earlier ones whose id differs from the
    deleted id, in their order; a cancelled dialog changes nothing. *)
Theorem deleteTransaction_spec did st :
  transactions (deleteTransaction true did st) =
    List.filter (fun t => id t !== did) (transactions st) /\
  (forall t, In t (transactions (deleteTransaction true did st)) <->
             In t (transactions st) /\ id t <> did) /\
  deleteTransaction false did st = st.
Proof.
  split; [reflexivity|]. split; [|reflexivity].
  intros t. simpl. rewrite filter_In.
  case_bool_decide; simpl; split; intros [? ?]; split; auto; congruence.
Qed.

(** C2. Unique ids: in every state reachable from one where ids are unique
    and no id is the printed form of a future [Date.now()] value, ids are
    still unique, provided each submit reads a clock value at least the one
    the previous submit read plus one millisecond. *)
Theorem store_reachable_inv s0 s :
  store_inv s0 -> rtc store_step s0 s -> store_inv s.
Proof. intros H0 Hr. induction Hr; eauto using store_step_inv. Qed.

(** Adding then editing round trip: a transaction added at time [now]
    is the one [openEditModal] selects by the id [String(now)], and a
    second submit then overwrites exactly it, leaving the earlier
    transactions as they were. *)
Theorem add_then_edit now now' fd fd' st :
  editing_active (editingTransactionId st) = None ->
  transactions (handleFormSubmit now' fd'
     (openEditModal (number_to_string now) (handleFormSubmit now fd st))) =
  spread_form (new_transaction now fd) fd' :: transactions st.
Proof.
  intros He. unfold handleFormSubmit at 2. rewrite He. simpl.
  unfold openEditModal. simpl. js_cases.
  unfold handleFormSubmit, editing_active. simpl.
  pose proof (number_to_string_nonempty now). js_cases. reflexivity.
Qed.

(** C9. Two additions in the same millisecond, from any store not in
    edit mode, produce two transactions with the same id [String(now)]:
    the ids are no longer unique, and deleting that id removes both new
    transactions together with any older one that had it. *)
Theorem submit_same_millisecond_duplicates now fd fd' st :
  editing_active (editingTransactionId st) = None ->
  let st2 := handleFormSubmit now fd' (handleFormSubmit now fd st) in
  ~ NoDup (map id (transactions st2)) /\
  transactions (deleteTransaction true (number_to_string now) st2) =
    List.filter (fun t => id t !== number_to_string now) (transactions st).
Proof.
  intros He st2. subst st2. unfold handleFormSubmit. rewrite He.
  cbn [closeModal editingTransactionId editing_active transactions].
  split.
  - intros Hnd. apply NoDup_cons in Hnd as [Hn _]. apply Hn. left.
  - unfold deleteTransaction.
    cbn [closeModal transactions List.filter new_transaction id].
    rewrite !bool_decide_eq_true_2 by reflexivity. reflexivity.
Qed.

(** ** Witnesses on the example of the specification *)

Definition ex_income : transaction :=
  mkTransaction "1704067200000" Income "Gaji" 100000 "2024-01-01" "".
Definition ex_food : transaction :=
  mkTransaction "1704153600000" Expense "Makanan" 40000 "2024-01-02" "Makan siang".
Definition ex_form : form_data := mkFormData Expense "Transportasi" 15000 "2024-01-03" "Bus".

Lemma handleFormSubmit_edit_witness :
  exists i, transactions (mkStore [ex_food; ex_income] (Some "1704067200000")) !! i = Some ex_income /\
    transactions (handleFormSubmit 0 ex_form (mkStore [ex_food; ex_income] (Some "1704067200000"))) =
      <[i := mkTransaction "1704067200000" (form_type ex_form) (form_category ex_form)
               (form_amount ex_form) (form_date ex_form) (form_description ex_form)]>
        (transactions (mkStore [ex_food; ex_income] (Some "1704067200000"))) /\
    editingTransactionId (handleFormSubmit 0 ex_form
      (mkStore [ex_food; ex_income] (Some "1704067200000"))) = None.
Proof.
  apply (handleFormSubmit_edit 0 ex_form (mkStore [ex_food; ex_income] (Some "1704067200000"))
           "1704067200000" ex_income).
  - reflexivity.
  - discriminate.
  - reflexivity.
Defined.

Lemma handleFormSubmit_edit_missing_witness :
  handleFormSubmit 0 ex_form (mkStore [ex_food; ex_income] (Some "42")) =
  mkStore [ex_food; ex_income] None.
Proof.
  apply (handleFormSubmit_edit_missing 0 ex_form (mkStore [ex_food; ex_income] (Some "42")) "42").
  - reflexivity.
  - discriminate.
  - repeat constructor; discriminate.
Defined.

Lemma store_reachable_inv_witness :
  store_inv (1704067200000, mkStore [] None) /\
  store_inv (1704067200001, handleFormSubmit 1704067200000 ex_form (mkStore [] None)).
Proof.
  assert (H0 : store_inv (1704067200000, mkStore [] None)) by (split; constructor).
  split; [exact H0|].
  apply (store_reachable_inv (1704067200000, mkStore [] None)); [exact H0|].
  eapply rtc_l; [|apply rtc_refl].
  change 1704067200001 with (1704067200000 + 1). apply step_submit. lia.
Defined.

Lemma add_then_edit_witness :
  editing_active (editingTransactionId (mkStore [ex_income] None)) = None /\
  transactions (handleFormSubmit 1704153600001 ex_form
     (openEditModal (number_to_string 1704153600000)
        (handleFormSubmit 1704153600000 ex_form (mkStore [ex_income] None)))) =
  [spread_form (new_transaction 1704153600000 ex_form) ex_form; ex_income].
Proof.
  split; [reflexivity|].
  apply (add_then_edit 1704153600000 1704153600001 ex_form ex_form (mkStore [ex_income] None)).
  reflexivity.
Defined.

Lemma submit_same_millisecond_duplicates_witness :
  let st2 := handleFormSubmit 1704067200000 ex_form
               (handleFormSubmit 1704067200000 ex_form (mkStore [ex_income] None)) in
  ~ NoDup (map id (transactions st2)) /\
  transactions (deleteTransaction true (number_to_string 1704067200000) st2) =
    List.filter (fun t => id t !== number_to_string 1704067200000)
      (transactions (mkStore [ex_income] None)).
Proof. apply submit_same_millisecond_duplicates. reflexivity. Defined.
