(* ===== verification/Aggregate.v ===== *)
(** * Aggregates: dashboard totals, pie and bar chart data, savings progress

    [updateDashboard] (src/script.js 171-189) and the pie chart data of
    [initializeCharts]/[updateCharts] (src/charts.js 11-12, 96-98) compute
    the income and expense totals with [filter] and [reduce];
    [getCategoryExpenseData] (src/charts.js 148-159) buckets the expenses
    by a fixed list of six categories and keeps the positive buckets; the
    savings progress (src/script.js 181-185) is [min(balance / target *
    100, 100)] when the target is positive, displayed through
    [Math.round].  Percentages are rationals ([Q]): the division is exact
    here, where the source divides doubles. *)

From S2P Require Import Prelude JsString Transaction.
From Stdlib Require Import QArith Qround Qminmax.

Open Scope Z_scope.

(** ** Totals *)

(** [t => t.type === ty] *)
Definition is_type (ty : tx_type) (t : transaction) : bool := type t === ty.

(** [transactions.filter(t => t.type === ty).reduce((s, t) => s + t.amount, 0)] *)
Definition total_of (ty : tx_type) (txs : list transaction) : Z :=
  reduce_sum amount (List.filter (is_type ty) txs).

Record totals := mkTotals { totalIncome : Z; totalExpense : Z; balance : Z }.

(** The three numbers [updateDashboard] computes. *)
Definition dashboard_totals (txs : list transaction) : totals :=
  let totalIncome := total_of Income txs in
  let totalExpense := total_of Expense txs in
  {| totalIncome := totalIncome; totalExpense := totalExpense;
     balance := totalIncome - totalExpense |}.

(** [pieChart.data.datasets[0].data = [totalIncome, totalExpense]] *)
Definition pieChartData (txs : list transaction) : list Z :=
  [total_of Income txs; total_of Expense txs].

(** ** Expenses per category *)

(** The fixed category list of [getCategoryExpenseData]. *)
Definition expense_categories : list string :=
  ["Makanan"; "Transportasi"; "Hiburan"; "Pendidikan"; "Tabungan"; "Lainnya"]%string.

(** [transactions.filter(t => t.type === 'expense' && t.category === cat)
     .reduce((s, t) => s + t.amount, 0)] *)
Definition category_amount (txs : list transaction) (cat : string) : Z :=
  reduce_sum amount
    (List.filter (fun t => (type t === Expense) && (category t === cat)) txs).

Record chart_data := mkChartData { labels : list string; amounts : list Z }.

(** The [reduce] over the categories that keeps the positive buckets, in
    the categories' order. *)
Definition keep_positive (acc : chart_data) (ca : string * Z) : chart_data :=
  let '(cat, a) := ca in
  if 0 <? a then {| labels := labels acc ++ [cat]; amounts := amounts acc ++ [a] |}
  else acc.

Definition categoryExpenseData (categories : list string) (txs : list transaction) : chart_data :=
  let amounts := map (category_amount txs) categories in
  fold_left keep_positive (combine categories amounts) {| labels := []; amounts := [] |}.

Definition getCategoryExpenseData (txs : list transaction) : chart_data :=
  categoryExpenseData expense_categories txs.

(** ** Savings progress *)

(** [if (savingsTarget > 0) progress = Math.min((balance / savingsTarget) * 100, 100)] *)
Definition savings_progress (balance savingsTarget : Z) : option Q :=
  if 0 <? savingsTarget
  then Some (Qmin ((inject_Z balance / inject_Z savingsTarget) * inject_Z 100) (inject_Z 100))
  else None.

(** [Math.round]: the nearest integer, halves rounded up. *)
Definition js_round (q : Q) : Z := Qfloor (q + (1 # 2)).

(** ** Lemmas *)

Lemma total_of_nil ty : total_of ty [] = 0.
Proof. reflexivity. Qed.

Lemma total_of_cons ty t txs :
  total_of ty (t :: txs) = (if is_type ty t then amount t else 0) + total_of ty txs.
Proof.
  unfold total_of. simpl. destruct (is_type ty t); rewrite ?reduce_sum_cons; lia.
Qed.

Lemma total_of_app ty l1 l2 : total_of ty (l1 ++ l2) = total_of ty l1 + total_of ty l2.
Proof. unfold total_of. rewrite List.filter_app. apply reduce_sum_app. Qed.

Lemma total_of_Permutation ty l1 l2 : l1 ≡ₚ l2 -> total_of ty l1 = total_of ty l2.
Proof.
  intros Hp. unfold total_of. apply reduce_sum_Permutation.
  induction Hp; simpl; try destruct (is_type ty _); try destruct (is_type ty _);
    try constructor; eauto using Permutation_trans.
Qed.

(** The signed amount of one transaction: [+amount] for income, [-amount]
    for expense. *)
Definition signed_amount (t : transaction) : Z :=
  match type t with Income => amount t | Expense => - amount t end.

Lemma balance_signed txs : balance (dashboard_totals txs) = reduce_sum signed_amount txs.
Proof.
  unfold dashboard_totals. simpl. induction txs as [|t txs IH]; [reflexivity|].
  rewrite !total_of_cons, reduce_sum_cons. unfold is_type. unfold signed_amount at 1.
  destruct (type t); js_cases; lia.
Qed.

Lemma keep_positive_fold l acc :
  fold_left keep_positive l acc =
  {| labels := labels acc ++ map fst (List.filter (fun ca => 0 <? ca.2) l);
     amounts := amounts acc ++ map snd (List.filter (fun ca => 0 <? ca.2) l) |}.
Proof.
  revert acc. induction l as [|[c a] l IH]; intros acc; simpl.
  - rewrite !app_nil_r. destruct acc; reflexivity.
  - rewrite IH. destruct (0 <? a); simpl; [|reflexivity]. now rewrite <- !app_assoc.
Qed.

Lemma filter_combine_map (f : string -> Z) (cats : list string) :
  List.filter (fun ca => 0 <? ca.2) (combine cats (map f cats)) =
  map (fun c => (c, f c)) (List.filter (fun c => 0 <? f c) cats).
Proof.
  induction cats as [|c cats IH]; simpl; [reflexivity|].
  destruct (0 <? f c); simpl; rewrite IH; reflexivity.
Qed.

#[export] Hint Rewrite total_of_nil total_of_cons total_of_app : ft_rw.

Lemma category_amount_nonneg txs c :
  Forall (fun t => 0 <= amount t) txs -> 0 <= category_amount txs c.
Proof. intros H. apply reduce_sum_nonneg, Forall_List_filter, H. Qed.

(** The expenses whose category is one of [cats], summed category by
    category, add up to the expenses of those categories. *)
Lemma sum_category_amounts txs cats :
  NoDup cats ->
  reduce_sum (category_amount txs) cats =
  reduce_sum amount (List.filter (fun t => (type t === Expense) &&
                                           bool_decide (category t ∈ cats)) txs).
Proof.
  induction cats as [|c cats IH]; intros Hnd.
  - rewrite reduce_sum_nil, (filter_ext_in _ (fun _ => false)).
    + clear. induction txs; auto.
    + intros t _. rewrite (bool_decide_eq_false_2 (category t ∈ [])) by set_solver.
      apply andb_false_r.
  - apply NoDup_cons in Hnd as [Hc Hnd]. rewrite reduce_sum_cons, IH by exact Hnd.
    unfold category_amount. symmetry.
    rewrite (reduce_sum_filter_split amount (fun t => category t === c)), !filter_filter_and.
    f_equal; f_equal; apply filter_ext_in; intros t _;
      destruct (type t === Expense); simpl; try reflexivity;
      repeat case_bool_decide; subst; simpl; try reflexivity; exfalso; set_solver.
Qed.

Lemma sum_positive_part (f : string -> Z) cats :
  Forall (fun c => 0 <= f c) cats ->
  reduce_sum f (List.filter (fun c => 0 <? f c) cats) = reduce_sum f cats.
Proof.
  induction 1 as [|c cats Hc _ IH]; [reflexivity|]. simpl.
  destruct (Z.ltb_spec 0 (f c)); rewrite ?reduce_sum_cons, IH; lia.
Qed.

Lemma progress_raw_le b t :
  0 < t -> b <= t -> (inject_Z b / inject_Z t * inject_Z 100 <= inject_Z 100)%Q.
Proof.
  intros Ht Hb. apply Qle_trans with (inject_Z 1 * inject_Z 100)%Q; [|apply Qle_refl].
  apply Qmult_le_compat_r; [|discriminate].
  apply Qle_shift_div_r; [unfold Qlt; simpl; lia|].
  rewrite Qmult_1_l. unfold Qle; simpl; lia.
Qed.

Lemma progress_raw_ge b t :
  0 < t -> t <= b -> (inject_Z 100 <= inject_Z b / inject_Z t * inject_Z 100)%Q.
Proof.
  intros Ht Hb. apply Qle_trans with (inject_Z 1 * inject_Z 100)%Q; [apply Qle_refl|].
  apply Qmult_le_compat_r; [|discriminate].
  apply Qle_shift_div_l; [unfold Qlt; simpl; lia|].
  rewrite Qmult_1_l. unfold Qle; simpl; lia.
Qed.

Lemma progress_raw_neg b t :
  0 < t -> b < 0 -> (inject_Z b / inject_Z t * inject_Z 100 < 0)%Q.
Proof.
  intros Ht Hb. apply Qlt_le_trans with (0 * inject_Z 100)%Q; [|apply Qle_refl].
  apply Qmult_lt_r; [reflexivity|].
  apply Qlt_shift_div_r; [unfold Qlt; simpl; lia|].
  unfold Qlt; simpl; lia.
Qed.

Lemma progress_raw_times b t :
  0 < t -> (inject_Z b / inject_Z t * inject_Z 100 * inject_Z t == inject_Z (100 * b))%Q.
Proof.
  intros Ht. rewrite inject_Z_mult. field.
  unfold Qeq; simpl; lia.
Qed.

(** The bar data in terms of [category_amount]. *)
Lemma categoryExpenseData_eq cats txs :
  labels (categoryExpenseData cats txs) =
    List.filter (fun c => 0 <? category_amount txs c) cats /\
  amounts (categoryExpenseData cats txs) =
    map (category_amount txs) (labels (categoryExpenseData cats txs)).
Proof.
  unfold categoryExpenseData. rewrite keep_positive_fold, filter_combine_map. simpl.
  rewrite !List.map_map. simpl. split; [apply map_id|reflexivity].
Qed.

(** ** Properties *)

(** C10. The bar chart of [getCategoryExpenseData]: the labels are exactly
    the categories of the input list whose sum of expense amounts is
    positive, in the list's order, and each amount is that sum over the
    transactions of type 'expense' with that category (income never
    counts), so no zero bucket and no category outside the list is ever
    returned. *)
Theorem categoryExpenseData_spec cats txs :
  let expense_sum c :=
    reduce_sum amount (List.filter (fun t => (type t === Expense) && (category t === c)) txs) in
  labels (categoryExpenseData cats txs) = List.filter (fun c => 0 <? expense_sum c) cats /\
  amounts (categoryExpenseData cats txs) = map expense_sum (labels (categoryExpenseData cats txs)) /\
  Forall (fun a => 0 < a) (amounts (categoryExpenseData cats txs)).
Proof.
  intros expense_sum. destruct (categoryExpenseData_eq cats txs) as [Hl Ha].
  split; [exact Hl|]. split; [exact Ha|]. rewrite Ha, Hl.
  apply Forall_forall. intros a Ha'%list_elem_of_In. apply in_map_iff in Ha' as (c & <- & Hc).
  apply filter_In in Hc as [_ Hc]. apply Z.ltb_lt in Hc. exact Hc.
Qed.

(** C11. When the category list has no duplicates, every expense amount is
    non-negative and every expense's category is in the list, the bar
    chart's amounts add up to the total expense of the pie chart: no
    expense is lost.  An expense with a category outside the list is
    dropped from the bar chart. *)
Theorem categoryExpenseData_total cats txs :
  NoDup cats ->
  Forall (fun t => 0 <= amount t) txs ->
  Forall (fun t => type t = Expense -> category t ∈ cats) txs ->
  reduce_sum (fun a => a) (amounts (categoryExpenseData cats txs)) = total_of Expense txs.
Proof.
  intros Hnd Hpos Hcat. destruct (categoryExpenseData_eq cats txs) as (Hl & Ha).
  rewrite Ha, Hl, reduce_sum_map.
  rewrite sum_positive_part by (apply Forall_forall; intros; apply category_amount_nonneg, Hpos).
  rewrite sum_category_amounts by exact Hnd. unfold total_of, is_type.
  f_equal. apply filter_ext_in. intros t Ht. rewrite Forall_forall in Hcat.
  specialize (Hcat t (proj2 (list_elem_of_In _ _) Ht)).
  repeat case_bool_decide; tauto.
Qed.

(** C12. Savings progress: with a target of zero or less nothing is
    computed; with a positive target the progress is at most 100 (and so
    is its rounded display), it equals [100 * balance / target] while the
    balance is at most the target, it is exactly 100 from the target on,
    and it is negative (not clamped at 0) when the balance is negative. *)
Theorem savings_progress_spec balance target :
  (target <= 0 -> savings_progress balance target = None) /\
  (0 < target -> exists q, savings_progress balance target = Some q /\
     Qle q (inject_Z 100) /\ js_round q <= 100 /\
     (balance <= target -> Qeq (q * inject_Z target) (inject_Z (100 * balance))) /\
     (target <= balance -> Qeq q (inject_Z 100)) /\
     (balance < 0 -> Qlt q 0)).
Proof.
  unfold savings_progress. split.
  - intros Ht. destruct (Z.ltb_spec 0 target); [lia|reflexivity].
  - intros Ht. destruct (Z.ltb_spec 0 target); [|lia].
    set (r := (inject_Z balance / inject_Z target * inject_Z 100)%Q).
    eexists; split; [reflexivity|]. split; [apply Q.le_min_r|]. split.
    { unfold js_round. change 100 with (Qfloor (inject_Z 100 + (1 # 2))).
      apply Qfloor_resp_le. apply Qplus_le_l. apply Q.le_min_r. }
    split; [|split].
    + intros Hb. rewrite Q.min_l by (apply progress_raw_le; lia).
      apply progress_raw_times. exact Ht.
    + intros Hb. apply Q.min_r. apply progress_raw_ge; lia.
    + intros Hb. eapply Qle_lt_trans; [apply Q.le_min_l|]. apply progress_raw_neg; lia.
Qed.

(** C13. Each store operation moves the dashboard balance by the signed
    amounts it adds and removes: a new transaction adds its signed amount
    (+amount for income, -amount for expense), an edit replaces the old
    signed amount by the new one, and a confirmed delete subtracts the
    signed amounts of every removed transaction. *)
Theorem store_ops_balance now fd st did :
  (editing_active (editingTransactionId st) = None ->
     balance (dashboard_totals (transactions (handleFormSubmit now fd st))) =
     balance (dashboard_totals (transactions st)) + signed_amount (new_transaction now fd)) /\
  (forall eid t, editingTransactionId st = Some eid -> eid <> ""%string ->
     find_first (fun t => id t === eid) (transactions st) = Some t ->
     balance (dashboard_totals (transactions (handleFormSubmit now fd st))) =
     balance (dashboard_totals (transactions st)) - signed_amount t
       + signed_amount (spread_form t fd)) /\
  balance (dashboard_totals (transactions (deleteTransaction true did st))) =
     balance (dashboard_totals (transactions st)) -
     reduce_sum signed_amount (List.filter (fun t => id t === did) (transactions st)).
Proof.
  rewrite !balance_signed. split; [|split].
  - intros He. unfold handleFormSubmit. rewrite He. simpl. rewrite reduce_sum_cons. lia.
  - intros eid t He Hne Hf.
    destruct (submit_edit_insert now fd st eid t He Hne Hf) as (i & Hl & ->).
    apply reduce_sum_insert. exact Hl.
  - simpl. rewrite (reduce_sum_filter_split signed_amount (fun t => id t !== did) (transactions st)).
    rewrite (filter_ext_in (fun x => negb (id x !== did)) (fun t => id t === did));
      [lia|intros; apply negb_involutive].
Qed.

(** The end-to-end example of the specification: an income of 100000
    on 2024-01-01 and a food expense of 40000 on 2024-01-02 give the totals
    100000 / 40000 / 60000 and the bar chart [Makanan: 40000]; a balance of
    60000 against a target of 100000 displays 60%, a balance of -5000
    displays -5%, and a target of 0 computes no progress. *)
Example spec_end_to_end :
  dashboard_totals [ex_food; ex_income] = mkTotals 100000 40000 60000 /\
  getCategoryExpenseData [ex_food; ex_income] = mkChartData ["Makanan"%string] [40000] /\
  option_map js_round (savings_progress 60000 100000) = Some 60 /\
  option_map js_round (savings_progress (-5000) 100000) = Some (-5) /\
  savings_progress 60000 0 = None.
Proof. repeat split; vm_compute; reflexivity. Qed.

(** ** Witnesses *)

Lemma categoryExpenseData_total_witness :
  NoDup expense_categories /\
  reduce_sum (fun a => a) (amounts (categoryExpenseData expense_categories [ex_food; ex_income]))
  = total_of Expense [ex_food; ex_income].
Proof.
  assert (Hnd : NoDup expense_categories) by (apply (bool_decide_unpack (NoDup expense_categories)); vm_compute; exact I).
  split; [exact Hnd|].
  apply categoryExpenseData_total; [exact Hnd| |].
  - constructor; [simpl; lia|]. constructor; [simpl; lia|constructor].
  - constructor; [intros _; simpl; constructor|].
    constructor; [intros H; discriminate|constructor].
Defined.

Lemma savings_progress_spec_witness :
  exists q, savings_progress 60000 100000 = Some q /\ Qle q (inject_Z 100) /\
    Qeq (q * inject_Z 100000) (inject_Z (100 * 60000)).
Proof.
  destruct (proj2 (savings_progress_spec 60000 100000) ltac:(lia))
    as (q & Hq & Hle & _ & Hb & _ & _).
  exists q. split; [exact Hq|]. split; [exact Hle|]. apply Hb. lia.
Defined.

Lemma store_ops_balance_witness :
  balance (dashboard_totals (transactions
     (handleFormSubmit 0 ex_form (mkStore [ex_food; ex_income] None)))) = 45000.
Proof.
  rewrite (proj1 (store_ops_balance 0 ex_form (mkStore [ex_food; ex_income] None) "")
             eq_refl).
  vm_compute. reflexivity.
Defined.
