(* ===== verification/Filter.v ===== *)
(** * The filter engine

    [filterTransactionData] (src/script.js 337-369) keeps the transactions
    that satisfy the search text (case-insensitive substring of the
    description or the category), the category, the month ([YYYY-MM] of
    the local date of [new Date(t.date)]) and the inclusive date range,
    the five inputs being read from the DOM.  The export functions of
    src/export.js call it too, so the PDF and the spreadsheet list the
    same transactions as the table.

    The local month depends on the time-zone offset [tz] of the browser:
    for offsets from 0 to one day (Indonesia is at +7h) the month of
    [new Date("YYYY-MM-DD")] is the [YYYY-MM] of the string, but west of
    UTC it is the previous day's, so the first day of every month is
    filed under the previous month ([month_filter_west_of_utc]).

    The specification's filter [spec_matches] is written on strings: the
    month is the first seven characters of the date string.  The code
    refines it east of UTC for valid dates of a year from 1000 on, where
    [String(year)] has the four digits of the prefix
    ([filterTransactionData_refines]). *)

From S2P Require Import Prelude JsString JsDate Transaction.

Open Scope Z_scope.

(** The values of the five filter inputs. *)
Record filter_inputs := mkFilterInputs {
  searchInput : string;
  categoryFilter : string;
  monthFilter : string;
  startDateFilter : string;
  endDateFilter : string
}.

(** [`${d.getFullYear()}-${String(d.getMonth() + 1).padStart(2, '0')}`]
    for [d = new Date(date)]; an invalid date prints ["NaN-NaN"]. *)
Definition month_key (tz : Z) (date : string) : string :=
  match Date_parse date with
  | None => "NaN-NaN"
  | Some t =>
      String.append (number_to_string (getFullYear tz t))
        (String "-" (padStart (number_to_string (getMonth tz t + 1)) 2 "0"))
  end.

(** [!searchTerm || (t.description && t.description.toLowerCase().includes(searchTerm))
     || t.category.toLowerCase().includes(searchTerm)] *)
Definition matchesSearch (searchTerm : string) (t : transaction) : bool :=
  (searchTerm === ""%string) ||
  ((description t !== ""%string) && includes (toLowerCase (description t)) searchTerm) ||
  includes (toLowerCase (category t)) searchTerm.

(** [!categoryFilter || transaction.category === categoryFilter] *)
Definition matchesCategory (categoryFilter : string) (t : transaction) : bool :=
  (categoryFilter === ""%string) || (category t === categoryFilter).

(** [matchesMonth]: true unless a month is chosen and the key differs. *)
Definition matchesMonth (tz : Z) (monthFilter : string) (t : transaction) : bool :=
  if monthFilter === ""%string then true else month_key tz (date t) === monthFilter.

(** [matchesDateRange]: [d >= new Date(startDate)] and [d <= new Date(endDate)]
    for the bounds that are set. *)
Definition matchesDateRange (startDate endDate : string) (t : transaction) : bool :=
  if (startDate !== ""%string) || (endDate !== ""%string) then
    let d := Date_parse (date t) in
    let r := true in
    let r := if startDate !== ""%string then r && time_le (Date_parse startDate) d else r in
    if endDate !== ""%string then r && time_le d (Date_parse endDate) else r
  else true.

Definition filterTransactionData (tz : Z) (f : filter_inputs) (txs : list transaction)
    : list transaction :=
  let searchTerm := toLowerCase (searchInput f) in
  List.filter (fun t =>
      matchesSearch searchTerm t && matchesCategory (categoryFilter f) t &&
      matchesMonth tz (monthFilter f) t &&
      matchesDateRange (startDateFilter f) (endDateFilter f) t) txs.

(** The filter of the specification, stated on the strings: the search
    is a plain case-insensitive substring test, the month is the
    [YYYY-MM] prefix of the date string, and the bounds compare as
    strings. *)
Definition spec_matches (f : filter_inputs) (t : transaction) : bool :=
  let q := toLowerCase (searchInput f) in
  ((q === ""%string) || includes (toLowerCase (description t)) q ||
     includes (toLowerCase (category t)) q) &&
  ((categoryFilter f === ""%string) || (category t === categoryFilter f)) &&
  ((monthFilter f === ""%string) || (String.substring 0 7 (date t) === monthFilter f)) &&
  ((startDateFilter f === ""%string) || js_str_le (startDateFilter f) (date t)) &&
  ((endDateFilter f === ""%string) || js_str_le (date t) (endDateFilter f)).

(** A valid date string of a year from 1000 on: below 1000, [String(year)]
    has fewer digits than the [YYYY] field. *)
Definition iso_valid_1000 (s : string) : bool :=
  match parse_iso_date s with
  | Some (y, m, d) => valid_dateb y m d && (1000 <=? y)
  | None => false
  end.

(** A bound is unset or a valid date. *)
Definition bound_ok (s : string) : bool := (s === ""%string) || iso_valid s.

(** ** Lemmas *)

Lemma includes_empty_haystack q : includes ""%string q = (q === ""%string).
Proof. destruct q; reflexivity. Qed.

Lemma matchesSearch_spec q t :
  matchesSearch q t =
  (q === ""%string) || includes (toLowerCase (description t)) q ||
  includes (toLowerCase (category t)) q.
Proof.
  unfold matchesSearch. destruct (q === ""%string) eqn:Eq; [reflexivity|].
  destruct (description t) as [|c s] eqn:E.
  - rewrite (bool_decide_eq_true_2 (""%string = ""%string)) by reflexivity.
    change (toLowerCase "") with ""%string. rewrite includes_empty_haystack, Eq. reflexivity.
  - rewrite (bool_decide_eq_false_2 (String c s = ""%string)) by discriminate. reflexivity.
Qed.

Lemma matchesDateRange_spec s e t :
  bound_ok s = true -> bound_ok e = true -> iso_valid (date t) = true ->
  matchesDateRange s e t =
  ((s === ""%string) || js_str_le s (date t)) && ((e === ""%string) || js_str_le (date t) e).
Proof.
  unfold bound_ok, matchesDateRange. intros Hs He Ht.
  destruct (s === ""%string) eqn:Es; destruct (e === ""%string) eqn:Ee; simpl in *;
    rewrite ?time_le_iso by assumption; rewrite ?andb_true_r; reflexivity.
Qed.

Lemma local_civil_midnight tz z :
  0 <= tz < ms_per_day -> local_civil tz (z * ms_per_day) = civil_from_days z.
Proof.
  intros H. unfold local_civil. f_equal.
  rewrite Z.div_add_l by (unfold ms_per_day; lia). rewrite Z.div_small by lia. lia.
Qed.

Lemma pad_month m : 1 <= m <= 12 -> padStart (number_to_string m) 2 "0" = two_digits m.
Proof.
  intros H. z_enum m 1 12%nat; vm_compute; reflexivity.
Qed.

Lemma two_digits_inj a b : 0 <= a <= 99 -> 0 <= b <= 99 -> two_digits a = two_digits b -> a = b.
Proof.
  intros Ha Hb E. unfold two_digits in E. injection E as E1 E2.
  apply (f_equal digit_value) in E1, E2.
  rewrite !digit_value_char in E1, E2 by (Z.div_mod_to_equations; lia).
  injection E1 as E1. injection E2 as E2.
  rewrite <- (two_digit_decomp a), <- (two_digit_decomp b) by lia. lia.
Qed.

Lemma append_dash_inj a1 a2 p1 p2 :
  String.length p1 = String.length p2 ->
  String.append a1 (String "-" p1) = String.append a2 (String "-" p2) -> a1 = a2 /\ p1 = p2.
Proof.
  revert a2. induction a1 as [|c a1 IH]; intros [|c2 a2] Hl E; rewrite ?append_cons, ?append_empty_l in E.
  - injection E as E. auto.
  - injection E as -> E. apply (f_equal String.length) in E. rewrite length_append_str in E.
    simpl in E. lia.
  - injection E as <- E. apply (f_equal String.length) in E. rewrite length_append_str in E.
    simpl in E. lia.
  - injection E as -> E. destruct (IH a2 Hl E) as [-> ->]. auto.
Qed.

Lemma month_key_parsed tz s y m d :
  0 <= tz < ms_per_day -> parse_iso_date s = Some (y, m, d) -> valid_date y m d ->
  month_key tz s = String.append (number_to_string y) (String "-" (two_digits m)).
Proof.
  intros Htz Hp Hv. unfold month_key, Date_parse. rewrite Hp.
  unfold getFullYear, getMonth. rewrite local_civil_midnight by exact Htz.
  rewrite civil_from_days_from_civil by exact Hv.
  replace (m - 1 + 1) with m by lia. rewrite pad_month by (destruct Hv; lia). reflexivity.
Qed.

Lemma iso_prefix7 y m d :
  0 <= y <= 9999 ->
  String.substring 0 7 (iso_date_string y m d) =
  String.append (four_digits y) (String "-" (two_digits m)).
Proof. intros Hy. unfold iso_date_string. rewrite iso_year_four by exact Hy. reflexivity. Qed.

Lemma four_digits_inj a b : 0 <= a <= 9999 -> 0 <= b <= 9999 -> four_digits a = four_digits b -> a = b.
Proof.
  intros Ha Hb E. unfold four_digits, two_digits in E. rewrite !append_cons in E.
  injection E as E1 E2 E3 E4.
  apply (f_equal digit_value) in E1, E2, E3, E4.
  rewrite !digit_value_char in E1, E2, E3, E4 by (Z.div_mod_to_equations; lia).
  injection E1 as E1. injection E2 as E2. injection E3 as E3. injection E4 as E4.
  rewrite <- (four_digit_decomp a), <- (four_digit_decomp b) by lia. lia.
Qed.

(** [String(y)] is the four-digit field for the years 1000 to 9999,
    checked on all of them. *)
Lemma number_to_string_four_digits y : 1000 <= y <= 9999 -> number_to_string y = four_digits y.
Proof.
  intros Hy.
  assert (Hall : forallb (fun y => number_to_string y === four_digits y)
                   (List.map (fun k => (1000 + Z.of_nat k)%Z) (List.seq 0 (Z.to_nat 9000))) = true)
    by (vm_compute; reflexivity).
  rewrite forallb_forall in Hall.
  specialize (Hall y (Z_range_In 1000 y (Z.to_nat 9000) ltac:(rewrite Z2Nat.id; lia))). exact (bool_decide_eq_true_1 _ Hall).
Qed.

Lemma iso_valid_1000_valid s : iso_valid_1000 s = true -> iso_valid s = true.
Proof.
  unfold iso_valid_1000, iso_valid. destruct (parse_iso_date s) as [[[y m] d]|]; [|discriminate].
  intros [H _]%andb_true_iff. exact H.
Qed.

(** East of UTC, the month key of a date from year 1000 on is the
    [YYYY-MM] prefix of its string. *)
Lemma month_key_prefix tz s :
  0 <= tz < ms_per_day -> iso_valid_1000 s = true -> month_key tz s = String.substring 0 7 s.
Proof.
  intros Htz. unfold iso_valid_1000.
  destruct (parse_iso_date s) as [[[y m] d]|] eqn:P; [|discriminate].
  intros [Hv Hy]%andb_true_iff. apply valid_dateb_spec in Hv. apply Z.leb_le in Hy.
  rewrite (month_key_parsed tz s y m d Htz P Hv).
  apply parse_iso_date_canonical in P as (E & Hy' & _). rewrite E, iso_prefix7 by lia.
  rewrite number_to_string_four_digits by lia. reflexivity.
Qed.

(** [new Date(date)] west of UTC by at most a day: the local date is the
    day before. *)
Lemma local_civil_west tz z :
  - ms_per_day <= tz < 0 -> local_civil tz (z * ms_per_day) = civil_from_days (z - 1).
Proof.
  intros H. unfold local_civil. f_equal.
  rewrite Z.div_add_l by (unfold ms_per_day; lia).
  assert (tz / ms_per_day = -1) as -> by (unfold ms_per_day in *; Z.div_mod_to_equations; lia).
  lia.
Qed.

(** The day before the first of a month: the last day of the previous
    month. *)
Lemma civil_day_before_first y m :
  1 <= m <= 12 ->
  civil_from_days (days_from_civil y m 1 - 1) =
  if m =? 1 then (y - 1, 12, 31) else (y, m - 1, days_in_month y (m - 1)).
Proof.
  intros Hm. destruct (Z.eqb_spec m 1) as [->|Hm1].
  - replace y with (y - 1 + 1) at 1 by lia. rewrite days_year_step.
    replace (days_from_civil (y - 1) 12 1 + 31 - 1) with (days_from_civil (y - 1) 12 31)
      by (rewrite (days_from_civil_day (y - 1) 12 31); lia).
    apply civil_from_days_from_civil. split; [lia|]. vm_compute. split; discriminate.
  - replace m with (m - 1 + 1) at 1 by lia. rewrite days_month_step by lia.
    pose proof (days_in_month_bounds y (m - 1)).
    replace (days_from_civil y (m - 1) 1 + days_in_month y (m - 1) - 1)
      with (days_from_civil y (m - 1) (days_in_month y (m - 1)))
      by (rewrite (days_from_civil_day y (m - 1) (days_in_month y (m - 1))); lia).
    apply civil_from_days_from_civil. split; lia.
Qed.

(** ** Properties *)

(** With every filter input empty, [filterTransactionData] returns
    the whole list unchanged and in order, whatever the time zone. *)
Theorem filter_all_empty tz txs :
  filterTransactionData tz (mkFilterInputs "" "" "" "" "") txs = txs.
Proof. apply filter_true_id. intros t _. reflexivity. Qed.

(** Filtering is idempotent: filtering the result again with the same
    inputs changes nothing. *)
Theorem filterTransactionData_idem tz f txs :
  filterTransactionData tz f (filterTransactionData tz f txs) = filterTransactionData tz f txs.
Proof. apply filter_idem. Qed.

(** C14. Refinement: east of UTC by less than a day, when the date bounds
    are unset or valid dates and every transaction date is a valid
    [YYYY-MM-DD] date of a year from 1000 on, the code's filter (which
    compares [Date] objects, builds the month from the local date and
    guards the empty description) keeps exactly the transactions the
    string-level filter of the specification keeps: case-insensitive
    substring search in description or category, exact category, the
    [YYYY-MM] prefix of the date, and inclusive string bounds. *)
Theorem filterTransactionData_refines tz f txs :
  0 <= tz < ms_per_day ->
  bound_ok (startDateFilter f) = true -> bound_ok (endDateFilter f) = true ->
  Forall (fun t => iso_valid_1000 (date t) = true) txs ->
  filterTransactionData tz f txs = List.filter (spec_matches f) txs.
Proof.
  intros Htz Hs He Hall. apply filter_ext_in. intros t Ht.
  rewrite Forall_forall in Hall. specialize (Hall t (proj2 (list_elem_of_In _ _) Ht)).
  unfold spec_matches.
  rewrite matchesSearch_spec, matchesDateRange_spec by auto using iso_valid_1000_valid.
  unfold matchesCategory, matchesMonth. rewrite month_key_prefix by assumption.
  rewrite !andb_assoc. destruct (monthFilter f === ""%string); reflexivity.
Qed.

(** C15. Every transaction the filter returns with both bounds set to
    valid dates lies between them, bounds included, in string order (the
    calendar order of the dates). *)
Theorem filter_within_bounds tz f txs t :
  iso_valid (startDateFilter f) = true -> iso_valid (endDateFilter f) = true ->
  Forall (fun t => iso_valid (date t) = true) txs ->
  In t (filterTransactionData tz f txs) ->
  js_str_le (startDateFilter f) (date t) = true /\ js_str_le (date t) (endDateFilter f) = true.
Proof.
  intros Hs He Hall Hin. apply filter_In in Hin as [Ht Hm].
  rewrite List.Forall_forall in Hall. specialize (Hall t Ht).
  rewrite !andb_true_iff in Hm. destruct Hm as [_ Hm].
  rewrite matchesDateRange_spec in Hm by (unfold bound_ok; rewrite ?Hs, ?He, ?orb_true_r; auto).
  apply andb_true_iff in Hm as [H1 H2].
  assert (Ns : (startDateFilter f === ""%string) = false).
  { apply bool_decide_eq_false_2. intros E. rewrite E in Hs. discriminate. }
  assert (Ne : (endDateFilter f === ""%string) = false).
  { apply bool_decide_eq_false_2. intros E. rewrite E in He. discriminate. }
  rewrite Ns in H1. rewrite Ne in H2. auto.
Qed.

(** C16. East of UTC by less than a day (Indonesia is at +7h), the month
    key of a valid date string is its year and two-digit month, so the
    month filter selects, for the key of one transaction, exactly the
    transactions whose date has the same [YYYY-MM] prefix. *)
Theorem month_filter_same_month tz t0 t :
  0 <= tz < ms_per_day -> iso_valid (date t0) = true -> iso_valid (date t) = true ->
  matchesMonth tz (month_key tz (date t0)) t = true <->
  String.substring 0 7 (date t) = String.substring 0 7 (date t0).
Proof.
  intros Htz. unfold iso_valid.
  destruct (parse_iso_date (date t0)) as [[[y0 m0] d0]|] eqn:P0; [|discriminate].
  destruct (parse_iso_date (date t)) as [[[y1 m1] d1]|] eqn:P1; [|discriminate].
  intros V0%valid_dateb_spec V1%valid_dateb_spec.
  unfold matchesMonth. rewrite (month_key_parsed tz (date t0) y0 m0 d0), (month_key_parsed tz (date t) y1 m1 d1) by assumption.
  rewrite (bool_decide_eq_false_2 (_ = ""%string)) by (destruct (number_to_string y0); discriminate).
  apply parse_iso_date_canonical in P0 as (E0 & ? & ? & ?), P1 as (E1 & ? & ? & ?).
  rewrite E0, E1, !iso_prefix7 by lia. rewrite bool_decide_eq_true. split.
  - intros E. apply append_dash_inj in E as [Ey Em]; [|reflexivity].
    apply number_to_string_inj in Ey. apply two_digits_inj in Em; [|lia|lia]. congruence.
  - intros E. apply append_dash_inj in E as [Ey Em]; [|reflexivity].
    apply four_digits_inj in Ey; [|lia|lia]. apply two_digits_inj in Em; [|lia|lia]. congruence.
Qed.

(** C17. West of UTC (by at most a day), a transaction dated on the first
    of a month gets the key of the previous month (December of the year
    before for January), so choosing the [YYYY-MM] of its own date in the
    month filter hides it. *)
Theorem month_filter_west_of_utc tz t y m :
  - ms_per_day <= tz < 0 -> parse_iso_date (date t) = Some (y, m, 1) ->
  month_key tz (date t) =
    String.append (number_to_string (if m =? 1 then y - 1 else y))
      (String "-" (two_digits (if m =? 1 then 12 else m - 1))) /\
  filterTransactionData tz (mkFilterInputs "" "" (String.substring 0 7 (date t)) "" "") [t] = [].
Proof.
  intros Htz P. pose proof (parse_iso_date_canonical _ _ _ _ P) as (E & Hy & Hm & _).
  assert (Hk : month_key tz (date t) =
    String.append (number_to_string (if m =? 1 then y - 1 else y))
      (String "-" (two_digits (if m =? 1 then 12 else m - 1)))).
  { unfold month_key, Date_parse. rewrite P.
    unfold getFullYear, getMonth. rewrite local_civil_west by exact Htz.
    rewrite civil_day_before_first by exact Hm.
    destruct (Z.eqb_spec m 1); cbn zeta;
      (rewrite pad_month by lia; f_equal; f_equal; f_equal; lia). }
  split; [exact Hk|]. cbn [filterTransactionData List.filter].
  unfold matchesMonth. rewrite E, iso_prefix7 by lia.
  rewrite (bool_decide_eq_false_2 (_ = ""%string)) by discriminate.
  rewrite <- E, Hk, (bool_decide_eq_false_2 (_ = _)); [rewrite !andb_false_r; reflexivity|].
  intros Heq. apply append_dash_inj in Heq as [_ Hm2]; [|reflexivity].
  apply two_digits_inj in Hm2; destruct (Z.eqb_spec m 1); lia.
Qed.

Definition ex_filter : filter_inputs :=
  mkFilterInputs "MAKAN" "" "" "2024-01-01" "2024-01-31".

Lemma filterTransactionData_refines_witness :
  filterTransactionData 25200000 ex_filter [ex_income; ex_food] =
  List.filter (spec_matches ex_filter) [ex_income; ex_food].
Proof.
  apply filterTransactionData_refines; [unfold ms_per_day; lia|vm_compute; reflexivity..|].
  repeat constructor.
Defined.

Lemma filter_within_bounds_witness :
  js_str_le "2024-01-01" (date ex_food) = true /\ js_str_le (date ex_food) "2024-01-31" = true.
Proof.
  apply (filter_within_bounds 25200000 ex_filter [ex_income; ex_food] ex_food);
    [vm_compute; reflexivity..| repeat constructor |].
  vm_compute. left. reflexivity.
Defined.

Lemma month_filter_same_month_witness :
  matchesMonth 25200000 (month_key 25200000 (date ex_income)) ex_food = true <->
  String.substring 0 7 (date ex_food) = String.substring 0 7 (date ex_income).
Proof.
  apply month_filter_same_month; [unfold ms_per_day; lia | vm_compute; reflexivity..].
Defined.

Lemma month_filter_west_of_utc_witness :
  let t := mkTransaction "1" Expense "Makanan" 40000 "2024-02-01" "" in
  month_key (-18000000) (date t) =
    String.append (number_to_string (if 2 =? 1 then 2024 - 1 else 2024))
      (String "-" (two_digits (if 2 =? 1 then 12 else 2 - 1))) /\
  filterTransactionData (-18000000) (mkFilterInputs "" "" (String.substring 0 7 (date t)) "" "") [t] = [].
Proof. apply month_filter_west_of_utc; [unfold ms_per_day; lia|reflexivity]. Defined.
