(* ===== verification/Sort.v ===== *)
(** * The table sorter

    [sortTable(column)] (src/script.js 375-394) flips the remembered
    direction of the clicked column in the global [sortOrder] object
    (src/script.js 7) and sorts the global [transactions] array in place
    with [Array.prototype.sort] and the two-case comparator
    [newOrder === 'asc' ? (A > B ? 1 : -1) : (A < B ? 1 : -1)] on the
    column's key: a [Date], the lower-cased category or the amount.

    [Array.prototype.sort] is a runtime function.  Its contract is the
    class [ArraySort]: the result is a permutation, it is sorted for every
    comparator that is consistent with an order on the elements, and it
    consults the comparator on the elements only.  The client theorems
    about [sortTable] are proved against the class.  The instance
    [insertion_sort] is V8's algorithm on arrays of fewer than 64 elements
    (TimSort with one run extended by binary insertion, which for keys
    totally ordered by the comparator inserts each element before the
    first one it compares below, as [insert_by] does); it discharges the
    laws and shows the behaviour on ties: the two-case comparator never
    answers 0, so elements with equal keys come out in reverse order. *)

From S2P Require Import Prelude JsString JsDate Transaction Aggregate.
From Stdlib Require Import Sorted.

Open Scope Z_scope.

(** ** [Array.prototype.sort] *)

(** The sort of the runtime, with a JavaScript comparator returning a
    number whose sign is read. *)
Class ArraySort := array_sort : forall {A : Type}, (A -> A -> Z) -> list A -> list A.

Class ArraySortLaws (S : ArraySort) := {
  sort_permutation {A} (cmp : A -> A -> Z) (l : list A) : Permutation (array_sort cmp l) l;
  sort_sorted {A} (cmp : A -> A -> Z) (R : A -> A -> Prop) (l : list A) :
    (forall x y, In x l -> In y l -> cmp x y < 0 -> R x y) ->
    (forall x y, In x l -> In y l -> 0 <= cmp x y -> R y x) ->
    Sorted R (array_sort cmp l);
  sort_ext {A} (cmp1 cmp2 : A -> A -> Z) (l : list A) :
    (forall x y, In x l -> In y l -> cmp1 x y = cmp2 x y) ->
    array_sort cmp1 l = array_sort cmp2 l
}.

(** Binary insertion as V8 performs it: the element goes before the first
    element of the sorted prefix it compares below ([order < 0]). *)
Fixpoint insert_by {A} (cmp : A -> A -> Z) (x : A) (l : list A) : list A :=
  match l with
  | [] => [x]
  | y :: r => if cmp x y <? 0 then x :: y :: r else y :: insert_by cmp x r
  end.

(** The elements are inserted from left to right into the sorted prefix. *)
Definition insertion_sort {A} (cmp : A -> A -> Z) (l : list A) : list A :=
  fold_left (fun acc x => insert_by cmp x acc) l [].

#[export] Instance insertion_array_sort : ArraySort := @insertion_sort.

(** ** [sortTable] *)

(** ['asc' | 'desc'] *)
Inductive sort_dir := Asc | Desc.

#[export] Instance sort_dir_eq_dec : EqDecision sort_dir.
Proof. solve_decision. Defined.

(** The three columns of the table header, [sortTable('date')],
    [sortTable('category')] and [sortTable('amount')]. *)
Inductive column := ColDate | ColCategory | ColAmount.

#[export] Instance column_eq_dec : EqDecision column.
Proof. solve_decision. Defined.

(** [sortOrder = { date, category, amount }] *)
Record sort_order := mkSortOrder {
  date_order : sort_dir;
  category_order : sort_dir;
  amount_order : sort_dir
}.

(** [let sortOrder = { date: 'desc', category: 'asc', amount: 'desc' }] *)
Definition initial_sortOrder : sort_order := mkSortOrder Desc Asc Desc.

(** [sortOrder[column]] *)
Definition get_order (so : sort_order) (c : column) : sort_dir :=
  match c with
  | ColDate => date_order so
  | ColCategory => category_order so
  | ColAmount => amount_order so
  end.

(** [sortOrder[column] = d] *)
Definition set_order (so : sort_order) (c : column) (d : sort_dir) : sort_order :=
  match c with
  | ColDate => mkSortOrder d (category_order so) (amount_order so)
  | ColCategory => mkSortOrder (date_order so) d (amount_order so)
  | ColAmount => mkSortOrder (date_order so) (category_order so) d
  end.

(** [currentOrder === 'asc' ? 'desc' : 'asc'] *)
Definition flip (d : sort_dir) : sort_dir := if d === Asc then Desc else Asc.

(** The values [A] and [B] the comparator computes for one column. *)
Inductive sort_key :=
  | KDate (t : option Z)      (* new Date(a.date) *)
  | KStr (s : string)         (* (a.category || '').toLowerCase() *)
  | KNum (z : Z).             (* a.amount *)

Definition sort_key_of (c : column) (t : transaction) : sort_key :=
  match c with
  | ColDate => KDate (Date_parse (date t))
  | ColCategory => KStr (toLowerCase (category t))
  | ColAmount => KNum (amount t)
  end.

(** [A > B] on two keys of one column: dates compare their time values
    (false when one is invalid), strings their code units, numbers their
    values. *)
Definition key_gt (a b : sort_key) : bool :=
  match a, b with
  | KDate x, KDate y => time_gt x y
  | KStr x, KStr y => js_str_lt y x
  | KNum x, KNum y => y <? x
  | _, _ => false
  end.

(** The comparator passed to [transactions.sort]. *)
Definition comparator (c : column) (newOrder : sort_dir) (a b : transaction) : Z :=
  let A := sort_key_of c a in
  let B := sort_key_of c b in
  match newOrder with
  | Asc => if key_gt A B then 1 else -1
  | Desc => if key_gt B A then 1 else -1
  end.

Section SortTable.
Context `{S : ArraySort}.

(** [sortTable(column)] on the sort state and the transactions. *)
Definition sortTable (column : column) (so : sort_order) (transactions : list transaction)
    : sort_order * list transaction :=
  let currentOrder := get_order so column in
  let newOrder := flip currentOrder in
  let so' := set_order so column newOrder in
  (so', array_sort (comparator column newOrder) transactions).

End SortTable.

(** The order of the specification for one column, ascending: calendar
    dates, case-insensitive category names, numeric amounts. *)
Definition key_le (c : column) (a b : transaction) : bool :=
  match c with
  | ColDate => time_le (Date_parse (date a)) (Date_parse (date b))
  | ColCategory => js_str_le (toLowerCase (category a)) (toLowerCase (category b))
  | ColAmount => amount a <=? amount b
  end.

Definition in_order (c : column) (d : sort_dir) (a b : transaction) : Prop :=
  match d with
  | Asc => key_le c a b = true
  | Desc => key_le c b a = true
  end.

(** The key of the column is a value the comparison orders: a date
    column needs valid dates. *)
Definition key_defined (c : column) (t : transaction) : Prop :=
  match c with
  | ColDate => Date_parse (date t) <> None
  | _ => True
  end.

(** Sorting by the raw date strings, which the specification says
    coincides with the calendar order on ISO dates. *)
Definition date_string_comparator (d : sort_dir) (a b : transaction) : Z :=
  match d with
  | Asc => if js_str_lt (date b) (date a) then 1 else -1
  | Desc => if js_str_lt (date a) (date b) then 1 else -1
  end.

(** A second expense with the amount of [ex_food]. *)
Definition ex_transport : transaction :=
  mkTransaction "1704240000000" Expense "Transportasi" 40000 "2024-01-03" "Ojek".

(** ** Insertion sort discharges the laws of [Array.prototype.sort] *)

Section InsertionSort.
Context {A : Type} (cmp : A -> A -> Z).

Lemma insert_by_perm x l : Permutation (insert_by cmp x l) (x :: l).
Proof.
  induction l as [|y r IH]; simpl; [reflexivity|].
  destruct (cmp x y <? 0); [reflexivity|].
  rewrite IH. apply perm_swap.
Qed.

Lemma insertion_fold_perm l acc :
  Permutation (fold_left (fun acc x => insert_by cmp x acc) l acc) (l ++ acc).
Proof.
  revert acc. induction l as [|x l IH]; intros acc; simpl; [reflexivity|].
  rewrite IH, insert_by_perm. symmetry. apply Permutation_middle.
Qed.

Lemma insertion_sort_perm l : Permutation (insertion_sort cmp l) l.
Proof. unfold insertion_sort. rewrite insertion_fold_perm, app_nil_r. reflexivity. Qed.

Variable R : A -> A -> Prop.

Lemma insert_by_hd y x l :
  HdRel R y l -> R y x -> HdRel R y (insert_by cmp x l).
Proof.
  destruct l as [|z r]; simpl; intros Hd Hyx; [constructor; exact Hyx|].
  destruct (cmp x z <? 0); constructor; [exact Hyx|]. inversion Hd; assumption.
Qed.

Lemma insert_by_sorted x l :
  (forall y, In y l -> cmp x y < 0 -> R x y) ->
  (forall y, In y l -> 0 <= cmp x y -> R y x) ->
  Sorted R l -> Sorted R (insert_by cmp x l).
Proof.
  induction l as [|y r IH]; simpl; intros Hlt Hge Hs; [repeat constructor|].
  destruct (Z.ltb_spec (cmp x y) 0) as [Hxy|Hxy].
  - constructor; [exact Hs|]. constructor. apply Hlt; auto.
  - apply Sorted_inv in Hs as [Hr Hd]. constructor.
    + apply IH; auto.
    + apply insert_by_hd; [exact Hd|]. apply Hge; auto.
Qed.

Variable P : A -> Prop.
Hypothesis cmp_lt : forall x y, P x -> P y -> cmp x y < 0 -> R x y.
Hypothesis cmp_ge : forall x y, P x -> P y -> 0 <= cmp x y -> R y x.

Lemma insertion_fold_sorted l acc :
  Forall P l -> Forall P acc ->
  Sorted R acc -> Sorted R (fold_left (fun acc x => insert_by cmp x acc) l acc).
Proof.
  revert acc. induction l as [|x l IH]; intros acc Hl Hacc Hs; simpl; [exact Hs|].
  apply Forall_cons_iff in Hl as [Hx Hl].
  apply IH; [exact Hl| |].
  - rewrite insert_by_perm. constructor; assumption.
  - rewrite List.Forall_forall in Hacc.
    apply insert_by_sorted; [intros y Hy; apply cmp_lt|intros y Hy; apply cmp_ge|exact Hs]; auto.
Qed.

Lemma insertion_sort_sorted l : Forall P l -> Sorted R (insertion_sort cmp l).
Proof. intros Hl. apply insertion_fold_sorted; auto. Qed.

End InsertionSort.

Section InsertionExt.
Context {A : Type} (cmp1 cmp2 : A -> A -> Z) (P : A -> Prop).
Hypothesis cmp_eq : forall x y, P x -> P y -> cmp1 x y = cmp2 x y.

Lemma insert_by_ext x l :
  P x -> Forall P l -> insert_by cmp1 x l = insert_by cmp2 x l.
Proof.
  intros Hx. induction 1 as [|y r Hy _ IH]; simpl; [reflexivity|].
  rewrite cmp_eq by assumption. destruct (cmp2 x y <? 0); congruence.
Qed.

Lemma insertion_fold_ext l acc :
  Forall P l -> Forall P acc ->
  fold_left (fun acc x => insert_by cmp1 x acc) l acc =
  fold_left (fun acc x => insert_by cmp2 x acc) l acc.
Proof.
  revert acc. induction l as [|x l IH]; intros acc Hl Hacc; simpl; [reflexivity|].
  apply Forall_cons_iff in Hl as [Hx Hl].
  rewrite insert_by_ext by assumption. apply IH; [exact Hl|].
  rewrite insert_by_perm. constructor; assumption.
Qed.

End InsertionExt.

Lemma Forall_In_self {A} (l : list A) : Forall (fun x => In x l) l.
Proof. apply List.Forall_forall. auto. Qed.

#[export] Instance insertion_sort_laws : ArraySortLaws insertion_array_sort.
Proof.
  split.
  - intros A cmp l. apply insertion_sort_perm.
  - intros A cmp R l Hlt Hge. apply (insertion_sort_sorted cmp R (fun x => In x l));
      [exact Hlt|exact Hge|apply Forall_In_self].
  - intros A cmp1 cmp2 l Heq. apply (insertion_fold_ext cmp1 cmp2 (fun x => In x l));
      [exact Heq|apply Forall_In_self|constructor].
Qed.

(** ** Lemmas on the comparator *)

Lemma flip_involutive d : flip (flip d) = d.
Proof. by destruct d. Qed.

Lemma flip_neq d : flip d <> d.
Proof. by destruct d. Qed.

Lemma get_set_order so c d : get_order (set_order so c d) c = d.
Proof. by destruct c. Qed.

Lemma get_set_order_other so c c' d :
  c' <> c -> get_order (set_order so c d) c' = get_order so c'.
Proof. destruct c, c'; simpl; congruence. Qed.

Lemma key_gt_false_le c a b :
  key_defined c a -> key_defined c b ->
  key_gt (sort_key_of c a) (sort_key_of c b) = false -> key_le c a b = true.
Proof.
  destruct c; simpl; intros Ha Hb H.
  - destruct (Date_parse (date a)), (Date_parse (date b)); try congruence.
    simpl in *. apply Z.leb_le. apply Z.ltb_ge in H. lia.
  - unfold js_str_le. rewrite H. reflexivity.
  - apply Z.leb_le. apply Z.ltb_ge in H. lia.
Qed.

Lemma key_gt_true_le c a b :
  key_gt (sort_key_of c a) (sort_key_of c b) = true -> key_le c b a = true.
Proof.
  destruct c; simpl; intros H.
  - destruct (Date_parse (date a)), (Date_parse (date b)); try discriminate.
    simpl in *. apply Z.leb_le. apply Z.ltb_lt in H. lia.
  - unfold js_str_le. rewrite (js_str_lt_asym _ _ H). reflexivity.
  - apply Z.leb_le. apply Z.ltb_lt in H. lia.
Qed.

(** The comparator of a column and direction is consistent with the
    order of the specification on elements whose keys are defined. *)
Lemma comparator_lt c d a b :
  key_defined c a -> key_defined c b -> comparator c d a b < 0 -> in_order c d a b.
Proof.
  unfold comparator, in_order. intros Ha Hb.
  destruct d; [destruct (key_gt (sort_key_of c a) (sort_key_of c b)) eqn:E
              |destruct (key_gt (sort_key_of c b) (sort_key_of c a)) eqn:E];
    intros H; try lia; apply key_gt_false_le; assumption.
Qed.

Lemma comparator_ge c d a b : 0 <= comparator c d a b -> in_order c d b a.
Proof.
  unfold comparator, in_order.
  destruct d; [destruct (key_gt (sort_key_of c a) (sort_key_of c b)) eqn:E
              |destruct (key_gt (sort_key_of c b) (sort_key_of c a)) eqn:E];
    intros H; try lia; apply key_gt_true_le; assumption.
Qed.

(** With the two-case comparator, elements whose keys compare neither
    way are answered [-1] in both directions. *)
Lemma comparator_tie c d a b :
  key_gt (sort_key_of c a) (sort_key_of c b) = false ->
  key_gt (sort_key_of c b) (sort_key_of c a) = false ->
  comparator c d a b = -1.
Proof. unfold comparator. intros H1 H2. destruct d; rewrite ?H1, ?H2; reflexivity. Qed.

(** On valid ISO dates, the date key compares as the date string. *)
Lemma time_gt_iso s1 s2 :
  iso_valid s1 = true -> iso_valid s2 = true ->
  time_gt (Date_parse s1) (Date_parse s2) = js_str_lt s2 s1.
Proof.
  intros H1 H2. pose proof (time_le_iso s1 s2 H1 H2) as E. unfold js_str_le in E.
  unfold iso_valid, Date_parse in *.
  destruct (parse_iso_date s1) as [[[??]?]|], (parse_iso_date s2) as [[[??]?]|];
    try discriminate. simpl in *.
  destruct (js_str_lt s2 s1), (Z.leb_spec (days_from_civil z z0 z1 * ms_per_day)
    (days_from_civil z2 z3 z4 * ms_per_day)); simpl in E; try discriminate;
    apply Z.ltb_lt || apply Z.ltb_ge; lia.
Qed.

(** Insertion of an element that compares below the head. *)
Lemma insert_by_front {A} (cmp : A -> A -> Z) x l :
  (forall y, In y l -> cmp x y < 0) -> insert_by cmp x l = x :: l.
Proof.
  destruct l as [|y r]; simpl; intros H; [reflexivity|].
  rewrite (proj2 (Z.ltb_lt _ _) (H y (or_introl eq_refl))). reflexivity.
Qed.

Lemma insertion_fold_rev {A} (cmp : A -> A -> Z) l acc :
  (forall x y, In x (l ++ acc)%list -> In y (l ++ acc)%list -> cmp x y < 0) ->
  fold_left (fun acc x => insert_by cmp x acc) l acc = (rev l ++ acc)%list.
Proof.
  revert acc. induction l as [|x l IH]; intros acc H; simpl; [reflexivity|].
  rewrite insert_by_front by (intros y Hy; apply H; rewrite ?in_app_iff; simpl; tauto).
  rewrite IH, <- app_assoc; [reflexivity|].
  intros a b Ha Hb. apply H; rewrite in_app_iff in *; simpl in *; tauto.
Qed.

(** ** Properties of [sortTable] *)

Section SortTableProps.
Context {S : ArraySort} {HS : ArraySortLaws S}.

(** C18. [sortTable(c)] flips the remembered direction of column [c] and
    leaves the other two columns' directions untouched, so invoking the
    same column twice uses opposite directions, whatever was sorted in
    between by another column. *)
Theorem sortTable_direction c so l :
  get_order (fst (sortTable c so l)) c = flip (get_order so c) /\
  get_order (fst (sortTable c so l)) c <> get_order so c /\
  (forall c', c' <> c -> get_order (fst (sortTable c so l)) c' = get_order so c').
Proof.
  simpl. rewrite get_set_order. split; [reflexivity|split; [apply flip_neq|]].
  intros c' Hc. apply get_set_order_other, Hc.
Qed.

(** Sorting only reorders: the sorted array is a permutation of the
    transactions, so the dashboard totals are unchanged. *)
Theorem sortTable_permutation c so l :
  Permutation (snd (sortTable c so l)) l /\
  dashboard_totals (snd (sortTable c so l)) = dashboard_totals l.
Proof.
  pose proof (sort_permutation (comparator c (flip (get_order so c))) l) as Hp.
  split; [exact Hp|]. unfold dashboard_totals.
  rewrite !(total_of_Permutation _ _ _ Hp). reflexivity.
Qed.

(** C19. After [sortTable(c)] the array is ordered by column [c] in the
    new direction: dates as calendar dates, categories case-insensitively
    by code units, amounts numerically, provided a date sort sees only
    valid dates (an invalid date compares false both ways). *)
Theorem sortTable_sorted c so l :
  Forall (key_defined c) l ->
  Sorted (in_order c (get_order (fst (sortTable c so l)) c)) (snd (sortTable c so l)).
Proof.
  intros Hl. simpl. rewrite get_set_order. rewrite List.Forall_forall in Hl.
  apply sort_sorted.
  - intros x y Hx Hy. apply comparator_lt; auto.
  - intros x y _ _. apply comparator_ge.
Qed.

(** C20. On valid ISO dates, sorting by the date column gives the same
    array as sorting by the date strings. *)
Theorem sortTable_date_as_string so l :
  Forall (fun t => iso_valid (date t) = true) l ->
  snd (sortTable ColDate so l) =
  array_sort (date_string_comparator (flip (get_order so ColDate))) l.
Proof.
  intros Hl. rewrite List.Forall_forall in Hl. simpl. apply sort_ext.
  intros x y Hx Hy. unfold comparator, date_string_comparator. simpl.
  destruct (flip (date_order so)); rewrite time_gt_iso; auto.
Qed.

End SortTableProps.

(** C21. The two-case comparator never answers 0: with V8's insertion,
    transactions whose keys are equal come out in reverse order, in both
    directions, so sorting is not stable and clicking a column twice does
    not restore the order of ties. *)
Theorem sortTable_ties_reversed c so l :
  (forall x y, In x l -> In y l -> key_gt (sort_key_of c x) (sort_key_of c y) = false) ->
  snd (@sortTable insertion_array_sort c so l) = rev l.
Proof.
  intros Htie. simpl. unfold array_sort, insertion_array_sort, insertion_sort.
  rewrite insertion_fold_rev; [apply app_nil_r|].
  intros x y Hx Hy. rewrite app_nil_r in Hx, Hy. rewrite comparator_tie by auto. lia.
Qed.

Lemma sortTable_sorted_witness :
  let r := @sortTable insertion_array_sort ColAmount initial_sortOrder [ex_food; ex_income] in
  Sorted (in_order ColAmount (get_order (fst r) ColAmount)) (snd r).
Proof. apply sortTable_sorted. repeat constructor. Defined.

Lemma sortTable_date_as_string_witness :
  snd (@sortTable insertion_array_sort ColDate initial_sortOrder [ex_income; ex_food]) =
  insertion_sort (date_string_comparator Asc) [ex_income; ex_food].
Proof. apply sortTable_date_as_string. repeat constructor. Defined.

Lemma sortTable_ties_reversed_witness :
  snd (@sortTable insertion_array_sort ColAmount initial_sortOrder [ex_food; ex_transport]) =
  [ex_transport; ex_food].
Proof.
  apply (sortTable_ties_reversed ColAmount initial_sortOrder [ex_food; ex_transport]).
  intros x y Hx Hy. simpl in Hx, Hy.
  destruct Hx as [<-|[<-|[]]]; destruct Hy as [<-|[<-|[]]]; reflexivity.
Defined.

Lemma sortTable_permutation_witness :
  let r := snd (@sortTable insertion_array_sort ColDate initial_sortOrder [ex_income; ex_food]) in
  Permutation r [ex_income; ex_food] /\ dashboard_totals r = dashboard_totals [ex_income; ex_food].
Proof. exact (sortTable_permutation ColDate initial_sortOrder [ex_income; ex_food]). Defined.
