(* ===== verification/Months.v ===== *)
(** * The month list of the filter bar

    [populateMonthFilter] (src/script.js 315-335) collects the month keys
    of all transactions in a [Set] (the same [YYYY-MM] key as the month
    filter, [Filter.month_key]), sorts them with the default string order,
    reverses them and writes one [<option>] per key after the
    "Semua Bulan" option, labelled with the Indonesian month name and the
    year obtained by splitting the key at '-'.

    The theorems show that the options are exactly the months that occur,
    once each, newest first, that every option selects at least one
    transaction in the filter, and what the labels are. *)

From S2P Require Import Prelude JsString JsDate Transaction Filter Sort.
From Stdlib Require Import Sorted DecimalString.

Open Scope Z_scope.

(** ** Runtime pieces *)

(** [set.add(x)]: a [Set] keeps its elements in insertion order, once. *)
Definition set_add (s : list string) (x : string) : list string :=
  if bool_decide (x ∈ s) then s else s ++ [x].

(** The comparison [Array.prototype.sort] uses without a comparator: the
    strings' code units. *)
Definition default_compare (a b : string) : Z :=
  if js_str_lt a b then -1 else if js_str_lt b a then 1 else 0.

(** [s.split(c)] for a one-character separator. *)
Fixpoint js_split (c : ascii) (s : string) : list string :=
  match s with
  | EmptyString => [""]
  | String x r =>
      let parts := js_split c r in
      if Ascii.eqb x c then "" :: parts
      else match parts with
           | p :: ps => String x p :: ps
           | [] => [String x ""]
           end
  end.

(** The character [c] does not occur in [s]. *)
Fixpoint no_char (c : ascii) (s : string) : bool :=
  match s with
  | EmptyString => true
  | String x r => negb (Ascii.eqb x c) && no_char c r
  end.

(** The decimal digits at the front of a string, if any. *)
Fixpoint digit_prefix (s : string) (acc : option Z) : option Z :=
  match s with
  | String c r =>
      match digit_value c with
      | Some d => digit_prefix r (Some (10 * default 0 acc + d))
      | None => acc
      end
  | EmptyString => acc
  end.

(** [parseInt(s)] on strings without leading blanks or a [0x] prefix
    (the month keys are digits or ["NaN"]): an optional sign and the
    leading digits; [NaN] ([None]) when there is no digit. *)
Definition parseInt (s : string) : option Z :=
  match s with
  | String "-" r => option_map Z.opp (digit_prefix r None)
  | String "+" r => digit_prefix r None
  | _ => digit_prefix s None
  end.

(** ** [populateMonthFilter] *)

Definition monthNames : list string :=
  ["Januari"; "Februari"; "Maret"; "April"; "Mei"; "Juni"; "Juli"; "Agustus";
   "September"; "Oktober"; "November"; "Desember"].

(** [monthNames[i]], ["undefined"] outside the array or for [NaN]. *)
Definition month_name (i : option Z) : string :=
  match i with
  | Some k => if k <? 0 then "undefined" else default "undefined" (nth_error monthNames (Z.to_nat k))
  | None => "undefined"
  end.

(** [const [year, month] = monthYear.split('-')] and
    [`${monthNames[parseInt(month) - 1]} ${year}`]; a missing part is
    [undefined], whose [parseInt] is [NaN]. *)
Definition month_label (monthYear : string) : string :=
  let parts := js_split "-" monthYear in
  let year := default "undefined" (nth_error parts 0) in
  let month := default "undefined" (nth_error parts 1) in
  String.append (month_name (option_map (fun k => k - 1) (parseInt month)))
    (String " " year).

(** The [Set] of month keys, in the order the transactions are visited. *)
Definition collect_months (tz : Z) (txs : list transaction) : list string :=
  fold_left (fun months t => set_add months (month_key tz (date t))) txs [].

(** An [<option>] element: its value and its text. *)
Record option_elem := mkOption { opt_value : string; opt_text : string }.

Section Populate.
Context `{S : ArraySort}.

(** The options of [#monthFilter] after [populateMonthFilter()]. *)
Definition populateMonthFilter (tz : Z) (txs : list transaction) : list option_elem :=
  mkOption "" "Semua Bulan" ::
  map (fun monthYear => mkOption monthYear (month_label monthYear))
    (rev (array_sort default_compare (collect_months tz txs))).

(** The month keys offered, without the "all months" option. *)
Definition month_values (tz : Z) (txs : list transaction) : list string :=
  map opt_value (tail (populateMonthFilter tz txs)).

End Populate.

(** ** Lemmas *)

Lemma set_add_In s x y : In y (set_add s x) <-> In y s \/ y = x.
Proof.
  unfold set_add. case_bool_decide as H.
  - apply list_elem_of_In in H. split; [tauto|]. intros [?| ->]; auto.
  - rewrite in_app_iff. simpl. intuition.
Qed.

Lemma set_add_NoDup s x : NoDup s -> NoDup (set_add s x).
Proof.
  unfold set_add. case_bool_decide as H; [tauto|]. intros Hs.
  apply NoDup_app. split; [exact Hs|]. split; [|apply NoDup_singleton].
  intros y Hy Hy'. apply list_elem_of_singleton in Hy' as ->. contradiction.
Qed.

Lemma collect_fold_spec tz l acc :
  NoDup acc ->
  NoDup (fold_left (fun months t => set_add months (month_key tz (date t))) l acc) /\
  (forall m, In m (fold_left (fun months t => set_add months (month_key tz (date t))) l acc) <->
             In m acc \/ exists t, In t l /\ month_key tz (date t) = m).
Proof.
  revert acc. induction l as [|t l IH]; intros acc Hacc; simpl.
  - split; [exact Hacc|]. intros m. split; [tauto|]. intros [H|(t & [] & _)]; exact H.
  - destruct (IH (set_add acc (month_key tz (date t))) (set_add_NoDup _ _ Hacc)) as [Hnd Hin].
    split; [exact Hnd|]. intros m. rewrite Hin, set_add_In. split.
    + intros [[H | ->]|(t' & Ht' & Hk)]; eauto.
    + intros [H|(t' & [<-|Ht'] & Hk)]; eauto.
Qed.

Lemma collect_months_spec tz txs :
  NoDup (collect_months tz txs) /\
  (forall m, In m (collect_months tz txs) <-> exists t, In t txs /\ month_key tz (date t) = m).
Proof.
  destruct (collect_fold_spec tz txs [] (NoDup_nil_2)) as [Hnd Hin].
  split; [exact Hnd|]. intros m. rewrite Hin. simpl. tauto.
Qed.

Lemma StronglySorted_app_single {A} (R : A -> A -> Prop) l x :
  StronglySorted R l -> Forall (fun y => R y x) l -> StronglySorted R (l ++ [x]).
Proof.
  induction l as [|y l IH]; simpl; intros Hs Hf.
  - repeat constructor.
  - apply StronglySorted_inv in Hs as [Hs Hy]. apply Forall_cons_iff in Hf as [Hyx Hf].
    constructor; [apply IH; assumption|]. apply List.Forall_app. split; [exact Hy|].
    constructor; [exact Hyx|constructor].
Qed.

Lemma StronglySorted_rev {A} (R : A -> A -> Prop) l :
  StronglySorted R l -> StronglySorted (fun a b => R b a) (rev l).
Proof.
  induction l as [|x l IH]; simpl; intros Hs; [constructor|].
  apply StronglySorted_inv in Hs as [Hs Hx]. apply StronglySorted_app_single; [auto|].
  apply List.Forall_forall. intros y Hy. apply in_rev in Hy.
  rewrite List.Forall_forall in Hx. auto.
Qed.

Lemma StronglySorted_le_lt l :
  NoDup l -> StronglySorted (fun a b => js_str_le a b = true) l ->
  StronglySorted (fun a b => js_str_lt a b = true) l.
Proof.
  induction l as [|x l IH]; intros Hnd Hs; [constructor|].
  apply NoDup_cons in Hnd as [Hx Hnd]. apply StronglySorted_inv in Hs as [Hs Hf].
  constructor; [auto|]. rewrite List.Forall_forall in Hf |- *. intros y Hy.
  apply js_str_le_neq_lt; [auto|]. intros ->. apply Hx. apply list_elem_of_In, Hy.
Qed.

Lemma default_compare_lt a b : default_compare a b < 0 -> js_str_le a b = true.
Proof.
  unfold default_compare. destruct (js_str_lt a b) eqn:E; [intros _; now apply js_str_lt_le|].
  destruct (js_str_lt b a) eqn:E2; intros; [lia|]. unfold js_str_le. now rewrite E2.
Qed.

Lemma default_compare_ge a b : 0 <= default_compare a b -> js_str_le b a = true.
Proof.
  unfold default_compare. unfold js_str_le. destruct (js_str_lt a b); [lia|reflexivity].
Qed.

Lemma js_split_app c a b :
  no_char c a = true -> js_split c (String.append a (String c b)) = a :: js_split c b.
Proof.
  induction a as [|x a IH]; simpl; intros H.
  - now rewrite Ascii.eqb_refl.
  - apply andb_true_iff in H as [Hx Ha]. apply negb_true_iff in Hx.
    rewrite IH by exact Ha. now rewrite Hx.
Qed.

Lemma no_dash_uint u : no_char "-" (NilEmpty.string_of_uint u) = true.
Proof. induction u; simpl; rewrite ?IHu; reflexivity. Qed.

(** A non-negative number prints without a '-'. *)
Lemma no_dash_number y : 0 <= y -> no_char "-" (number_to_string y) = true.
Proof.
  intros Hy. unfold number_to_string. destruct y as [|p|p]; [reflexivity| |lia].
  simpl. destruct (Pos.to_uint p); try reflexivity; apply no_dash_uint.
Qed.

Lemma month_key_nonempty tz s : month_key tz s <> "".
Proof.
  unfold month_key. destruct (Date_parse s); [|discriminate].
  pose proof (number_to_string_nonempty (getFullYear tz z)).
  destruct (number_to_string (getFullYear tz z)); [contradiction|discriminate].
Qed.

Lemma parseInt_two_digits m : 1 <= m <= 12 -> parseInt (two_digits m) = Some m.
Proof. intros H. z_enum m 1 12%nat; reflexivity. Qed.

Lemma split_month_key y m :
  0 <= y -> 1 <= m <= 12 ->
  js_split "-" (String.append (number_to_string y) (String "-" (two_digits m))) =
  [number_to_string y; two_digits m].
Proof.
  intros Hy Hm. rewrite js_split_app by (apply no_dash_number, Hy).
  f_equal. z_enum m 1 12%nat; reflexivity.
Qed.

Lemma month_values_eq `{S : ArraySort} tz txs :
  month_values tz txs = rev (array_sort default_compare (collect_months tz txs)).
Proof. unfold month_values. simpl. rewrite List.map_map. apply map_id. Qed.

Lemma sort_strings_sorted `{S : ArraySort} `{!ArraySortLaws S} l :
  NoDup l -> NoDup (array_sort default_compare l) /\
  StronglySorted (fun a b => js_str_lt a b = true) (array_sort default_compare l).
Proof.
  intros Hnd. assert (Hnd' : NoDup (array_sort default_compare l))
    by (rewrite (sort_permutation default_compare l); exact Hnd).
  split; [exact Hnd'|]. apply StronglySorted_le_lt; [exact Hnd'|].
  apply Sorted_StronglySorted; [intros a b c; apply js_str_le_trans|].
  apply sort_sorted; intros a b _ _; [apply default_compare_lt|apply default_compare_ge].
Qed.

Lemma month_values_In `{S : ArraySort} `{!ArraySortLaws S} tz txs m :
  In m (month_values tz txs) <-> exists t, In t txs /\ month_key tz (date t) = m.
Proof.
  rewrite month_values_eq, <- in_rev, <- (proj2 (collect_months_spec tz txs)).
  pose proof (sort_permutation default_compare (collect_months tz txs)) as Hp.
  split; intros H; [exact (Permutation_in _ Hp H)|exact (Permutation_in _ (Permutation_sym Hp) H)].
Qed.

(** A transaction is kept by the filter whose only input is its month. *)
Lemma filter_month_only tz t txs :
  In t txs ->
  In t (filterTransactionData tz (mkFilterInputs "" "" (month_key tz (date t)) "" "") txs).
Proof.
  intros Ht. apply filter_In. split; [exact Ht|].
  unfold matchesMonth. simpl.
  rewrite (bool_decide_eq_false_2 (month_key tz (date t) = "")) by apply month_key_nonempty.
  rewrite bool_decide_eq_true_2 by reflexivity. reflexivity.
Qed.

(** Two strictly sorted lists with the same elements are equal. *)
Lemma StronglySorted_unique {A} (R : A -> A -> Prop) (l1 l2 : list A) :
  (forall x y, R x y -> R y x -> False) ->
  StronglySorted R l1 -> StronglySorted R l2 -> (forall x, In x l1 <-> In x l2) -> l1 = l2.
Proof.
  intros Hasym. revert l2. induction l1 as [|x l1 IH]; intros [|y l2] S1 S2 Hin.
  - reflexivity.
  - exfalso. apply (proj2 (Hin y)). left. reflexivity.
  - exfalso. apply (proj1 (Hin x)). left. reflexivity.
  - apply StronglySorted_inv in S1 as [S1 F1], S2 as [S2 F2].
    rewrite List.Forall_forall in F1, F2.
    assert (x = y) as <-.
    { destruct (proj1 (Hin x) (or_introl eq_refl)) as [|Hx]; [congruence|].
      destruct (proj2 (Hin y) (or_introl eq_refl)) as [|Hy]; [congruence|].
      exfalso. exact (Hasym x y (F1 y Hy) (F2 x Hx)). }
    f_equal. apply IH; [exact S1|exact S2|]. intros z.
    split; intros Hz; [destruct (proj1 (Hin z) (or_intror Hz)) as [<-|]|
                       destruct (proj2 (Hin z) (or_intror Hz)) as [<-|]]; try assumption;
      exfalso; [apply (Hasym x x (F1 x Hz) (F1 x Hz))|apply (Hasym x x (F2 x Hz) (F2 x Hz))].
Qed.

Lemma populateMonthFilter_values `{S : ArraySort} tz txs :
  populateMonthFilter tz txs =
  mkOption "" "Semua Bulan" :: map (fun m => mkOption m (month_label m)) (month_values tz txs).
Proof. rewrite month_values_eq. reflexivity. Qed.

Lemma month_values_sorted `{S : ArraySort} `{!ArraySortLaws S} tz txs :
  StronglySorted (fun a b => js_str_lt b a = true) (month_values tz txs).
Proof.
  rewrite month_values_eq. apply StronglySorted_rev, sort_strings_sorted, collect_months_spec.
Qed.

(** The month list does not depend on the order of the transactions. *)
Lemma populateMonthFilter_Permutation `{S : ArraySort} `{!ArraySortLaws S} tz l1 l2 :
  l1 ≡ₚ l2 -> populateMonthFilter tz l1 = populateMonthFilter tz l2.
Proof.
  intros Hp. rewrite !populateMonthFilter_values. do 2 f_equal.
  apply (StronglySorted_unique (fun a b => js_str_lt b a = true)); try apply month_values_sorted.
  - intros x y H1 H2. rewrite js_str_lt_asym in H2 by exact H1. discriminate.
  - intros x. rewrite !month_values_In.
    split; intros (t & Ht & E); exists t; split; try exact E;
      [apply (Permutation_in _ Hp)|apply (Permutation_in _ (Permutation_sym Hp))]; exact Ht.
Qed.

(** ** Properties *)

Section MonthProps.
Context `{S : ArraySort} `{!ArraySortLaws S}.

(** C22. The month list: after the "Semua Bulan" option come the month
    keys of the transactions, each once, newest first (strictly
    descending string order), and exactly the keys that occur. *)
Theorem populateMonthFilter_options tz txs :
  hd_error (populateMonthFilter tz txs) = Some (mkOption "" "Semua Bulan") /\
  NoDup (month_values tz txs) /\
  StronglySorted (fun a b => js_str_lt b a = true) (month_values tz txs) /\
  (forall m, In m (month_values tz txs) <-> exists t, In t txs /\ month_key tz (date t) = m).
Proof.
  destruct (collect_months_spec tz txs) as [Hnd _].
  destruct (sort_strings_sorted _ Hnd) as [Hnd' Hs].
  split; [reflexivity|]. rewrite month_values_eq. split; [|split].
  - apply NoDup_ListNoDup, NoDup_rev, NoDup_ListNoDup. exact Hnd'.
  - apply StronglySorted_rev. exact Hs.
  - intros m. rewrite <- month_values_eq. apply month_values_In.
Qed.

(** C23. The month list and the month filter agree: choosing any offered
    month shows at least one transaction, and every transaction is shown
    by exactly one offered month. *)
Theorem month_options_select tz txs :
  (forall m, In m (month_values tz txs) ->
     filterTransactionData tz (mkFilterInputs "" "" m "" "") txs <> []) /\
  (forall t, In t txs -> exists m, In m (month_values tz txs) /\ matchesMonth tz m t = true /\
     forall m', In m' (month_values tz txs) -> matchesMonth tz m' t = true -> m' = m).
Proof.
  split.
  - intros m (t & Ht & <-)%month_values_In Hnil.
    pose proof (filter_month_only tz t txs Ht) as Hin. rewrite Hnil in Hin. exact Hin.
  - intros t Ht. exists (month_key tz (date t)). split; [apply month_values_In; eauto|].
    unfold matchesMonth.
    rewrite (bool_decide_eq_false_2 (month_key tz (date t) = "")) by apply month_key_nonempty.
    split; [apply bool_decide_eq_true_2; reflexivity|].
    intros m' (t' & _ & <-)%month_values_In.
    rewrite (bool_decide_eq_false_2 (month_key tz (date t') = "")) by apply month_key_nonempty.
    intros H%bool_decide_eq_true_1. congruence.
Qed.

End MonthProps.

(** East of UTC by less than a day, the option of a valid date is
    labelled with the Indonesian name of its month and its year. *)
Theorem month_label_valid tz t y m d :
  0 <= tz < ms_per_day -> parse_iso_date (date t) = Some (y, m, d) -> valid_date y m d ->
  month_label (month_key tz (date t)) =
  String.append (default "undefined" (nth_error monthNames (Z.to_nat (m - 1))))
    (String " " (number_to_string y)).
Proof.
  intros Htz Hp Hv. rewrite (month_key_parsed tz (date t) y m d Htz Hp Hv).
  apply parse_iso_date_canonical in Hp as (_ & Hy & Hm & _).
  unfold month_label. rewrite split_month_key by lia. cbn [nth_error default]. unfold Datatypes.id.
  rewrite parseInt_two_digits by lia. simpl. unfold month_name.
  rewrite (proj2 (Z.ltb_ge (m - 1) 0)) by lia. reflexivity.
Qed.

Lemma populateMonthFilter_options_witness :
  hd_error (populateMonthFilter 25200000 [ex_income; ex_food]) = Some (mkOption "" "Semua Bulan") /\
  NoDup (month_values 25200000 [ex_income; ex_food]) /\
  StronglySorted (fun a b => js_str_lt b a = true) (month_values 25200000 [ex_income; ex_food]) /\
  (forall m, In m (month_values 25200000 [ex_income; ex_food]) <->
     exists t, In t [ex_income; ex_food] /\ month_key 25200000 (date t) = m).
Proof. exact (populateMonthFilter_options 25200000 [ex_income; ex_food]). Defined.

Lemma month_options_select_witness :
  (forall m, In m (month_values 25200000 [ex_income; ex_food]) ->
     filterTransactionData 25200000 (mkFilterInputs "" "" m "" "") [ex_income; ex_food] <> []) /\
  (forall t, In t [ex_income; ex_food] -> exists m, In m (month_values 25200000 [ex_income; ex_food]) /\
     matchesMonth 25200000 m t = true /\
     forall m', In m' (month_values 25200000 [ex_income; ex_food]) ->
       matchesMonth 25200000 m' t = true -> m' = m).
Proof. exact (month_options_select 25200000 [ex_income; ex_food]). Defined.

Lemma month_label_valid_witness :
  month_label (month_key 25200000 (date ex_food)) = "Januari 2024".
Proof.
  apply (month_label_valid 25200000 ex_food 2024 1 2);
    [unfold ms_per_day; lia | reflexivity | apply valid_dateb_spec; reflexivity].
Defined.
