(* ===== verification/Series.v ===== *)
(** * The 7-day balance series of the line chart

    [getLast7DaysData] (src/charts.js 127-146) walks [i] from 6 down to 0:
    it reads the clock ([new Date()], once per iteration), moves that
    instant [i] days back in local time with [setDate(getDate() - i)],
    labels the point with the local weekday and
    computes the balance of the transactions whose date string is at most
    the UTC date string [toISOString().split('T')[0]] of that instant.

    The seven reads of the clock are the function [clock]: [clock i] is
    the time [new Date()] returns in the iteration of [i] (the reads are
    not assumed equal, a call may straddle a midnight).  The loop is
    modelled as a [Fixpoint] with fuel; seven steps are enough
    and more fuel gives the same result.  The theorems give the series in
    closed form, relate its days to the local calendar (the local and the
    UTC date of the instant differ during the first [tz] hours of a local
    day east of UTC), and state what each balance counts. *)

From S2P Require Import Prelude JsString JsDate Transaction Aggregate.

Open Scope Z_scope.

(** [toLocaleDateString('id-ID', { weekday: 'short' })], Sunday first. *)
Definition weekdays_id : list string :=
  ["Min"; "Sen"; "Sel"; "Rab"; "Kam"; "Jum"; "Sab"]%string.

Definition weekday_short (tz t : Z) : string :=
  nth (Z.to_nat (week_day ((t + tz) / ms_per_day))) weekdays_id ""%string.

(** [const date = new Date(); date.setDate(date.getDate() - i)] *)
Definition series_day (tz now i : Z) : Z := setDate tz now (getDate tz now - i).

(** [transactions.filter(t => t.date <= dateStr)] and its income minus
    its expense. *)
Definition day_balance (dateStr : string) (txs : list transaction) : Z :=
  let dayTransactions := List.filter (fun t => js_str_le (date t) dateStr) txs in
  let dayIncome := total_of Income dayTransactions in
  let dayExpense := total_of Expense dayTransactions in
  dayIncome - dayExpense.

Record series := mkSeries { series_labels : list string; balances : list Z }.

(** [for (let i = 6; i >= 0; i--) { ... labels.push(...); balances.push(...) }]
    with [fuel] bounding the number of iterations. *)
Fixpoint last_days_loop (tz : Z) (clock : Z -> Z) (txs : list transaction) (fuel : nat) (i : Z)
    (acc : series) : series :=
  match fuel with
  | O => acc
  | S fuel' =>
      if i >=? 0 then
        let date := series_day tz (clock i) i in
        let dateStr := iso_date_part date in
        last_days_loop tz clock txs fuel' (i - 1)
          {| series_labels := series_labels acc ++ [weekday_short tz date];
             balances := balances acc ++ [day_balance dateStr txs] |}
      else acc
  end.

Definition getLast7DaysData (tz : Z) (clock : Z -> Z) (txs : list transaction) : series :=
  last_days_loop tz clock txs 7 6 {| series_labels := []; balances := [] |}.

(** The values of [i] in the order the loop visits them. *)
Fixpoint countdown (n : nat) : list Z :=
  match n with
  | O => [0]
  | S n' => Z.of_nat n :: countdown n'
  end.

(** ** Lemmas *)

Section Loop.
Context (tz : Z) (clock : Z -> Z) (txs : list transaction).

Let lab (i : Z) : string := weekday_short tz (series_day tz (clock i) i).
Let bal (i : Z) : Z := day_balance (iso_date_part (series_day tz (clock i) i)) txs.

(** With more iterations of fuel than values of [i] left, the loop
    pushes one label and one balance per value. *)
Lemma last_days_loop_closed n fuel acc :
  (n < fuel)%nat ->
  last_days_loop tz clock txs fuel (Z.of_nat n) acc =
  {| series_labels := series_labels acc ++ map lab (countdown n);
     balances := balances acc ++ map bal (countdown n) |}.
Proof.
  revert fuel acc. induction n as [|n IH]; intros [|fuel] acc Hf; try lia;
    cbn [last_days_loop]; rewrite (proj2 (Z.geb_le _ _)) by lia.
  - destruct fuel; reflexivity.
  - replace (Z.of_nat (S n) - 1) with (Z.of_nat n) by lia.
    rewrite IH by lia. simpl. rewrite <- !app_assoc. reflexivity.
Qed.

End Loop.

(** The instant [i] days back: local day [L - i] at the same local time
    of day [r]. *)
Lemma series_day_eq tz now i :
  series_day tz now i =
  ((now + tz) / ms_per_day - i) * ms_per_day + (now + tz) mod ms_per_day - tz.
Proof.
  unfold series_day, setDate, getDate, local_civil.
  pose proof (days_from_civil_from_days ((now + tz) / ms_per_day)) as E.
  destruct (civil_from_days ((now + tz) / ms_per_day)) as [[y m] d].
  rewrite days_from_civil_day in E |- *. nia.
Qed.

Lemma day_balance_signed s txs :
  day_balance s txs = reduce_sum signed_amount (List.filter (fun t => js_str_le (date t) s) txs).
Proof. rewrite <- balance_signed. reflexivity. Qed.

Lemma getLast7DaysData_closed tz clock txs :
  getLast7DaysData tz clock txs =
  {| series_labels := map (fun i => weekday_short tz (series_day tz (clock i) i)) [6; 5; 4; 3; 2; 1; 0];
     balances := map (fun i => day_balance (iso_date_part (series_day tz (clock i) i)) txs)
                   [6; 5; 4; 3; 2; 1; 0] |}.
Proof.
  unfold getLast7DaysData. change 6 with (Z.of_nat 6).
  rewrite last_days_loop_closed by lia. reflexivity.
Qed.

(** ** Properties *)

(** The series has exactly seven labels and seven balances, whatever
    the transactions: for [i] from 6 down to 0, the weekday of the
    instant [i] days back and the balance up to its date string. *)
Theorem getLast7DaysData_spec tz clock txs :
  getLast7DaysData tz clock txs =
  {| series_labels := map (fun i => weekday_short tz (series_day tz (clock i) i)) [6; 5; 4; 3; 2; 1; 0];
     balances := map (fun i => day_balance (iso_date_part (series_day tz (clock i) i)) txs)
                   [6; 5; 4; 3; 2; 1; 0] |} /\
  length (series_labels (getLast7DaysData tz clock txs)) = 7%nat /\
  length (balances (getLast7DaysData tz clock txs)) = 7%nat.
Proof. rewrite getLast7DaysData_closed. auto. Qed.

(** C24. The loop stops after exactly its seven iterations: with any
    fuel of at least seven steps it pushes, for [i] from 6 down to 0, the
    weekday of the instant [i] days back and the balance up to its date
    string, and nothing else. *)
Theorem last_days_loop_fuel tz clock txs fuel :
  (7 <= fuel)%nat ->
  last_days_loop tz clock txs fuel 6 {| series_labels := []; balances := [] |} =
  {| series_labels := map (fun i => weekday_short tz (series_day tz (clock i) i)) [6; 5; 4; 3; 2; 1; 0];
     balances := map (fun i => day_balance (iso_date_part (series_day tz (clock i) i)) txs)
                   [6; 5; 4; 3; 2; 1; 0] |}.
Proof.
  intros Hf. change 6 with (Z.of_nat 6) at 1.
  rewrite last_days_loop_closed by lia. reflexivity.
Qed.

(** The instant [i] days back lies on local day [L - i], where [L]
    is today's local day number and [r] the local time of day; its UTC
    day, which gives the date string compared with the transactions, is
    [L - i + (r - tz) / 86400000]: the same day only once the local time
    of day has reached the offset [tz]. *)
Theorem series_day_calendar tz now i :
  let L := (now + tz) / ms_per_day in
  let r := (now + tz) mod ms_per_day in
  (series_day tz now i + tz) / ms_per_day = L - i /\
  series_day tz now i / ms_per_day = L - i + (r - tz) / ms_per_day /\
  (0 <= tz <= r -> iso_date_part (series_day tz now i) = iso_date_part ((L - i) * ms_per_day)).
Proof.
  intros L r. assert (Hr : 0 <= r < ms_per_day) by (apply Z.mod_pos_bound; reflexivity).
  rewrite series_day_eq. fold L r.
  replace ((L - i) * ms_per_day + r - tz) with ((L - i) * ms_per_day + (r - tz)) by lia.
  rewrite Z.div_add_l by discriminate. split; [|split].
  - replace ((L - i) * ms_per_day + (r - tz) + tz) with (r + (L - i) * ms_per_day) by lia.
    rewrite Z.div_add by discriminate. rewrite Z.div_small by exact Hr. lia.
  - reflexivity.
  - intros Htz. unfold iso_date_part. rewrite Z.div_add_l, Z.div_mul by discriminate.
    rewrite (Z.div_small (r - tz)) by lia. rewrite Z.add_0_r. reflexivity.
Qed.

(** C25. Between two cut-off dates [s1 <= s2], the balance grows by the
    signed amounts (income positive, expense negative) of exactly the
    transactions dated after [s1] and up to [s2]. *)
Theorem day_balance_step s1 s2 txs :
  js_str_le s1 s2 = true ->
  day_balance s2 txs - day_balance s1 txs =
  reduce_sum signed_amount
    (List.filter (fun t => js_str_lt s1 (date t) && js_str_le (date t) s2) txs).
Proof.
  intros H12. rewrite !day_balance_signed.
  rewrite (reduce_sum_filter_split signed_amount (fun t => js_str_le (date t) s1)
             (List.filter (fun t => js_str_le (date t) s2) txs)).
  rewrite !filter_filter_and.
  rewrite (filter_ext_in _ (fun t => js_str_le (date t) s1)).
  - rewrite (filter_ext_in (fun x => js_str_le (date x) s2 && negb (js_str_le (date x) s1))
                           (fun t => js_str_lt s1 (date t) && js_str_le (date t) s2)); [lia|].
    intros t _. unfold js_str_le at 2. rewrite negb_involutive. apply andb_comm.
  - intros t _. destruct (js_str_le (date t) s1) eqn:E; [|apply andb_false_r].
    rewrite (js_str_le_trans _ _ _ E H12). reflexivity.
Qed.

(** C26. When no transaction is dated after today's date string, the
    last point of the series is the dashboard balance. *)
Theorem series_today_balance tz clock txs :
  Forall (fun t => js_str_le (date t) (iso_date_part (series_day tz (clock 0) 0)) = true) txs ->
  List.last (balances (getLast7DaysData tz clock txs)) 0 = balance (dashboard_totals txs).
Proof.
  intros Hall. rewrite getLast7DaysData_closed, balance_signed. cbn [balances map List.last].
  rewrite day_balance_signed, filter_true_id; [reflexivity|].
  intros t Ht. rewrite List.Forall_forall in Hall. auto.
Qed.

(** C27. East of UTC, during the first [tz] milliseconds of a local day
    (at UTC+7 until 07:00), the last point of the series is labelled with
    today's local day but its cut-off is yesterday's date string, so its
    balance is the balance up to yesterday: a transaction entered for
    today is missing from the line chart while the dashboard counts it. *)
Theorem series_early_morning_lag tz clock txs :
  0 < tz < ms_per_day -> (clock 0 + tz) mod ms_per_day < tz ->
  let L := (clock 0 + tz) / ms_per_day in
  (series_day tz (clock 0) 0 + tz) / ms_per_day = L /\
  iso_date_part (series_day tz (clock 0) 0) = iso_date_part ((L - 1) * ms_per_day) /\
  List.last (balances (getLast7DaysData tz clock txs)) 0 =
    day_balance (iso_date_part ((L - 1) * ms_per_day)) txs.
Proof.
  intros Htz Hr L.
  destruct (series_day_calendar tz (clock 0) 0) as (Hl & Hu & _). fold L in Hl, Hu.
  assert (Hr0 : 0 <= (clock 0 + tz) mod ms_per_day) by (apply Z.mod_pos_bound; reflexivity).
  assert (Hd : ((clock 0 + tz) mod ms_per_day - tz) / ms_per_day = -1)
    by (unfold ms_per_day in *; Z.div_mod_to_equations; lia).
  assert (Hiso : iso_date_part (series_day tz (clock 0) 0) = iso_date_part ((L - 1) * ms_per_day)).
  { unfold iso_date_part. rewrite Hu, Hd, Z.div_mul by discriminate.
    replace (L - 0 + -1) with (L - 1) by lia. reflexivity. }
  split; [rewrite Hl; lia|]. split; [exact Hiso|].
  rewrite getLast7DaysData_closed. cbn [balances map List.last]. rewrite Hiso. reflexivity.
Qed.

Lemma day_balance_step_witness :
  day_balance "2024-01-02" [ex_food; ex_income] - day_balance "2024-01-01" [ex_food; ex_income] =
  reduce_sum signed_amount
    (List.filter (fun t => js_str_lt "2024-01-01" (date t) && js_str_le (date t) "2024-01-02")
       [ex_food; ex_income]).
Proof. apply day_balance_step. reflexivity. Defined.

Lemma series_today_balance_witness :
  List.last (balances (getLast7DaysData 25200000 (fun i => 1704168000000 + (6 - i))
                         [ex_food; ex_income])) 0 =
  balance (dashboard_totals [ex_food; ex_income]).
Proof. apply series_today_balance. repeat constructor. Defined.

Lemma last_days_loop_fuel_witness :
  let clock i := 1704168000000 + (6 - i) in
  last_days_loop 0 clock [ex_food] 10 6 {| series_labels := []; balances := [] |} =
  {| series_labels := map (fun i => weekday_short 0 (series_day 0 (clock i) i)) [6; 5; 4; 3; 2; 1; 0];
     balances := map (fun i => day_balance (iso_date_part (series_day 0 (clock i) i)) [ex_food])
                   [6; 5; 4; 3; 2; 1; 0] |}.
Proof. intros clock. apply last_days_loop_fuel. lia. Defined.

Lemma series_early_morning_lag_witness :
  let clock i := 1704139200000 + (6 - i) in
  let L := (clock 0 + 25200000) / ms_per_day in
  (series_day 25200000 (clock 0) 0 + 25200000) / ms_per_day = L /\
  iso_date_part (series_day 25200000 (clock 0) 0) = iso_date_part ((L - 1) * ms_per_day) /\
  List.last (balances (getLast7DaysData 25200000 clock [ex_food; ex_income])) 0 =
    day_balance (iso_date_part ((L - 1) * ms_per_day)) [ex_food; ex_income].
Proof.
  intros clock. apply series_early_morning_lag; unfold ms_per_day; [lia|]. vm_compute. reflexivity.
Defined.
