(* ===== verification/Dashboard.v ===== *)
(** * The dashboard texts

    [formatCurrency] (src/script.js 165-168) prints the currency symbol of
    [currentCurrency] and [Math.abs(amount).toLocaleString('id-ID')]:
    the digits grouped by three with '.' (amounts are integers in this
    development, so no decimal part is printed).  [updateDashboard]
    (src/script.js 171-189) writes the three totals, the rounded savings
    progress and the bar width when the target is positive, and the
    target.

    The theorems show that the printed amount determines the absolute
    value and nothing more (the sign of a negative balance is lost), and
    that with a target of zero or less the progress text of the previous
    render stays on screen.  The euro sign is written as its UTF-8 bytes;
    strings are sequences of 8-bit characters throughout. *)

From S2P Require Import Prelude JsString JsDate Transaction Aggregate.
From Stdlib Require Import QArith Qround DecimalString.

Open Scope Z_scope.

(** [currencySymbols[currentCurrency]]; a key outside the object reads
    [undefined], printed as "undefined". *)
Definition currencySymbols (currency : string) : string :=
  if currency === "IDR"%string then "Rp "%string
  else if currency === "USD"%string then "$"%string
  else if currency === "EUR"%string then "€"%string
  else "undefined"%string.

(** Digit groups of three, counted from the right: on the reversed digit
    list, a '.' after every third digit that is followed by another. *)
Fixpoint insert_dots (l : list ascii) : list ascii :=
  match l with
  | a :: b :: c :: ((_ :: _) as rest) => a :: b :: c :: "."%char :: insert_dots rest
  | _ => l
  end.

(** [n.toLocaleString('id-ID')] for a non-negative integer [n]. *)
Definition toLocaleString_id (n : Z) : string :=
  string_of_list_ascii (rev (insert_dots (rev (list_ascii_of_string (number_to_string n))))).

Definition formatCurrency (currentCurrency : string) (amount : Z) : string :=
  let symbol := currencySymbols currentCurrency in
  String.append symbol (toLocaleString_id (Z.abs amount)).

(** The texts and the bar width [updateDashboard] writes. *)
Record dashboard_dom := mkDashboardDom {
  totalBalance_text : string;
  totalIncome_text : string;
  totalExpense_text : string;
  savingsProgress_text : string;
  savingsBar_width : option Q;  (* progress + '%', as the number *)
  savingsTarget_text : string
}.

(** [updateDashboard()] on the elements' previous contents [dom]; the
    chart update it ends with belongs to the chart library. *)
Definition updateDashboard (currentCurrency : string) (savingsTarget : Z)
    (transactions : list transaction) (dom : dashboard_dom) : dashboard_dom :=
  let t := dashboard_totals transactions in
  let progress := savings_progress (balance t) savingsTarget in
  {| totalBalance_text := formatCurrency currentCurrency (balance t);
     totalIncome_text := formatCurrency currentCurrency (totalIncome t);
     totalExpense_text := formatCurrency currentCurrency (totalExpense t);
     savingsProgress_text :=
       match progress with
       | Some p => String.append (number_to_string (js_round p)) "%"
       | None => savingsProgress_text dom
       end;
     savingsBar_width :=
       match progress with
       | Some p => Some p
       | None => savingsBar_width dom
       end;
     savingsTarget_text :=
       String.append "Target: " (formatCurrency currentCurrency savingsTarget) |}.

(** The test [c !== '.'], used to read the digits back. *)
Definition not_dot (c : ascii) : bool := negb (Ascii.eqb c "."%char).

(** ** Lemmas *)

Lemma filter_cons_js {A} (p : A -> bool) x l :
  List.filter p (x :: l) = if p x then x :: List.filter p l else List.filter p l.
Proof. reflexivity. Qed.

Lemma filter_insert_dots l : List.filter not_dot (insert_dots l) = List.filter not_dot l.
Proof.
  remember (length l) as n eqn:Hn. revert l Hn.
  induction n as [n IH] using (well_founded_induction lt_wf). intros l Hn.
  destruct l as [|a [|b [|c [|d r]]]]; try reflexivity.
  change (insert_dots (a :: b :: c :: d :: r)) with (a :: b :: c :: "."%char :: insert_dots (d :: r)).
  rewrite !filter_cons_js, (IH (length (d :: r))) by (simpl in *; lia || reflexivity).
  reflexivity.
Qed.

Lemma uint_no_dot u : Forall (fun c => not_dot c = true) (list_ascii_of_string (NilEmpty.string_of_uint u)).
Proof. induction u; simpl; repeat constructor; assumption. Qed.

(** The printed form of a number has no '.'. *)
Lemma number_no_dot z : Forall (fun c => not_dot c = true) (list_ascii_of_string (number_to_string z)).
Proof.
  unfold number_to_string. destruct (Z.to_int z) as [u|u]; simpl;
    [|constructor; [reflexivity|]]; destruct u; simpl; repeat constructor; apply uint_no_dot.
Qed.

Lemma filter_no_dot l : Forall (fun c => not_dot c = true) l -> List.filter not_dot l = l.
Proof. intros H. apply filter_true_id. intros x Hx. rewrite List.Forall_forall in H. auto. Qed.

(** Grouping the digits loses nothing: removing the separators gives
    the digits back. *)
Lemma toLocaleString_id_digits n :
  List.filter not_dot (list_ascii_of_string (toLocaleString_id n)) =
  list_ascii_of_string (number_to_string n).
Proof.
  unfold toLocaleString_id. rewrite list_ascii_of_string_of_list_ascii.
  rewrite filter_rev, filter_insert_dots, <- filter_rev, rev_involutive.
  apply filter_no_dot, number_no_dot.
Qed.

Lemma toLocaleString_id_inj n m : toLocaleString_id n = toLocaleString_id m -> n = m.
Proof.
  intros E. apply number_to_string_inj.
  rewrite <- (string_of_list_ascii_of_string (number_to_string n)),
          <- (string_of_list_ascii_of_string (number_to_string m)).
  rewrite <- !toLocaleString_id_digits, E. reflexivity.
Qed.

Lemma string_append_inv_l p a b : String.append p a = String.append p b -> a = b.
Proof. induction p as [|c p IH]; [auto|]. rewrite !append_cons. intros [=]. auto. Qed.

(** ** Properties *)

(** C28. Two amounts print the same exactly when their absolute values
    are equal: the grouped digits determine the value, and a negative
    balance prints like the positive one. *)
Theorem formatCurrency_abs_iff c a b :
  formatCurrency c a = formatCurrency c b <-> Z.abs a = Z.abs b.
Proof.
  unfold formatCurrency. split.
  - intros E. apply string_append_inv_l, toLocaleString_id_inj in E. exact E.
  - intros ->. reflexivity.
Qed.

(** C29. With a positive target the progress text is the rounded
    progress followed by '%'; with a target of zero or less neither the
    text nor the bar is written, so the previous render's values stay. *)
Theorem updateDashboard_progress c target txs dom :
  (0 < target -> exists p,
     savings_progress (balance (dashboard_totals txs)) target = Some p /\
     savingsProgress_text (updateDashboard c target txs dom) =
       String.append (number_to_string (js_round p)) "%" /\
     savingsBar_width (updateDashboard c target txs dom) = Some p) /\
  (target <= 0 ->
     savingsProgress_text (updateDashboard c target txs dom) = savingsProgress_text dom /\
     savingsBar_width (updateDashboard c target txs dom) = savingsBar_width dom).
Proof.
  unfold updateDashboard, savings_progress. simpl. split; intros Ht.
  - rewrite (proj2 (Z.ltb_lt 0 target) Ht). eauto.
  - rewrite (proj2 (Z.ltb_ge 0 target) Ht). auto.
Qed.

(** On the example of the specification: the amounts are grouped
    by thousands with '.', a balance of -5000 is shown as "Rp 5.000", and
    after the target is lowered from 100000 to 0 the dashboard still
    shows the progress of 60% computed for the old target. *)
Example dashboard_display_example :
  let txs := [ex_food; ex_income] in
  let dom0 := mkDashboardDom "" "" "" "0%" None "" in
  let dom1 := updateDashboard "IDR" 100000 txs dom0 in
  let dom2 := updateDashboard "IDR" 0 txs dom1 in
  formatCurrency "IDR" 1234567 = "Rp 1.234.567"%string /\
  formatCurrency "IDR" (-5000) = "Rp 5.000"%string /\
  totalBalance_text dom1 = "Rp 60.000"%string /\
  savingsProgress_text dom1 = "60%"%string /\
  savingsProgress_text dom2 = "60%"%string /\
  savingsTarget_text dom2 = "Target: Rp 0"%string.
Proof. vm_compute. repeat split. Qed.
