(* ===== verification/Json.v ===== *)
(** * JSON text, as [JSON.stringify] writes it and [JSON.parse] reads it

    The transactions are stored in [localStorage] as
    [JSON.stringify(transactions)] (src/script.js 247, 267) and read back
    at start-up with [JSON.parse] (src/script.js 2).  This file models
    the two runtime functions on the values the program stores: [null],
    booleans, integer numbers, strings, arrays and objects, printed
    without spaces as [JSON.stringify] does, with its escapes.  The
    parser reads the same grammar (blanks allowed between tokens, the
    escapes of the JSON grammar); numbers with a fraction or an exponent
    are not read, the amounts being integers.  [JSON.parse] throws a
    [SyntaxError] where the parser returns [None].

    The parser is a recursive descent with fuel; one more unit of fuel
    than the length of the text is enough, and the main lemma is the
    round trip [JSON_parse (stringify v) = Some v] ([JSON_parse_print]),
    on which the persistence theorems of [Storage] and [App] rest. *)

From S2P Require Import Prelude JsString JsDate.
From Stdlib Require Import DecimalString DecimalZ.

Open Scope Z_scope.

Inductive json :=
  | JNull
  | JBool (b : bool)
  | JNum (n : Z)
  | JStr (s : string)
  | JArr (items : list json)
  | JObj (members : list (string * json)).

(** ** Printing *)

Definition quote_char : ascii := ascii_of_nat 34.
Definition backslash : ascii := ascii_of_nat 92.

(** A hexadecimal digit, in lower case as [JSON.stringify] writes it. *)
Definition hex_digit (n : nat) : ascii :=
  if (n <? 10)%nat then ascii_of_nat (48 + n) else ascii_of_nat (87 + n).

(** The escape of one character inside a string literal. *)
Definition escape_char (c : ascii) : string :=
  let n := nat_of_ascii c in
  if (n =? 34)%nat then String backslash (String quote_char "")
  else if (n =? 92)%nat then String backslash (String backslash "")
  else if (n =? 8)%nat then String backslash "b"
  else if (n =? 12)%nat then String backslash "f"
  else if (n =? 10)%nat then String backslash "n"
  else if (n =? 13)%nat then String backslash "r"
  else if (n =? 9)%nat then String backslash "t"
  else if (n <? 32)%nat then
    String backslash (String "u" (String "0" (String "0"
      (String (hex_digit (n / 16)) (String (hex_digit (n mod 16)) "")))))
  else String c "".

Fixpoint escape_string (s : string) : string :=
  match s with
  | EmptyString => EmptyString
  | String c r => String.append (escape_char c) (escape_string r)
  end.

Definition quote_string (s : string) : string :=
  String quote_char (String.append (escape_string s) (String quote_char "")).

(** [items.join(',')] *)
Fixpoint join_commas (l : list string) : string :=
  match l with
  | [] => ""
  | [a] => a
  | a :: r => String.append a (String "," (join_commas r))
  end.

Fixpoint stringify (v : json) : string :=
  match v with
  | JNull => "null"
  | JBool true => "true"
  | JBool false => "false"
  | JNum n => number_to_string n
  | JStr s => quote_string s
  | JArr l => String "[" (String.append (join_commas (map stringify l)) "]")
  | JObj m =>
      String "{" (String.append
        (join_commas (map (fun kv => String.append (quote_string kv.1)
                                        (String ":" (stringify kv.2))) m)) "}")
  end.

(** ** Parsing *)

Definition is_ws (c : ascii) : bool :=
  let n := nat_of_ascii c in (n =? 32)%nat || (n =? 9)%nat || (n =? 10)%nat || (n =? 13)%nat.

Fixpoint skip_ws (s : string) : string :=
  match s with
  | String c r => if is_ws c then skip_ws r else s
  | EmptyString => s
  end.

(** The longest run of decimal digits at the front of a string. *)
Fixpoint span_digits (s : string) : string * string :=
  match s with
  | String c r =>
      match digit_value c with
      | Some _ => let p := span_digits r in (String c p.1, p.2)
      | None => (EmptyString, s)
      end
  | EmptyString => (EmptyString, EmptyString)
  end.

(** An unsigned integer of the JSON grammar, [0] or a non-zero digit
    followed by digits: the run of digits is its value's canonical
    decimal form. *)
Definition parse_uint (s : string) : option (Z * string) :=
  let (ds, r) := span_digits s in
  match NilZero.int_of_string ds with
  | Some i => let z := Z.of_int i in if number_to_string z === ds then Some (z, r) else None
  | None => None
  end.

Definition parse_number (s : string) : option (json * string) :=
  match s with
  | String "-" r => option_map (fun nr => (JNum (- nr.1), nr.2)) (parse_uint r)
  | _ => option_map (fun nr => (JNum nr.1, nr.2)) (parse_uint s)
  end.

Definition hex_value (c : ascii) : option nat :=
  let n := nat_of_ascii c in
  if (48 <=? n)%nat && (n <=? 57)%nat then Some (n - 48)%nat
  else if (97 <=? n)%nat && (n <=? 102)%nat then Some (n - 87)%nat
  else if (65 <=? n)%nat && (n <=? 70)%nat then Some (n - 55)%nat
  else None.

(** The character a one-letter escape stands for. *)
Definition escape_value (e : ascii) : option ascii :=
  let n := nat_of_ascii e in
  if (n =? 34)%nat then Some quote_char
  else if (n =? 92)%nat then Some backslash
  else if (n =? 47)%nat then Some "/"%char
  else if (n =? 98)%nat then Some (ascii_of_nat 8)
  else if (n =? 102)%nat then Some (ascii_of_nat 12)
  else if (n =? 110)%nat then Some (ascii_of_nat 10)
  else if (n =? 114)%nat then Some (ascii_of_nat 13)
  else if (n =? 116)%nat then Some (ascii_of_nat 9)
  else None.

Definition cons_fst (c : ascii) (p : string * string) : string * string :=
  (String c p.1, p.2).

(** The body of a string literal after its opening quote, up to and
    including the closing quote; [\u] escapes above 255 are not
    characters of this model. *)
Fixpoint parse_string_body (s : string) : option (string * string) :=
  match s with
  | EmptyString => None
  | String c r =>
      let n := nat_of_ascii c in
      if (n =? 34)%nat then Some (EmptyString, r)
      else if (n =? 92)%nat then
        match r with
        | String e r' =>
            match escape_value e with
            | Some c' => option_map (cons_fst c') (parse_string_body r')
            | None =>
                if (nat_of_ascii e =? 117)%nat then
                  match r' with
                  | String h1 (String h2 (String h3 (String h4 r''))) =>
                      match hex_value h1, hex_value h2, hex_value h3, hex_value h4 with
                      | Some a, Some b, Some c, Some d =>
                          let code := (a * 4096 + b * 256 + c * 16 + d)%nat in
                          if (code <? 256)%nat
                          then option_map (cons_fst (ascii_of_nat code)) (parse_string_body r'')
                          else None
                      | _, _, _, _ => None
                      end
                  | _ => None
                  end
                else None
            end
        | EmptyString => None
        end
      else if (n <? 32)%nat then None
      else option_map (cons_fst c) (parse_string_body r)
  end.

Fixpoint parse_value (fuel : nat) (s : string) : option (json * string) :=
  match fuel with
  | O => None
  | S f =>
      match skip_ws s with
      | String "n" (String "u" (String "l" (String "l" r))) => Some (JNull, r)
      | String "t" (String "r" (String "u" (String "e" r))) => Some (JBool true, r)
      | String "f" (String "a" (String "l" (String "s" (String "e" r)))) => Some (JBool false, r)
      | String "[" r =>
          match skip_ws r with
          | String "]" r' => Some (JArr [], r')
          | _ => option_map (fun p => (JArr p.1, p.2)) (parse_elements f r)
          end
      | String "{" r =>
          match skip_ws r with
          | String "}" r' => Some (JObj [], r')
          | _ => option_map (fun p => (JObj p.1, p.2)) (parse_members f r)
          end
      | String c r as s' =>
          if (nat_of_ascii c =? 34)%nat
          then option_map (fun p => (JStr p.1, p.2)) (parse_string_body r)
          else parse_number s'
      | EmptyString => None
      end
  end
(** The elements of an array up to its closing bracket. *)
with parse_elements (fuel : nat) (s : string) : option (list json * string) :=
  match fuel with
  | O => None
  | S f =>
      match parse_value f s with
      | Some (v, r) =>
          match skip_ws r with
          | String "," r' => option_map (fun p => (v :: p.1, p.2)) (parse_elements f r')
          | String "]" r' => Some ([v], r')
          | _ => None
          end
      | None => None
      end
  end
(** The members of an object up to its closing brace. *)
with parse_members (fuel : nat) (s : string) : option (list (string * json) * string) :=
  match fuel with
  | O => None
  | S f =>
      match skip_ws s with
      | String q r =>
          if (nat_of_ascii q =? 34)%nat then
            match parse_string_body r with
            | Some (k, r1) =>
                match skip_ws r1 with
                | String ":" r2 =>
                    match parse_value f r2 with
                    | Some (v, r3) =>
                        match skip_ws r3 with
                        | String "," r4 =>
                            option_map (fun p => ((k, v) :: p.1, p.2)) (parse_members f r4)
                        | String "}" r4 => Some ([(k, v)], r4)
                        | _ => None
                        end
                    | None => None
                    end
                | _ => None
                end
            | None => None
            end
          else None
      | EmptyString => None
      end
  end.

(** The fuel the parser needs for a value: one unit per nesting level
    and one per element of an array or member of an object. *)
Definition list_need {A} (f : A -> nat) (l : list A) : nat :=
  fold_right (fun x acc => S (Nat.max (f x) acc)) 0%nat l.

Fixpoint need (v : json) : nat :=
  match v with
  | JArr l => S (list_need need l)
  | JObj m => S (list_need (fun kv => need kv.2) m)
  | _ => 1%nat
  end.

(** The text after a value: a number must not be followed by a digit. *)
Definition value_end (r : string) : Prop :=
  match r with
  | String c _ => digit_value c = None
  | EmptyString => True
  end.

(** [JSON.parse(text)]: one value, blanks around it, nothing else. *)
Definition JSON_parse (text : string) : option json :=
  match parse_value (S (String.length text)) text with
  | Some (v, rest) => if skip_ws rest === ""%string then Some v else None
  | None => None
  end.

(** ** Lemmas *)

(** Induction on values, with the hypothesis on every element and
    member. *)
Fixpoint json_ind' (P : json -> Prop)
    (Hnull : P JNull) (Hbool : forall b, P (JBool b)) (Hnum : forall n, P (JNum n))
    (Hstr : forall s, P (JStr s))
    (Harr : forall l, Forall P l -> P (JArr l))
    (Hobj : forall m, Forall (fun kv => P kv.2) m -> P (JObj m)) (v : json) : P v :=
  let rec := json_ind' P Hnull Hbool Hnum Hstr Harr Hobj in
  match v with
  | JNull => Hnull
  | JBool b => Hbool b
  | JNum n => Hnum n
  | JStr s => Hstr s
  | JArr l => Harr l ((fix go (l : list json) : Forall P l :=
                        match l with
                        | [] => List.Forall_nil _
                        | x :: r => @List.Forall_cons _ P x r (rec x) (go r)
                        end) l)
  | JObj m => Hobj m ((fix go (m : list (string * json)) : Forall (fun kv => P kv.2) m :=
                        match m with
                        | [] => List.Forall_nil _
                        | kv :: r => @List.Forall_cons _ (fun kv => P kv.2) kv r (rec kv.2) (go r)
                        end) m)
  end.

Lemma parse_escape_char c r :
  parse_string_body (String.append (escape_char c) r) = option_map (cons_fst c) (parse_string_body r).
Proof. destruct c as [[] [] [] [] [] [] [] []]; reflexivity. Qed.

Lemma parse_quoted s r :
  parse_string_body (String.append (escape_string s) (String quote_char r)) = Some (s, r).
Proof.
  induction s as [|c s IH]; [reflexivity|].
  simpl. rewrite append_assoc_str, parse_escape_char, IH. reflexivity.
Qed.

(** *** Numbers *)

Lemma span_uint u r :
  value_end r -> span_digits (String.append (NilEmpty.string_of_uint u) r) = (NilEmpty.string_of_uint u, r).
Proof.
  intros Hr. induction u; cbn [NilEmpty.string_of_uint]; rewrite ?append_cons;
    [|cbn [span_digits]; rewrite IHu; reflexivity..].
  rewrite append_empty_l. destruct r as [|c r]; [reflexivity|]. cbn [value_end] in Hr.
  cbn [span_digits]. now rewrite Hr.
Qed.

(** A non-negative number prints as the digits of some decimal numeral. *)
Lemma number_to_string_uint z :
  0 <= z -> exists u, number_to_string z = NilZero.string_of_uint u.
Proof. intros Hz. destruct z as [|p|p]; [|eexists; reflexivity|lia]. exists (Decimal.D0 Decimal.Nil). reflexivity. Qed.

Lemma span_number z r :
  0 <= z -> value_end r -> span_digits (String.append (number_to_string z) r) = (number_to_string z, r).
Proof.
  intros Hz Hr. destruct (number_to_string_uint z Hz) as [u ->].
  destruct u; try (apply span_uint; exact Hr).
  destruct r as [|c r]; [reflexivity|]. cbn [value_end] in Hr.
  cbn [NilZero.string_of_uint NilEmpty.string_of_uint]. rewrite append_cons, append_empty_l.
  cbn [span_digits]. rewrite Hr. reflexivity.
Qed.

Lemma parse_uint_number z r :
  0 <= z -> value_end r -> parse_uint (String.append (number_to_string z) r) = Some (z, r).
Proof.
  intros Hz Hr. unfold parse_uint. rewrite span_number by assumption.
  pose proof (number_to_string_roundtrip z) as E.
  destruct (NilZero.int_of_string (number_to_string z)) as [i|]; [|discriminate].
  injection E as E. rewrite E, bool_decide_eq_true_2 by reflexivity. reflexivity.
Qed.

Lemma parse_number_nonneg s :
  (forall r, s <> String "-" r) ->
  parse_number s = option_map (fun nr => (JNum nr.1, nr.2)) (parse_uint s).
Proof.
  intros H. destruct s as [|c r]; [reflexivity|].
  destruct c as [[] [] [] [] [] [] [] []]; try reflexivity. exfalso. apply (H r). reflexivity.
Qed.

Lemma number_to_string_head z r r' :
  0 <= z -> String.append (number_to_string z) r <> String "-" r'.
Proof.
  intros Hz. destruct (number_to_string_uint z Hz) as [u ->].
  destruct u; cbn [NilZero.string_of_uint NilEmpty.string_of_uint]; rewrite append_cons; discriminate.
Qed.

Lemma parse_number_print z r :
  value_end r -> parse_number (String.append (number_to_string z) r) = Some (JNum z, r).
Proof.
  intros Hr. destruct (Z_le_gt_dec 0 z) as [Hz|Hz].
  - rewrite parse_number_nonneg by (intros r'; apply number_to_string_head, Hz).
    rewrite parse_uint_number by assumption. reflexivity.
  - destruct z as [| |p]; try lia.
    change (number_to_string (Z.neg p)) with (String "-" (number_to_string (Z.pos p))).
    rewrite append_cons. cbn [parse_number]. rewrite parse_uint_number by (lia || assumption).
    reflexivity.
Qed.

(** *** The first character of a printed value *)

Lemma parse_value_number_head f c rest :
  c = "-"%char \/ digit_value c <> None ->
  parse_value (S f) (String c rest) = parse_number (String c rest).
Proof.
  intros H. destruct c as [[] [] [] [] [] [] [] []];
    first [reflexivity | exfalso; destruct H as [H|H]; [discriminate H|apply H; reflexivity]].
Qed.

Lemma parse_value_array_head f c rest :
  is_ws c = false -> c <> "]"%char ->
  parse_value (S f) (String "[" (String c rest)) =
  option_map (fun p => (JArr p.1, p.2)) (parse_elements f (String c rest)).
Proof.
  intros Hw Hc. destruct c as [[] [] [] [] [] [] [] []];
    first [reflexivity | discriminate Hw | exfalso; apply Hc; reflexivity].
Qed.

Lemma parse_value_object_head f c rest :
  is_ws c = false -> c <> "}"%char ->
  parse_value (S f) (String "{" (String c rest)) =
  option_map (fun p => (JObj p.1, p.2)) (parse_members f (String c rest)).
Proof.
  intros Hw Hc. destruct c as [[] [] [] [] [] [] [] []];
    first [reflexivity | discriminate Hw | exfalso; apply Hc; reflexivity].
Qed.

Lemma digit_head c : digit_value c <> None -> is_ws c = false /\ c <> "]"%char /\ c <> "}"%char.
Proof.
  intros H. destruct c as [[] [] [] [] [] [] [] []];
    first [split; [reflexivity|split; discriminate] | exfalso; apply H; reflexivity].
Qed.

Lemma number_head z r :
  exists c rest, String.append (number_to_string z) r = String c rest /\
    (c = "-"%char \/ digit_value c <> None).
Proof.
  destruct (Z_le_gt_dec 0 z) as [Hz|Hz].
  - destruct (number_to_string_uint z Hz) as [u ->].
    destruct u; cbn [NilZero.string_of_uint NilEmpty.string_of_uint]; rewrite append_cons;
      do 2 eexists; (split; [reflexivity|right; discriminate]).
  - destruct z as [| |p]; try lia. do 2 eexists. split; [reflexivity|left; reflexivity].
Qed.

Lemma stringify_head v r :
  exists c rest, String.append (stringify v) r = String c rest /\
    is_ws c = false /\ c <> "]"%char /\ c <> "}"%char.
Proof.
  destruct v as [| [] | z | s | l | m]; cbn [stringify];
    try (unfold quote_string; rewrite ?append_cons; do 2 eexists; split; [reflexivity|];
         split; [reflexivity|split; discriminate]).
  destruct (number_head z r) as (c & rest & E & [->|H]); rewrite E; do 2 eexists;
    (split; [reflexivity|]); [split; [reflexivity|split; discriminate]|apply digit_head, H].
Qed.

(** *** Printing then parsing *)

Lemma join_commas_cons2 a b l :
  join_commas (a :: b :: l) = String.append a (String "," (join_commas (b :: l))).
Proof. reflexivity. Qed.

Lemma value_end_punct c r : digit_value c = None -> value_end (String c r).
Proof. intros H. exact H. Qed.

Section Elements.
Context (P : json -> Prop).
Hypothesis HP : forall v, P v <-> forall n r, (need v <= n)%nat -> value_end r ->
  parse_value n (String.append (stringify v) r) = Some (v, r).

Lemma parse_elements_print l n r :
  Forall P l -> l <> [] -> (list_need need l <= n)%nat ->
  parse_elements n (String.append (join_commas (map stringify l)) (String "]" r)) = Some (l, r).
Proof.
  revert n. induction l as [|x l IHl]; intros n Hall Hne Hn; [congruence|].
  apply Forall_cons_iff in Hall as [Hx Hall]. rewrite HP in Hx.
  destruct n as [|f]; [simpl in Hn; lia|]. simpl in Hn.
  destruct l as [|y l].
  - cbn [map join_commas parse_elements]. rewrite Hx by (lia || reflexivity). reflexivity.
  - rewrite map_cons, map_cons, join_commas_cons2, append_assoc_str, append_cons.
    cbn [parse_elements]. rewrite Hx by (lia || reflexivity).
    cbn [skip_ws]. replace (is_ws ","%char) with false by reflexivity. cbn iota beta.
    rewrite <- map_cons, (IHl f); [reflexivity|auto|discriminate|lia].
Qed.

Definition member_text (kv : string * json) : string :=
  String.append (quote_string kv.1) (String ":" (stringify kv.2)).

Lemma member_text_app k v X :
  String.append (member_text (k, v)) X =
  String quote_char (String.append (escape_string k) (String quote_char (String ":" (String.append (stringify v) X)))).
Proof.
  unfold member_text, quote_string. cbn [fst snd].
  repeat (rewrite append_cons || rewrite append_assoc_str || rewrite append_empty_l).
  reflexivity.
Qed.

Lemma parse_members_step f k Y :
  parse_members (S f) (String quote_char (String.append (escape_string k) (String quote_char (String ":" Y)))) =
  match parse_value f Y with
  | Some (v, r3) =>
      match skip_ws r3 with
      | String "," r4 => option_map (fun p => ((k, v) :: p.1, p.2)) (parse_members f r4)
      | String "}" r4 => Some ([(k, v)], r4)
      | _ => None
      end
  | None => None
  end.
Proof.
  cbn [parse_members skip_ws]. replace (is_ws quote_char) with false by reflexivity.
  replace (nat_of_ascii quote_char =? 34)%nat with true by reflexivity. cbn iota beta.
  rewrite parse_quoted. cbn [skip_ws]. replace (is_ws ":"%char) with false by reflexivity.
  reflexivity.
Qed.

Lemma parse_members_print m n r :
  Forall (fun kv => P kv.2) m -> m <> [] -> (list_need (fun kv => need kv.2) m <= n)%nat ->
  parse_members n (String.append (join_commas (map member_text m)) (String "}" r)) = Some (m, r).
Proof.
  revert n. induction m as [|[k x] m IHm]; intros n Hall Hne Hn; [congruence|].
  apply Forall_cons_iff in Hall as [Hx Hall]. simpl in Hx. rewrite HP in Hx.
  destruct n as [|f]; [simpl in Hn; lia|]. simpl in Hn.
  destruct m as [|y m].
  - cbn [map join_commas]. rewrite member_text_app, parse_members_step, Hx by (lia || reflexivity).
    reflexivity.
  - rewrite map_cons, map_cons, join_commas_cons2, append_assoc_str, member_text_app,
      parse_members_step, append_cons, Hx by (lia || reflexivity).
    cbn [skip_ws]. replace (is_ws ","%char) with false by reflexivity. cbn iota beta.
    rewrite <- map_cons, (IHm f); [reflexivity|auto|discriminate|lia].
Qed.

End Elements.

Lemma join_head {A} (g : A -> string) l X :
  l <> [] ->
  (forall x Y, In x l -> exists c rest, String.append (g x) Y = String c rest /\
     is_ws c = false /\ c <> "]"%char /\ c <> "}"%char) ->
  exists c rest, String.append (join_commas (map g l)) X = String c rest /\
     is_ws c = false /\ c <> "]"%char /\ c <> "}"%char.
Proof.
  intros Hne Hg. destruct l as [|x [|y l]]; [congruence|..].
  - apply Hg. left. reflexivity.
  - rewrite map_cons, map_cons, join_commas_cons2, append_assoc_str. apply Hg. left. reflexivity.
Qed.

Lemma member_text_head kv Y :
  exists c rest, String.append (member_text kv) Y = String c rest /\
    is_ws c = false /\ c <> "]"%char /\ c <> "}"%char.
Proof.
  destruct kv as [k v]. rewrite member_text_app. do 2 eexists.
  split; [reflexivity|]. split; [reflexivity|split; discriminate].
Qed.

(** Printing a value and reading it back gives the value, with enough
    fuel and whatever follows (a digit only after a non-number). *)
Lemma parse_stringify v :
  forall n r, (need v <= n)%nat -> value_end r ->
  parse_value n (String.append (stringify v) r) = Some (v, r).
Proof.
  induction v as [| b | z | s | l IH | m IH] using json_ind'; intros [|f] r Hn Hr;
    try (cbn [need] in Hn; lia).
  - cbn [stringify]. rewrite !append_cons, append_empty_l. reflexivity.
  - destruct b; cbn [stringify]; rewrite !append_cons, append_empty_l; reflexivity.
  - destruct (number_head z r) as (c & rest & E & Hc). cbn [stringify].
    rewrite E, parse_value_number_head, <- E by exact Hc. apply parse_number_print, Hr.
  - cbn [stringify]. unfold quote_string.
    rewrite append_cons, append_assoc_str, append_cons, append_empty_l.
    change (parse_value (S f) (String quote_char ?x)) with
      (option_map (fun p => (JStr p.1, p.2)) (parse_string_body x)).
    rewrite parse_quoted. reflexivity.
  - cbn [stringify]. rewrite append_cons, append_assoc_str, append_cons, append_empty_l.
    destruct l as [|x l].
    + reflexivity.
    + destruct (join_head stringify (x :: l) (String "]" r)) as (c & rest & E & Hw & Hc & _);
        [discriminate|intros y Y _; apply stringify_head|].
      rewrite E, parse_value_array_head, <- E by assumption.
      rewrite (parse_elements_print (fun v => forall n r, (need v <= n)%nat -> value_end r ->
                 parse_value n (String.append (stringify v) r) = Some (v, r)));
        [reflexivity|intros; reflexivity|exact IH|discriminate|cbn [need] in Hn; lia].
  - cbn [stringify]. rewrite append_cons, append_assoc_str, append_cons, append_empty_l.
    change (map (fun kv => String.append (quote_string kv.1) (String ":" (stringify kv.2))) m)
      with (map member_text m).
    destruct m as [|kv m].
    + reflexivity.
    + destruct (join_head member_text (kv :: m) (String "}" r)) as (c & rest & E & Hw & _ & Hc);
        [discriminate|intros y Y _; apply member_text_head|].
      rewrite E, parse_value_object_head, <- E by assumption.
      rewrite (parse_members_print (fun v => forall n r, (need v <= n)%nat -> value_end r ->
                 parse_value n (String.append (stringify v) r) = Some (v, r)));
        [reflexivity|intros; reflexivity|exact IH|discriminate|cbn [need] in Hn; lia].
Qed.

Lemma list_need_join {A} (f : A -> nat) (g : A -> string) l :
  Forall (fun x => (f x <= String.length (g x))%nat) l ->
  (list_need f l <= S (String.length (join_commas (map g l))))%nat.
Proof.
  induction l as [|x l IH]; intros Hall; [simpl; lia|].
  apply Forall_cons_iff in Hall as [Hx Hall]. specialize (IH Hall).
  destruct l as [|y l]; [unfold list_need; simpl; lia|].
  rewrite map_cons, map_cons, join_commas_cons2, length_append_str. rewrite <- map_cons.
  unfold list_need in *. cbn [fold_right String.length] in *. lia.
Qed.

(** The fuel a value needs is at most the length of its text. *)
Lemma need_le_length v : (need v <= String.length (stringify v))%nat.
Proof.
  induction v as [| [] | z | s | l IH | m IH] using json_ind'; cbn [need stringify]; try (simpl; lia).
  - destruct (number_to_string z) eqn:E; [exfalso; exact (number_to_string_nonempty z E)|simpl; lia].
  - cbn [String.length]. rewrite length_append_str. cbn [String.length].
    pose proof (list_need_join need stringify l IH). lia.
  - cbn [String.length]. rewrite length_append_str. cbn [String.length].
    assert (Forall (fun kv => (need kv.2 <= String.length (member_text kv))%nat) m).
    { eapply Forall_impl; [exact IH|]. intros [k x] Hx. unfold member_text.
      rewrite length_append_str. simpl in *. lia. }
    pose proof (list_need_join (fun kv => need kv.2) member_text m H). unfold member_text in *. lia.
Qed.

Lemma JSON_parse_print v : JSON_parse (stringify v) = Some v.
Proof.
  unfold JSON_parse. pose proof (need_le_length v) as Hn.
  pose proof (parse_stringify v (S (String.length (stringify v))) "" ltac:(lia) I) as H.
  rewrite append_empty_r in H. rewrite H. reflexivity.
Qed.
