(* ===== verification/Storage.v ===== *)
(** * What the program keeps in [localStorage]

    The transactions are written as [JSON.stringify(transactions)] after
    every add, edit and delete (src/script.js 247, 267) and read at
    start-up by [JSON.parse(localStorage.getItem('transactions')) || []]
    (src/script.js 2).  The object of a transaction has its properties in
    the order the code creates them, [{ id, ...formData }] (src/script.js
    227-233, 241).  The scalar settings are stored as strings
    (src/script.js 3-5, 122, 161, 412).

    [load_transactions] distinguishes a list the program can use, the
    [SyntaxError] [JSON.parse] throws on a corrupt text, and a parsed
    value that is not an array of transactions. *)

From S2P Require Import Prelude JsString JsDate Transaction Json.

Open Scope Z_scope.

(** The values of the type select, ['income'] and ['expense']. *)
Definition type_name (ty : tx_type) : string :=
  match ty with Income => "income" | Expense => "expense" end.

Definition type_of_name (s : string) : option tx_type :=
  if s === "income"%string then Some Income
  else if s === "expense"%string then Some Expense
  else None.

(** The object [JSON.stringify] sees for one transaction. *)
Definition tx_to_json (t : transaction) : json :=
  JObj [("id", JStr (id t)); ("type", JStr (type_name (type t)));
        ("category", JStr (category t)); ("amount", JNum (amount t));
        ("date", JStr (date t)); ("description", JStr (description t))].

(** [obj[key]] on a parsed object: the last member with that key. *)
Definition member (k : string) (m : list (string * json)) : option json :=
  fold_left (fun acc kv => if kv.1 === k then Some kv.2 else acc) m None.

Definition get_str (k : string) (m : list (string * json)) : option string :=
  match member k m with Some (JStr s) => Some s | _ => None end.

(** A parsed object read back as a transaction, when it has the six
    properties with the types the program gives them. *)
Definition tx_of_json (v : json) : option transaction :=
  match v with
  | JObj m =>
      match get_str "id" m, get_str "type" m, get_str "category" m, member "amount" m,
            get_str "date" m, get_str "description" m with
      | Some i, Some ty, Some c, Some (JNum a), Some d, Some ds =>
          match type_of_name ty with
          | Some t => Some (mkTransaction i t c a d ds)
          | None => None
          end
      | _, _, _, _, _, _ => None
      end
  | _ => None
  end.

(** The stored text of a list of transactions. *)
Definition transactions_text (l : list transaction) : string :=
  stringify (JArr (map tx_to_json l)).

(** Truthiness of a parsed value, for [|| []]. *)
Definition json_truthy (v : json) : bool :=
  match v with
  | JNull => false
  | JBool b => b
  | JNum n => negb (n =? 0)
  | JStr s => negb (s === ""%string)
  | JArr _ | JObj _ => true
  end.

Inductive load_result :=
  | Loaded (l : list transaction)   (* the array the program works on *)
  | SyntaxError                     (* JSON.parse threw: the script stops *)
  | Unusable (v : json).            (* parsed, but not an array of transactions *)

(** [JSON.parse(localStorage.getItem('transactions')) || []]; a missing
    key reads [null], which [JSON.parse] reads as the text "null". *)
Definition load_transactions (item : option string) : load_result :=
  let text := match item with Some s => s | None => "null"%string end in
  match JSON_parse text with
  | None => SyntaxError
  | Some v =>
      if json_truthy v then
        match v with
        | JArr items =>
            match mapM tx_of_json items with
            | Some l => Loaded l
            | None => Unusable v
            end
        | _ => Unusable v
        end
      else Loaded []
  end.

(** ** Lemmas *)

Lemma tx_of_to_json t : tx_of_json (tx_to_json t) = Some t.
Proof. destruct t as [i [] c a d ds]; reflexivity. Qed.

Lemma mapM_tx_of_to_json l : mapM tx_of_json (map tx_to_json l) = Some l.
Proof. induction l as [|t l IH]; [reflexivity|]. rewrite map_cons. cbn [mapM]. rewrite tx_of_to_json, IH. reflexivity. Qed.

Lemma load_transactions_text l : load_transactions (Some (transactions_text l)) = Loaded l.
Proof.
  unfold load_transactions, transactions_text. rewrite JSON_parse_print. simpl.
  rewrite mapM_tx_of_to_json. reflexivity.
Qed.

(** ** Properties *)

(** Persisting then reloading a list of transactions gives the same
    list: same ids, fields and order. *)
Theorem storage_roundtrip l : load_transactions (Some (transactions_text l)) = Loaded l.
Proof. apply load_transactions_text. Qed.

(** A missing key loads as the empty list, but a corrupt text makes
    [JSON.parse] throw at start-up instead of falling back to no data,
    and a parsed value that is not an array is kept as the transaction
    "list". *)
Example corrupt_storage_throws :
  load_transactions None = Loaded [] /\
  load_transactions (Some "") = SyntaxError /\
  load_transactions (Some "[{") = SyntaxError /\
  load_transactions (Some "{}") = Unusable (JObj []).
Proof. vm_compute. repeat split. Qed.
