(* ===== verification/App.v ===== *)
(** * The application: global state, start-up and event handlers

    The globals of src/script.js 2-7 (the transactions, the savings
    target, the currency, the theme, the edited id, the sort order) and
    [localStorage] (a [gmap] from keys to string values) form the state
    [app].  [app_load] is the start-up of
    src/script.js 2-5; [app_step] runs one user event to completion, the
    way the handlers run (src/script.js 115-153): a form submit or a
    confirmed delete writes the whole list back, a sort only reorders
    the array in memory, the savings target, the currency and the theme
    are each written under their key.

    The theorems state what a reload of the page gives in every state the
    events reach: the same transactions up to order (the same order right
    after an add, edit or delete), and the same settings. *)

From S2P Require Import Prelude JsString JsDate Transaction Sort Json Storage.
From stdpp Require Import gmap.
From Stdlib Require Import DecimalString.

Open Scope Z_scope.

(** [parseFloat(s)] on the integer texts the program writes: an optional
    sign and the leading digits, [NaN] ([None]) without a digit (a
    fractional part is not modelled). *)
Definition parseFloat (s : string) : option Z :=
  match s with
  | String "-" r => option_map (fun i => - Z.of_int i) (NilZero.int_of_string (span_digits r).1)
  | _ => option_map Z.of_int (NilZero.int_of_string (span_digits s).1)
  end.

(** [parseFloat(localStorage.getItem('savingsTarget')) || 0]: [null]
    and [NaN] and 0 give 0. *)
Definition load_savingsTarget (item : option string) : Z :=
  match item with
  | Some s => match parseFloat s with Some z => if z =? 0 then 0 else z | None => 0 end
  | None => 0
  end.

(** [localStorage.getItem('currency') || 'IDR'] *)
Definition load_currency (item : option string) : string :=
  match item with
  | Some c => if c === ""%string then "IDR"%string else c
  | None => "IDR"%string
  end.

Record app := mkApp {
  storage : gmap string string;
  app_store : store;            (* transactions, editingTransactionId *)
  sortOrder : sort_order;
  savingsTarget : Z;
  currentCurrency : string;
  isDarkMode : bool
}.

(** The start-up: [None] when [JSON.parse] throws or the stored value is
    not an array of transactions. *)
Definition app_load (ls : gmap string string) : option app :=
  match load_transactions (ls !! "transactions"%string) with
  | Loaded txs =>
      Some {| storage := ls;
              app_store := mkStore txs None;
              sortOrder := initial_sortOrder;
              savingsTarget := load_savingsTarget (ls !! "savingsTarget"%string);
              currentCurrency := load_currency (ls !! "currency"%string);
              isDarkMode := bool_decide (ls !! "darkMode"%string = Some "true"%string) |}
  | _ => None
  end.

(** [localStorage.setItem('transactions', JSON.stringify(transactions))] *)
Definition persist_transactions (ls : gmap string string) (txs : list transaction) : gmap string string :=
  <["transactions"%string := transactions_text txs]> ls.

(** One user action, handled to completion. *)
Inductive event :=
  | Submit (now : Z) (fd : form_data)     (* the form's submit, at Date.now() = now *)
  | Delete (isConfirmed : bool) (id : string)
  | OpenEdit (id : string)
  | OpenAdd
  | Close
  | SortBy (c : column)
  | SetTarget (value : Z)                 (* the confirmed dialog's number *)
  | ChangeCurrency (c : string)
  | ToggleDark.

Definition with_store (a : app) (st : store) (ls : gmap string string) : app :=
  {| storage := ls; app_store := st; sortOrder := sortOrder a; savingsTarget := savingsTarget a;
     currentCurrency := currentCurrency a; isDarkMode := isDarkMode a |}.

Section Step.
Context `{S : ArraySort}.

Definition app_step (a : app) (e : event) : app :=
  match e with
  | Submit now fd =>
      let st := handleFormSubmit now fd (app_store a) in
      with_store a st (persist_transactions (storage a) (transactions st))
  | Delete isConfirmed did =>
      if isConfirmed then
        let st := deleteTransaction true did (app_store a) in
        with_store a st (persist_transactions (storage a) (transactions st))
      else a
  | OpenEdit i => with_store a (openEditModal i (app_store a)) (storage a)
  | OpenAdd => with_store a (openAddModal (app_store a)) (storage a)
  | Close => with_store a (closeModal (app_store a)) (storage a)
  | SortBy c =>
      let r := sortTable c (sortOrder a) (transactions (app_store a)) in
      {| storage := storage a;
         app_store := mkStore r.2 (editingTransactionId (app_store a));
         sortOrder := r.1; savingsTarget := savingsTarget a;
         currentCurrency := currentCurrency a; isDarkMode := isDarkMode a |}
  | SetTarget value =>
      (* inputValidator: value === '' || value < 0 is refused *)
      if value <? 0 then a
      else {| storage := <["savingsTarget"%string := number_to_string value]> (storage a);
              app_store := app_store a; sortOrder := sortOrder a; savingsTarget := value;
              currentCurrency := currentCurrency a; isDarkMode := isDarkMode a |}
  | ChangeCurrency c =>
      {| storage := <["currency"%string := c]> (storage a);
         app_store := app_store a; sortOrder := sortOrder a; savingsTarget := savingsTarget a;
         currentCurrency := c; isDarkMode := isDarkMode a |}
  | ToggleDark =>
      let d := negb (isDarkMode a) in
      {| storage := <["darkMode"%string := if d then "true"%string else "false"%string]> (storage a);
         app_store := app_store a; sortOrder := sortOrder a; savingsTarget := savingsTarget a;
         currentCurrency := currentCurrency a; isDarkMode := d |}
  end.

(** The states a page reaches: loaded, then any sequence of events. *)
Inductive app_reachable : app -> Prop :=
  | reach_load ls a : app_load ls = Some a -> app_reachable a
  | reach_step a e : app_reachable a -> app_reachable (app_step a e).

End Step.

(** ** Lemmas *)

Lemma parseFloat_nonneg s :
  (forall r, s <> String "-" r) ->
  parseFloat s = option_map Z.of_int (NilZero.int_of_string (span_digits s).1).
Proof.
  intros H. destruct s as [|c r]; [reflexivity|].
  destruct c as [[] [] [] [] [] [] [] []]; try reflexivity. exfalso. apply (H r). reflexivity.
Qed.

(** The stored target reads back as the target. *)
Lemma load_savingsTarget_number v :
  0 <= v -> load_savingsTarget (Some (number_to_string v)) = v.
Proof.
  intros Hv. unfold load_savingsTarget.
  rewrite parseFloat_nonneg
    by (intros r; rewrite <- (append_empty_r (number_to_string v)); apply number_to_string_head, Hv).
  rewrite <- (append_empty_r (number_to_string v)) at 1.
  rewrite span_number by (exact Hv || exact I). cbn [fst].
  pose proof (number_to_string_roundtrip v) as E.
  destruct (NilZero.int_of_string (number_to_string v)); [|discriminate]. injection E as E.
  cbn [option_map]. rewrite E. destruct (Z.eqb_spec v 0); congruence.
Qed.

(** What a reload reads agrees with the state: the transactions, up to
    order, ... *)
Definition tx_stored_inv (a : app) : Prop :=
  exists l, load_transactions (storage a !! "transactions"%string) = Loaded l /\
            Permutation l (transactions (app_store a)).

(** ... and the settings. *)
Definition settings_inv (a : app) : Prop :=
  load_savingsTarget (storage a !! "savingsTarget"%string) = savingsTarget a /\
  bool_decide (storage a !! "darkMode"%string = Some "true"%string) = isDarkMode a /\
  (currentCurrency a <> ""%string ->
     load_currency (storage a !! "currency"%string) = currentCurrency a).

Lemma openEditModal_transactions i st : transactions (openEditModal i st) = transactions st.
Proof. unfold openEditModal. destruct (find_first _ _); reflexivity. Qed.

Lemma tx_stored_inv_step `{S : ArraySort} `{!ArraySortLaws S} a e :
  tx_stored_inv a -> tx_stored_inv (app_step a e).
Proof.
  intros (l & Hl & Hp).
  destruct e as [now fd|[] did|i| | |c|v|c|]; cbn [app_step]; unfold tx_stored_inv, with_store;
    cbn [storage app_store sortOrder savingsTarget isDarkMode currentCurrency transactions];
    unfold persist_transactions.
  - rewrite lookup_insert_eq, load_transactions_text. eauto.
  - rewrite lookup_insert_eq, load_transactions_text. eauto.
  - eauto.
  - rewrite openEditModal_transactions. eauto.
  - eauto.
  - eauto.
  - exists l. split; [exact Hl|]. rewrite Hp. symmetry. apply sort_permutation.
  - destruct (Z.ltb_spec v 0); [eauto|]. cbn. rewrite lookup_insert_ne by discriminate. eauto.
  - rewrite lookup_insert_ne by discriminate. eauto.
  - rewrite lookup_insert_ne by discriminate. eauto.
Qed.

Lemma settings_inv_step `{S : ArraySort} a e : settings_inv a -> settings_inv (app_step a e).
Proof.
  intros (Ht & Hd & Hc).
  destruct e as [now fd|[] did|i| | |c|v|c|]; cbn [app_step]; unfold settings_inv, with_store;
    cbn [storage app_store sortOrder savingsTarget isDarkMode currentCurrency];
    unfold persist_transactions.
  - rewrite !(lookup_insert_ne _ "transactions"%string) by discriminate. auto.
  - rewrite !(lookup_insert_ne _ "transactions"%string) by discriminate. auto.
  - auto.
  - auto.
  - auto.
  - auto.
  - auto.
  - destruct (Z.ltb_spec v 0); [split; auto|].
    cbn [storage savingsTarget isDarkMode currentCurrency].
    rewrite lookup_insert_eq, !(lookup_insert_ne _ "savingsTarget"%string) by discriminate.
    split; [apply load_savingsTarget_number; lia|auto].
  - rewrite lookup_insert_eq, !(lookup_insert_ne _ "currency"%string) by discriminate.
    split; [exact Ht|split; [exact Hd|]]. intros Hne. unfold load_currency.
    rewrite bool_decide_eq_false_2; [reflexivity|exact Hne].
  - rewrite lookup_insert_eq, !(lookup_insert_ne _ "darkMode"%string) by discriminate.
    split; [exact Ht|split; [|exact Hc]]. destruct (isDarkMode a); reflexivity.
Qed.

Lemma tx_stored_inv_reachable `{S : ArraySort} `{!ArraySortLaws S} a :
  app_reachable a -> tx_stored_inv a.
Proof.
  induction 1 as [ls a Hl|a e _ IH]; [|apply tx_stored_inv_step, IH].
  revert Hl. unfold app_load. destruct (load_transactions _) eqn:E; try discriminate.
  intros [= <-]. exists l. split; [exact E|reflexivity].
Qed.

Lemma settings_inv_reachable `{S : ArraySort} a : app_reachable a -> settings_inv a.
Proof.
  induction 1 as [ls a Hl|a e _ IH]; [|apply settings_inv_step, IH].
  revert Hl. unfold app_load. destruct (load_transactions _); try discriminate.
  intros [= <-]. split; [reflexivity|split; [reflexivity|]]. auto.
Qed.

(** ** Properties *)

(** C3. In every state the page reaches, reloading it succeeds and gives
    the same transactions up to order (a sort is not written back), the
    same savings target, the same theme and, unless the currency is the
    empty string, the same currency. *)
Theorem app_reload_invariant `{S : ArraySort} `{!ArraySortLaws S} a :
  app_reachable a ->
  exists a', app_load (storage a) = Some a' /\
    Permutation (transactions (app_store a')) (transactions (app_store a)) /\
    savingsTarget a' = savingsTarget a /\ isDarkMode a' = isDarkMode a /\
    (currentCurrency a <> ""%string -> currentCurrency a' = currentCurrency a).
Proof.
  intros Hr. destruct (tx_stored_inv_reachable a Hr) as (l & Hl & Hp).
  destruct (settings_inv_reachable a Hr) as (Ht & Hd & Hc).
  unfold app_load. rewrite Hl. eexists. split; [reflexivity|]. cbn. auto.
Qed.

(** Right after an add, an edit or a confirmed delete, a reload
    gives exactly the transactions in memory, in their order. *)
Theorem app_mutation_persists `{S : ArraySort} a e :
  (exists now fd, e = Submit now fd) \/ (exists did, e = Delete true did) ->
  exists a', app_load (storage (app_step a e)) = Some a' /\
    transactions (app_store a') = transactions (app_store (app_step a e)).
Proof.
  intros [(now & fd & ->)|(did & ->)]; cbn [app_step]; unfold with_store, app_load, persist_transactions;
    cbn [storage app_store]; rewrite lookup_insert_eq, load_transactions_text;
    eexists; (split; [reflexivity|reflexivity]).
Qed.

(** A sort is not written back: after sorting by amount, a reload
    brings back the order stored by the last add, edit or delete. *)
Example sort_not_persisted :
  let ls : gmap string string := {["transactions"%string := transactions_text [ex_income; ex_food]]} in
  match app_load ls with
  | Some a0 =>
      let a1 := @app_step insertion_array_sort a0 (SortBy ColAmount) in
      transactions (app_store a1) = [ex_food; ex_income] /\
      option_map (fun a => transactions (app_store a)) (app_load (storage a1)) =
        Some [ex_income; ex_food]
  | None => False
  end.
Proof. vm_compute. split; reflexivity. Qed.

Definition ex_app : app :=
  {| storage := ∅; app_store := mkStore [] None; sortOrder := initial_sortOrder;
     savingsTarget := 0; currentCurrency := "IDR"; isDarkMode := false |}.

Lemma app_reload_invariant_witness :
  exists a', app_load (storage ex_app) = Some a' /\
    Permutation (transactions (app_store a')) (transactions (app_store ex_app)) /\
    savingsTarget a' = savingsTarget ex_app /\ isDarkMode a' = isDarkMode ex_app /\
    (currentCurrency ex_app <> ""%string -> currentCurrency a' = currentCurrency ex_app).
Proof. apply (app_reload_invariant (S := insertion_array_sort)). apply (reach_load ∅). reflexivity. Defined.

Lemma app_mutation_persists_witness :
  exists a', app_load (storage (@app_step insertion_array_sort ex_app (Submit 1704067200000 ex_form))) = Some a' /\
    transactions (app_store a') =
    transactions (app_store (@app_step insertion_array_sort ex_app (Submit 1704067200000 ex_form))).
Proof. apply app_mutation_persists. left. eauto. Defined.
