(* ===== verification/Render.v ===== *)
(** * The transaction table

    [renderTransactionTable] (src/script.js 278-313) fills the body of the
    table: a one-cell message when the array [transactions] is empty,
    otherwise one row per transaction [filterTransactionData] keeps, in
    its order.  A row shows the local date in the Indonesian short form
    ([toLocaleDateString('id-ID')], day/month/year without padding), the
    category, the description or '-', the sign and the formatted amount
    with the class 'income' or 'expense', and two buttons whose inline
    handlers call [openEditModal] and [deleteTransaction] with the id
    written into a single-quoted string literal.  The body is modelled by
    its content, not by its markup: the message, or the list of the rows'
    cell texts and handler codes.  [sortTable] also writes the three sort
    icons (src/script.js 388-390).

    The theorems show what the date cell reads: the day of the date string
    east of UTC by less than a day, the day before west of UTC; and that
    a button's handler code gives the row's id back when the id has no
    character that ends the string literal or the attribute. *)

From S2P Require Import Prelude JsString JsDate Transaction Filter Dashboard Sort.
From Stdlib Require Import DecimalString.

Open Scope Z_scope.

(** ** Definitions *)

(** [date.toLocaleDateString('id-ID')]: day/month/year of the local date;
    an invalid date prints "Invalid Date". *)
Definition toLocaleDateString_id (tz : Z) (t : option Z) : string :=
  match t with
  | None => "Invalid Date"
  | Some t =>
      let '(y, m, d) := local_civil tz t in
      (number_to_string d ++ "/" ++ number_to_string m ++ "/" ++ number_to_string y)%string
  end.

(** [transaction.description || '-'] *)
Definition or_dash (s : string) : string := if s === ""%string then "-" else s.

(** [transaction.type === 'income' ? 'income' : 'expense'] *)
Definition amount_class (t : transaction) : string :=
  if type t === Income then "income" else "expense".

(** [transaction.type === 'income' ? '+' : '-'] *)
Definition amount_sign (t : transaction) : string :=
  if type t === Income then "+" else "-".

(** The inline handler [fname('<id>')] of a button. *)
Definition onclick_code (fname i : string) : string := (fname ++ "('" ++ i ++ "')")%string.

(** The cells of one row. *)
Record table_row := mkTableRow {
  cell_date : string;
  cell_category : string;
  cell_description : string;
  cell_amount_class : string;
  cell_amount : string;
  edit_onclick : string;
  delete_onclick : string
}.

Definition transaction_row (tz : Z) (currentCurrency : string) (t : transaction) : table_row :=
  {| cell_date := toLocaleDateString_id tz (Date_parse (date t));
     cell_category := category t;
     cell_description := or_dash (description t);
     cell_amount_class := amount_class t;
     cell_amount := String.append (amount_sign t) (formatCurrency currentCurrency (amount t));
     edit_onclick := onclick_code "openEditModal" (id t);
     delete_onclick := onclick_code "deleteTransaction" (id t) |}.

(** What [tbody.innerHTML] holds. *)
Inductive tbody_content :=
  | EmptyState                       (* "Belum ada transaksi. ..." *)
  | TableRows (rows : list table_row).

Definition renderTransactionTable (tz : Z) (currentCurrency : string) (f : filter_inputs)
    (transactions : list transaction) : tbody_content :=
  if Nat.eqb (length transactions) 0 then EmptyState
  else TableRows (map (transaction_row tz currentCurrency) (filterTransactionData tz f transactions)).

(** The three icons [sortTable(column)] writes after sorting with [newOrder]. *)
Record sort_icons := mkSortIcons {
  dateSortIcon : string;
  categorySortIcon : string;
  amountSortIcon : string
}.

(** [column === c ? (newOrder === 'asc' ? '↑' : '↓') : '↕️'] *)
Definition sort_icon (column : column) (newOrder : sort_dir) (c : Sort.column) : string :=
  if c === column then (if newOrder === Asc then "↑" else "↓") else "↕️".

Definition sortTable_icons (column : column) (newOrder : sort_dir) : sort_icons :=
  {| dateSortIcon := sort_icon column newOrder ColDate;
     categorySortIcon := sort_icon column newOrder ColCategory;
     amountSortIcon := sort_icon column newOrder ColAmount |}.

(** ** The inline handlers, read back

    Clicking a button evaluates its [onclick] attribute: the call
    [fname('...')] receives the text of the single-quoted literal.  A
    quote, a backslash or a line break ends or changes the literal, and a
    double quote or an ampersand the attribute; the model reads [None]
    for any of them. *)

Definition literal_safe (c : ascii) : bool :=
  negb (bool_decide (c ∈ ["'"; "\"; Ascii.ascii_of_nat 34; "&"; Ascii.ascii_of_nat 10; Ascii.ascii_of_nat 13]%char)).

Fixpoint strip_prefix (p s : string) : option string :=
  match p, s with
  | EmptyString, _ => Some s
  | String a p', String b s' => if Ascii.eqb a b then strip_prefix p' s' else None
  | String _ _, EmptyString => None
  end.

(** The body of a literal up to its closing quote, which must end the
    call with [)]. *)
Fixpoint literal_body (s : string) : option string :=
  match s with
  | EmptyString => None
  | String c r =>
      if Ascii.eqb c "'" then (if r === ")"%string then Some ""%string else None)
      else if literal_safe c then option_map (String c) (literal_body r) else None
  end.

(** The argument the call [fname('...')] receives. *)
Definition onclick_arg (fname code : string) : option string :=
  match strip_prefix (fname ++ "('")%string code with
  | Some r => literal_body r
  | None => None
  end.

Definition id_safe (i : string) : bool := forallb literal_safe (list_ascii_of_string i).

(** ** Lemmas *)

Lemma strip_prefix_append p s : strip_prefix p (p ++ s)%string = Some s.
Proof.
  induction p as [|a p IH]; [reflexivity|]. rewrite append_cons. cbn [strip_prefix]. rewrite Ascii.eqb_refl. exact IH.
Qed.

Lemma literal_body_safe i :
  id_safe i = true -> literal_body (i ++ "')")%string = Some i.
Proof.
  unfold id_safe. induction i as [|c i IH]; [reflexivity|].
  cbn [list_ascii_of_string forallb]. intros [Hc Hi]%andb_true_iff.
  rewrite append_cons. cbn [literal_body]. rewrite Hc, IH by exact Hi.
  destruct (Ascii.eqb_spec c "'"); [subst c; discriminate|reflexivity].
Qed.

Lemma onclick_arg_code fname i :
  id_safe i = true -> onclick_arg fname (onclick_code fname i) = Some i.
Proof.
  intros Hi. unfold onclick_arg, onclick_code.
  rewrite <- append_assoc_str, strip_prefix_append. apply literal_body_safe, Hi.
Qed.

(** The ids [Date.now().toString()] creates are safe. *)
Lemma uint_safe u : forallb literal_safe (list_ascii_of_string (NilEmpty.string_of_uint u)) = true.
Proof. induction u; simpl; assumption || reflexivity. Qed.

Lemma number_to_string_safe n : id_safe (number_to_string n) = true.
Proof.
  unfold id_safe, number_to_string. destruct (Z.to_int n) as [u|u]; simpl;
    destruct u; simpl; apply uint_safe || reflexivity.
Qed.

Lemma toLocaleDateString_id_midnight tz s y m d :
  0 <= tz < ms_per_day -> parse_iso_date s = Some (y, m, d) -> valid_date y m d ->
  toLocaleDateString_id tz (Date_parse s) =
  (number_to_string d ++ "/" ++ number_to_string m ++ "/" ++ number_to_string y)%string.
Proof.
  intros Htz Hp Hv. unfold Date_parse. rewrite Hp. cbn [toLocaleDateString_id].
  rewrite local_civil_midnight by exact Htz. rewrite civil_from_days_from_civil by exact Hv.
  reflexivity.
Qed.

(** ** Properties *)

(** East of UTC by less than a day (Indonesia is at +7h), the date
    cell of a transaction with a valid date string [YYYY-MM-DD] shows the
    day, month and year of that string, as [d/m/yyyy] without padding. *)
Theorem transaction_row_date tz cur t y m d :
  0 <= tz < ms_per_day -> parse_iso_date (date t) = Some (y, m, d) -> valid_date y m d ->
  cell_date (transaction_row tz cur t) =
  (number_to_string d ++ "/" ++ number_to_string m ++ "/" ++ number_to_string y)%string.
Proof. apply toLocaleDateString_id_midnight. Qed.

(** West of UTC the date cell shows the day before: at UTC-5 a
    transaction dated 2024-02-01 is listed as 31/1/2024, while at UTC+7
    it reads 1/2/2024. *)
Example transaction_row_date_west_of_utc :
  let t := mkTransaction "1" Expense "Makanan" 40000 "2024-02-01" "" in
  cell_date (transaction_row (-18000000) "IDR" t) = "31/1/2024"%string /\
  cell_date (transaction_row 25200000 "IDR" t) = "1/2/2024"%string.
Proof. vm_compute. split; reflexivity. Qed.

(** C33. The table lists the transactions [filterTransactionData] keeps,
    one row each and in order, unless the array is empty, when only the
    message is shown; each row's edit and delete buttons call
    [openEditModal] and [deleteTransaction] with its transaction's id,
    for every id that has no quote, backslash, ampersand or line break
    (every id [Date.now().toString()] creates). *)
Theorem renderTransactionTable_rows tz cur f txs :
  Forall (fun t => id_safe (id t) = true) txs ->
  (txs = [] /\ renderTransactionTable tz cur f txs = EmptyState) \/
  (txs <> [] /\ exists rows, renderTransactionTable tz cur f txs = TableRows rows /\
     Forall2 (fun r t => r = transaction_row tz cur t /\
                onclick_arg "openEditModal" (edit_onclick r) = Some (id t) /\
                onclick_arg "deleteTransaction" (delete_onclick r) = Some (id t))
       rows (filterTransactionData tz f txs)).
Proof.
  intros Hsafe. unfold renderTransactionTable. destruct txs as [|t0 txs0]; [left; auto|].
  right. split; [discriminate|]. eexists. split; [reflexivity|].
  apply Forall2_fmap_l, Forall_Forall2_diag.
  eapply Forall_impl; [apply Forall_List_filter, Hsafe|].
  intros t Ht. cbv beta. unfold compose. cbn [edit_onclick delete_onclick transaction_row].
  rewrite !onclick_arg_code by exact Ht. auto.
Qed.

Lemma renderTransactionTable_rows_witness :
  let txs := [mkTransaction "1704153600000" Expense "Makanan" 40000 "2024-01-02" "Makan siang"] in
  (txs = [] /\ renderTransactionTable 25200000 "IDR" (mkFilterInputs "" "" "" "" "") txs = EmptyState) \/
  (txs <> [] /\ exists rows,
     renderTransactionTable 25200000 "IDR" (mkFilterInputs "" "" "" "" "") txs = TableRows rows /\
     Forall2 (fun r t => r = transaction_row 25200000 "IDR" t /\
                onclick_arg "openEditModal" (edit_onclick r) = Some (id t) /\
                onclick_arg "deleteTransaction" (delete_onclick r) = Some (id t))
       rows (filterTransactionData 25200000 (mkFilterInputs "" "" "" "" "") txs)).
Proof. apply renderTransactionTable_rows. repeat constructor. Defined.
