(* ===== verification/Charts.v ===== *)
(** * The three charts: what the program hands to Chart.js

    [initializeCharts] (src/charts.js 4-86) builds a pie chart of the
    income and expense totals, a line chart of the 7-day balance series
    and a bar chart of the expenses per category, with text, grid and
    border colours chosen by [document.body.classList.contains('dark')].
    [updateCharts] (src/charts.js 88-125) returns at once while any chart
    is missing, and otherwise overwrites the data and the colours of the
    existing chart objects in place and redraws them.

    The chart objects are modelled by the configuration the program
    writes into them (one record per chart, the three under [option],
    [None] before [initializeCharts]); drawing is Chart.js's business and
    is not modelled.  The theorem of this file is that an update gives
    exactly the charts a fresh [initializeCharts] would build for the
    current transactions, clock reads and theme, whatever state they were built
    in, so that the charts never keep a stale value once updated. *)

From S2P Require Import Prelude JsString JsDate Transaction Aggregate Series.

Open Scope Z_scope.

(** ** Definitions *)

(** [isDark ? '#ffffff' : '#374151'] and [isDark ? '#374151' : '#e5e7eb'];
    the border of the pie and of the bars is [isDark ? '#374151' : '#ffffff']. *)
Definition textColor (isDark : bool) : string := if isDark then "#ffffff" else "#374151".
Definition gridColor (isDark : bool) : string := if isDark then "#374151" else "#e5e7eb".
Definition borderColor (isDark : bool) : string := if isDark then "#374151" else "#ffffff".

(** [{ ticks: { color }, grid: { color } }] of one axis. *)
Record axis := mkAxis { ticks_color : string; grid_color : string }.

Definition axis_of (isDark : bool) : axis := mkAxis (textColor isDark) (gridColor isDark).

Record pie_chart := mkPie {
  pie_labels : list string;
  pie_data : list Z;
  pie_backgroundColor : list string;
  pie_borderWidth : Z;
  pie_borderColor : string;
  pie_legend_color : string
}.

Record line_chart := mkLine {
  line_labels : list string;
  line_label : string;
  line_data : list Z;
  line_borderColor : string;
  line_backgroundColor : string;
  line_legend_color : string;
  line_x : axis;
  line_y : axis
}.

Record bar_chart := mkBar {
  bar_labels : list string;
  bar_label : string;
  bar_data : list Z;
  bar_backgroundColor : list string;
  bar_borderWidth : Z;
  bar_borderColor : string;
  bar_legend_color : string;
  bar_x : axis;
  bar_y : axis
}.

(** The globals [pieChart, lineChart, barChart] once they exist. *)
Record charts := mkCharts { pieChart : pie_chart; lineChart : line_chart; barChart : bar_chart }.

Definition initializeCharts (isDark : bool) (tz : Z) (clock : Z -> Z) (transactions : list transaction) : charts :=
  let last7 := getLast7DaysData tz clock transactions in
  let cat := getCategoryExpenseData transactions in
  {| pieChart :=
       {| pie_labels := ["Pemasukan"; "Pengeluaran"];
          pie_data := pieChartData transactions;
          pie_backgroundColor := ["#10b981"; "#ef4444"];
          pie_borderWidth := 2;
          pie_borderColor := borderColor isDark;
          pie_legend_color := textColor isDark |};
     lineChart :=
       {| line_labels := series_labels last7;
          line_label := "Saldo Harian";
          line_data := balances last7;
          line_borderColor := "#3b82f6";
          line_backgroundColor := "rgba(59, 130, 246, 0.1)";
          line_legend_color := textColor isDark;
          line_x := axis_of isDark;
          line_y := axis_of isDark |};
     barChart :=
       {| bar_labels := labels cat;
          bar_label := "Pengeluaran per Kategori";
          bar_data := amounts cat;
          bar_backgroundColor :=
            ["#ef4444"; "#f97316"; "#eab308"; "#22c55e"; "#06b6d4"; "#3b82f6"; "#8b5cf6"];
          bar_borderWidth := 1;
          bar_borderColor := borderColor isDark;
          bar_legend_color := textColor isDark;
          bar_x := axis_of isDark;
          bar_y := axis_of isDark |} |}.

(** [updateCharts()]: the guard [if (!pieChart || !lineChart || !barChart) return;],
    then the fields the code assigns; the others stay as they are. *)
Definition updateCharts (isDark : bool) (tz : Z) (clock : Z -> Z) (transactions : list transaction)
    (cs : option charts) : option charts :=
  match cs with
  | None => None
  | Some c =>
      let p := pieChart c in
      let l := lineChart c in
      let b := barChart c in
      let last7 := getLast7DaysData tz clock transactions in
      let cat := getCategoryExpenseData transactions in
      Some {| pieChart :=
                {| pie_labels := pie_labels p;
                   pie_data := pieChartData transactions;
                   pie_backgroundColor := pie_backgroundColor p;
                   pie_borderWidth := pie_borderWidth p;
                   pie_borderColor := borderColor isDark;
                   pie_legend_color := textColor isDark |};
              lineChart :=
                {| line_labels := series_labels last7;
                   line_label := line_label l;
                   line_data := balances last7;
                   line_borderColor := line_borderColor l;
                   line_backgroundColor := line_backgroundColor l;
                   line_legend_color := textColor isDark;
                   line_x := mkAxis (textColor isDark) (gridColor isDark);
                   line_y := mkAxis (textColor isDark) (gridColor isDark) |};
              barChart :=
                {| bar_labels := labels cat;
                   bar_label := bar_label b;
                   bar_data := amounts cat;
                   bar_backgroundColor := bar_backgroundColor b;
                   bar_borderWidth := bar_borderWidth b;
                   bar_borderColor := borderColor isDark;
                   bar_legend_color := textColor isDark;
                   bar_x := mkAxis (textColor isDark) (gridColor isDark);
                   bar_y := mkAxis (textColor isDark) (gridColor isDark) |} |}
  end.

(** Charts built by [initializeCharts] at some earlier state. *)
Definition charts_built (cs : option charts) : Prop :=
  cs = None \/ exists d tz clock txs, cs = Some (initializeCharts d tz clock txs).

(** ** Lemmas *)

Lemma updateCharts_initialized d d' tz clock clock' txs txs' :
  updateCharts d tz clock txs (Some (initializeCharts d' tz clock' txs')) =
  Some (initializeCharts d tz clock txs).
Proof. reflexivity. Qed.

Lemma day_balance_Permutation s l1 l2 : l1 ≡ₚ l2 -> day_balance s l1 = day_balance s l2.
Proof.
  intros Hp. unfold day_balance.
  rewrite !(total_of_Permutation _ _ _ (Permutation_List_filter _ _ _ Hp)). reflexivity.
Qed.

Lemma category_amount_Permutation l1 l2 c : l1 ≡ₚ l2 -> category_amount l1 c = category_amount l2 c.
Proof. intros Hp. apply reduce_sum_Permutation, Permutation_List_filter, Hp. Qed.

(** The charts do not depend on the order of the transactions. *)
Lemma initializeCharts_Permutation d tz clock l1 l2 :
  l1 ≡ₚ l2 -> initializeCharts d tz clock l1 = initializeCharts d tz clock l2.
Proof.
  intros Hp. unfold initializeCharts, pieChartData, getCategoryExpenseData, categoryExpenseData.
  rewrite !getLast7DaysData_closed, !(total_of_Permutation _ _ _ Hp). cbn [series_labels balances].
  rewrite (map_ext (fun i => day_balance (iso_date_part (series_day tz (clock i) i)) l1)
                   (fun i => day_balance (iso_date_part (series_day tz (clock i) i)) l2))
    by (intros; apply day_balance_Permutation, Hp).
  rewrite (map_ext (category_amount l1) (category_amount l2))
    by (intros; apply category_amount_Permutation, Hp).
  reflexivity.
Qed.

(** ** Properties *)

(** C31. [updateCharts] does nothing before the charts exist, and on
    charts built at any earlier state (other transactions, another time,
    the other theme) it gives exactly the charts [initializeCharts] would
    build for the current transactions, time and theme. *)
Theorem updateCharts_reinitializes d tz clock txs cs :
  charts_built cs ->
  updateCharts d tz clock txs cs = option_map (fun _ => initializeCharts d tz clock txs) cs.
Proof. intros [->|(d' & tz' & clock' & txs' & ->)]; reflexivity. Qed.

Lemma updateCharts_reinitializes_witness :
  updateCharts true 25200000 (fun i => 1704168000000 + (6 - i)) [ex_food]
    (Some (initializeCharts false 0 (fun _ => 0) [])) =
  option_map (fun _ => initializeCharts true 25200000 (fun i => 1704168000000 + (6 - i)) [ex_food])
    (Some (initializeCharts false 0 (fun _ => 0) [])).
Proof. apply updateCharts_reinitializes. right. do 4 eexists. reflexivity. Defined.
