(* ===== verification/Export.v ===== *)
(** * The PDF report and the spreadsheet

    [exportToPDF] (src/export.js 1-70) lays out a report: a title with
    today's local date, three summary cards that copy the texts the
    dashboard shows, and a table of the transactions
    [filterTransactionData] keeps, with their local date, category,
    description or '-', and the sign and formatted amount in green or
    red; the file is named after today's UTC date.  [exportToExcel]
    (src/export.js 72-90) writes one sheet 'Transaksi' with one row per
    kept transaction: its local date, 'Pemasukan' or 'Pengeluaran', the
    category, the description or '-' and the raw amount.

    Both are modelled by the content they hand to html2pdf and to the
    XLSX library (the layout, the PDF rendering and the file writing are
    those libraries' business).  Both guard [filterTransactionData] and
    [formatCurrency] with [typeof ... === 'function'], which the page
    always satisfies: the model calls them.

    The theorems: the report, the spreadsheet and the table list the same
    transactions with the same texts; the spreadsheet's amounts add up to
    the balance of the listed transactions; the file name and the title
    disagree on the date during the first hours of any local day east of
    UTC (the file is named after the UTC date, the day before). *)

From S2P Require Import Prelude JsString JsDate Transaction Aggregate Filter Dashboard Render.

Open Scope Z_scope.

(** ** The spreadsheet *)

(** The object [{ Tanggal, Jenis, Kategori, Deskripsi, Jumlah }] of one row. *)
Record excel_row := mkExcelRow {
  Tanggal : string;
  Jenis : string;
  Kategori : string;
  Deskripsi : string;
  Jumlah : Z
}.

Definition excel_row_of (tz : Z) (t : transaction) : excel_row :=
  {| Tanggal := toLocaleDateString_id tz (Date_parse (date t));
     Jenis := if type t === Income then "Pemasukan" else "Pengeluaran";
     Kategori := category t;
     Deskripsi := or_dash (description t);
     Jumlah := amount t |}.

(** The workbook [XLSX.writeFile] receives and its file name. *)
Record workbook := mkWorkbook {
  sheet_name : string;
  sheet_rows : list excel_row;
  excel_filename : string
}.

(** [exportToExcel()] at [Date.now() = now]. *)
Definition exportToExcel (tz now : Z) (f : filter_inputs) (transactions : list transaction)
    : workbook :=
  let filteredTransactions := filterTransactionData tz f transactions in
  {| sheet_name := "Transaksi";
     sheet_rows := map (excel_row_of tz) filteredTransactions;
     excel_filename := ("transaksi-keuangan-" ++ iso_date_part now ++ ".xlsx")%string |}.

(** ** The PDF report *)

(** The cells of one row of the report's table. *)
Record pdf_row := mkPdfRow {
  pdf_date : string;
  pdf_category : string;
  pdf_description : string;
  pdf_color : string;
  pdf_amount : string
}.

Definition pdf_row_of (tz : Z) (currentCurrency : string) (t : transaction) : pdf_row :=
  {| pdf_date := toLocaleDateString_id tz (Date_parse (date t));
     pdf_category := category t;
     pdf_description := or_dash (description t);
     pdf_color := if type t === Income then "#10b981" else "#ef4444";
     pdf_amount := String.append (if type t === Income then "+" else "-")
                     (formatCurrency currentCurrency (amount t)) |}.

Record pdf_report := mkPdfReport {
  report_date : string;        (* Laporan Keuangan - <date> *)
  report_balance : string;     (* Saldo Total *)
  report_income : string;      (* Total Pemasukan *)
  report_expense : string;     (* Total Pengeluaran *)
  report_rows : list pdf_row;
  pdf_filename : string
}.

(** [exportToPDF()] at [Date.now() = now], reading the dashboard texts
    from [dom]. *)
Definition exportToPDF (tz now : Z) (currentCurrency : string) (f : filter_inputs)
    (transactions : list transaction) (dom : dashboard_dom) : pdf_report :=
  let filteredTransactions := filterTransactionData tz f transactions in
  {| report_date := toLocaleDateString_id tz (Some now);
     report_balance := totalBalance_text dom;
     report_income := totalIncome_text dom;
     report_expense := totalExpense_text dom;
     report_rows := map (pdf_row_of tz currentCurrency) filteredTransactions;
     pdf_filename := ("laporan-keuangan-" ++ iso_date_part now ++ ".pdf")%string |}.

(** The texts a reader compares across the table, the report and the sheet. *)
Definition row_texts (r : table_row) : string * string * string * string :=
  (cell_date r, cell_category r, cell_description r, cell_amount r).

Definition pdf_texts (r : pdf_row) : string * string * string * string :=
  (pdf_date r, pdf_category r, pdf_description r, pdf_amount r).

Definition excel_texts (r : excel_row) : string * string * string :=
  (Tanggal r, Kategori r, Deskripsi r).

(** The signed value of a spreadsheet row. *)
Definition excel_signed (r : excel_row) : Z :=
  if Jenis r === "Pemasukan"%string then Jumlah r else - Jumlah r.

(** ** Lemmas *)

Lemma excel_signed_row tz t : excel_signed (excel_row_of tz t) = signed_amount t.
Proof. unfold excel_signed, excel_row_of, signed_amount. cbn. destruct (type t); reflexivity. Qed.

(** ** Properties *)

(** C32. The report, the spreadsheet and the table agree: when the array
    is not empty, the report lists the table's rows with the same date,
    category, description and signed amount texts, and the spreadsheet
    the same rows with the same date, category and description, in the
    same order; with an empty array both exports are empty. *)
Theorem exports_match_table tz now cur f txs dom :
  (txs = [] -> report_rows (exportToPDF tz now cur f txs dom) = [] /\
               sheet_rows (exportToExcel tz now f txs) = []) /\
  (txs <> [] -> exists rows,
     renderTransactionTable tz cur f txs = TableRows rows /\
     map row_texts rows = map pdf_texts (report_rows (exportToPDF tz now cur f txs dom)) /\
     map (fun r => (cell_date r, cell_category r, cell_description r)) rows =
       map excel_texts (sheet_rows (exportToExcel tz now f txs))).
Proof.
  split; [intros ->; split; reflexivity|].
  intros Hne. unfold renderTransactionTable.
  destruct (Nat.eqb_spec (length txs) 0) as [Hl|_]; [destruct txs; [congruence|discriminate]|].
  eexists. split; [reflexivity|]. cbn [exportToPDF exportToExcel report_rows sheet_rows].
  rewrite !map_map. split; apply map_ext; intros t; reflexivity.
Qed.

(** Counting 'Pemasukan' rows positive and the others negative, the
    spreadsheet's [Jumlah] column adds up to the balance of the listed
    (filtered) transactions. *)
Theorem exportToExcel_balance tz now f txs :
  reduce_sum excel_signed (sheet_rows (exportToExcel tz now f txs)) =
  balance (dashboard_totals (filterTransactionData tz f txs)).
Proof.
  cbn [exportToExcel sheet_rows]. rewrite reduce_sum_map, balance_signed.
  apply reduce_sum_ext. intros t _. apply excel_signed_row.
Qed.

(** C35. East of UTC by less than a day (Jakarta is at +7h), during the
    first [tz] milliseconds of a local day [L] the report's title shows
    day [L] (its local date) while both files are named after the UTC
    date, day [L - 1]: exporting at 03:00 on 2 January in Jakarta writes
    files dated 2024-01-01. *)
Theorem export_file_date_utc tz now cur f txs dom :
  0 < tz < ms_per_day -> (now + tz) mod ms_per_day < tz ->
  let L := (now + tz) / ms_per_day in
  report_date (exportToPDF tz now cur f txs dom) = toLocaleDateString_id 0 (Some (L * ms_per_day)) /\
  pdf_filename (exportToPDF tz now cur f txs dom) =
    ("laporan-keuangan-" ++ iso_date_part ((L - 1) * ms_per_day) ++ ".pdf")%string /\
  excel_filename (exportToExcel tz now f txs) =
    ("transaksi-keuangan-" ++ iso_date_part ((L - 1) * ms_per_day) ++ ".xlsx")%string.
Proof.
  intros Htz Hr L. cbn [exportToPDF exportToExcel report_date pdf_filename excel_filename].
  rewrite (iso_date_part_early_morning tz now) by assumption. fold L.
  split; [|split; reflexivity].
  unfold toLocaleDateString_id, local_civil. rewrite Z.add_0_r, Z.div_mul by discriminate.
  reflexivity.
Qed.

Lemma export_file_date_utc_witness :
  0 < 25200000 < ms_per_day /\ (1704139200000 + 25200000) mod ms_per_day < 25200000 /\
  let L := (1704139200000 + 25200000) / ms_per_day in
  report_date (exportToPDF 25200000 1704139200000 "IDR" (mkFilterInputs "" "" "" "" "") [ex_food]
                 (mkDashboardDom "" "" "" "" None "")) = toLocaleDateString_id 0 (Some (L * ms_per_day)) /\
  pdf_filename (exportToPDF 25200000 1704139200000 "IDR" (mkFilterInputs "" "" "" "" "") [ex_food]
                 (mkDashboardDom "" "" "" "" None "")) =
    ("laporan-keuangan-" ++ iso_date_part ((L - 1) * ms_per_day) ++ ".pdf")%string /\
  excel_filename (exportToExcel 25200000 1704139200000 (mkFilterInputs "" "" "" "" "") [ex_food]) =
    ("transaksi-keuangan-" ++ iso_date_part ((L - 1) * ms_per_day) ++ ".xlsx")%string.
Proof.
  split; [unfold ms_per_day; lia|]. split; [vm_compute; reflexivity|].
  apply export_file_date_utc; [unfold ms_per_day; lia|vm_compute; reflexivity].
Defined.
