(* ===== verification/View.v ===== *)
(** * The page: the state of [App] with the DOM the handlers write

    The handlers of src/script.js do not only change the globals: each
    ends with the calls that refresh what the page shows, in a fixed
    order.  A submit and a confirmed delete call [updateDashboard()]
    (which ends with [updateCharts()]), [renderTransactionTable()] and
    [populateMonthFilter()] (src/script.js 248-250, 268-270); a sort
    writes the icons and re-renders the table (388-392); the savings
    target refreshes the dashboard (413); the currency select refreshes
    the dashboard, the table and the charts (120-126); the theme toggles
    the body's class, sets the icon and updates the charts (157-162); the
    five filter inputs re-render the table (141-145, 371-373).
    [initializeApp] (96-114) builds the first page.

    The DOM is modelled by the record [dom] of what these calls write:
    the body's class 'dark', the theme icon, the dashboard texts, the
    table body, the month options, the sort icons, the values of the
    filter inputs and the chart objects.  [populateMonthFilter] replaces
    the options of the month select, which resets its value to the first
    option, the empty one: the model writes that reset.  Each event
    carries the clock reads of the [getLast7DaysData] it runs ([clock],
    see [Series]).

    The theorems: in every state the page reaches, what it shows is the
    current state (the view invariant; the table alone may still be
    filtered by a month the select no longer shows); and from every state
    the user can empty the list, after which the table shows its
    message and the storage the empty array (a liveness property); after
    every add, edit or confirmed delete the month select is reset while
    the table keeps the month chosen before. *)

From stdpp Require Import gmap.
From S2P Require Import Prelude JsString JsDate Transaction Aggregate Filter Sort Months Series.
From S2P Require Import Dashboard Json Storage App Render Charts.

Open Scope Z_scope.

(** ** The DOM *)

Record dom := mkDom {
  body_dark : bool;                 (* document.body.classList.contains('dark') *)
  darkModeIcon : string;
  dashboard : dashboard_dom;
  tbody : tbody_content;
  monthOptions : list option_elem;
  sortIcons : sort_icons;
  inputs : filter_inputs;           (* the values of the five filter inputs *)
  chart_objs : option charts        (* pieChart, lineChart, barChart *)
}.

Record page := mkPage { state : App.app; view : dom }.

(** The events of the page: those of the application, and a change of
    the filter inputs. *)
Inductive ui_event :=
  | AppEvent (e : event)
  | FilterInput (f : filter_inputs).

Definition txs_of (a : App.app) : list transaction := transactions (app_store a).

Section Page.
Context `{S : ArraySort}.
Variable tz : Z.

(** [updateDashboard()], ending with [updateCharts()] with the clock [clock]. *)
Definition do_updateDashboard (clock : Z -> Z) (a : App.app) (d : dom) : dom :=
  {| body_dark := body_dark d; darkModeIcon := darkModeIcon d;
     dashboard := updateDashboard (currentCurrency a) (savingsTarget a) (txs_of a) (dashboard d);
     tbody := tbody d; monthOptions := monthOptions d; sortIcons := sortIcons d; inputs := inputs d;
     chart_objs := updateCharts (body_dark d) tz clock (txs_of a) (chart_objs d) |}.

(** [updateCharts()] with the clock [clock]. *)
Definition do_updateCharts (clock : Z -> Z) (a : App.app) (d : dom) : dom :=
  {| body_dark := body_dark d; darkModeIcon := darkModeIcon d; dashboard := dashboard d;
     tbody := tbody d; monthOptions := monthOptions d; sortIcons := sortIcons d; inputs := inputs d;
     chart_objs := updateCharts (body_dark d) tz clock (txs_of a) (chart_objs d) |}.

(** [renderTransactionTable()] with the current input values. *)
Definition do_render (a : App.app) (d : dom) : dom :=
  {| body_dark := body_dark d; darkModeIcon := darkModeIcon d; dashboard := dashboard d;
     tbody := renderTransactionTable tz (currentCurrency a) (inputs d) (txs_of a);
     monthOptions := monthOptions d; sortIcons := sortIcons d; inputs := inputs d;
     chart_objs := chart_objs d |}.

(** [populateMonthFilter()]: new options, and the select back on its
    first option. *)
Definition do_populate (a : App.app) (d : dom) : dom :=
  let f := inputs d in
  {| body_dark := body_dark d; darkModeIcon := darkModeIcon d; dashboard := dashboard d;
     tbody := tbody d; monthOptions := populateMonthFilter tz (txs_of a); sortIcons := sortIcons d;
     inputs := mkFilterInputs (searchInput f) (categoryFilter f) "" (startDateFilter f) (endDateFilter f);
     chart_objs := chart_objs d |}.

(** The icons [sortTable(column)] writes. *)
Definition do_icons (c : column) (a : App.app) (d : dom) : dom :=
  {| body_dark := body_dark d; darkModeIcon := darkModeIcon d; dashboard := dashboard d;
     tbody := tbody d; monthOptions := monthOptions d;
     sortIcons := sortTable_icons c (get_order (sortOrder a) c); inputs := inputs d;
     chart_objs := chart_objs d |}.

(** [document.body.classList.toggle('dark')] and the icon of [isDarkMode]. *)
Definition do_toggle (a : App.app) (d : dom) : dom :=
  {| body_dark := negb (body_dark d); darkModeIcon := if isDarkMode a then "☀️" else "🌙";
     dashboard := dashboard d; tbody := tbody d; monthOptions := monthOptions d;
     sortIcons := sortIcons d; inputs := inputs d; chart_objs := chart_objs d |}.

(** The values the user typed or chose in the filter inputs. *)
Definition set_inputs (f : filter_inputs) (d : dom) : dom :=
  {| body_dark := body_dark d; darkModeIcon := darkModeIcon d; dashboard := dashboard d;
     tbody := tbody d; monthOptions := monthOptions d; sortIcons := sortIcons d; inputs := f;
     chart_objs := chart_objs d |}.

(** [updateDashboard(); renderTransactionTable(); populateMonthFilter();]
    after a mutation. *)
Definition refresh_after_mutation (clock : Z -> Z) (a : App.app) (d : dom) : dom :=
  do_populate a (do_render a (do_updateDashboard clock a d)).

(** [initializeApp()] with the clock [clock] on the page as loaded: the class
    and icon of the theme, [updateDashboard()] (its [updateCharts()]
    returns, no chart exists yet), [renderTransactionTable()],
    [initializeCharts()] and [populateMonthFilter()]. *)
Definition initializeApp (clock : Z -> Z) (a : App.app) (d0 : dom) : dom :=
  let d1 :=
    if isDarkMode a then
      {| body_dark := true; darkModeIcon := "☀️"; dashboard := dashboard d0; tbody := tbody d0;
         monthOptions := monthOptions d0; sortIcons := sortIcons d0; inputs := inputs d0;
         chart_objs := chart_objs d0 |}
    else d0 in
  let d2 := do_render a (do_updateDashboard clock a d1) in
  let d3 :=
    {| body_dark := body_dark d2; darkModeIcon := darkModeIcon d2; dashboard := dashboard d2;
       tbody := tbody d2; monthOptions := monthOptions d2; sortIcons := sortIcons d2;
       inputs := inputs d2; chart_objs := Some (initializeCharts (body_dark d2) tz clock (txs_of a)) |} in
  do_populate a d3.

(** ** The handlers *)

(** [handleFormSubmit] (src/script.js 224-252): the store operation and
    the write to [localStorage] ([App.app_step]), then the refreshes;
    [tnow] is the [Date.now()] of the new id, [clock] the clock reads of the
    charts. *)
Definition handleFormSubmit_page (clock : Z -> Z) (tnow : Z) (fd : form_data) (p : page) : page :=
  let a' := app_step (state p) (Submit tnow fd) in
  mkPage a' (refresh_after_mutation clock a' (view p)).

(** [deleteTransaction(id)] (src/script.js 254-275) once the dialog
    resolves: nothing unless [result.isConfirmed]. *)
Definition deleteTransaction_page (clock : Z -> Z) (isConfirmed : bool) (did : string) (p : page) : page :=
  let a' := app_step (state p) (Delete isConfirmed did) in
  if isConfirmed then mkPage a' (refresh_after_mutation clock a' (view p)) else mkPage a' (view p).

(** [sortTable(column)] (src/script.js 375-393): sort, icons, table. *)
Definition sortTable_page (c : column) (p : page) : page :=
  let a' := app_step (state p) (SortBy c) in
  mkPage a' (do_render a' (do_icons c a' (view p))).

(** [setSavingsTarget()] (src/script.js 397-416) once the dialog
    resolves with a number: the validator refuses a negative value;
    otherwise the target is set and stored and the dashboard refreshed. *)
Definition setSavingsTarget (clock : Z -> Z) (v : Z) (p : page) : page :=
  if v <? 0 then p
  else let a' := app_step (state p) (SetTarget v) in
       mkPage a' (do_updateDashboard clock a' (view p)).

(** The listener of [#currencySelect] (src/script.js 120-126). *)
Definition currencySelect_change (clock : Z -> Z) (c : string) (p : page) : page :=
  let a' := app_step (state p) (ChangeCurrency c) in
  mkPage a' (do_updateCharts clock a' (do_render a' (do_updateDashboard clock a' (view p)))).

(** [toggleDarkMode()] (src/script.js 157-163). *)
Definition toggleDarkMode (clock : Z -> Z) (p : page) : page :=
  let a' := app_step (state p) ToggleDark in
  mkPage a' (do_updateCharts clock a' (do_toggle a' (view p))).

(** [filterTransactions()] on a change of the inputs (src/script.js 371-373). *)
Definition filterTransactions (f : filter_inputs) (p : page) : page :=
  mkPage (state p) (do_render (state p) (set_inputs f (view p))).

(** One event, with the clock [clock]: the listener [setupEventListeners]
    attaches to it (src/script.js 117-154); the modal events change no
    view the model records. *)
Definition ui_step (clock : Z -> Z) (p : page) (ev : ui_event) : page :=
  match ev with
  | FilterInput f => filterTransactions f p
  | AppEvent e =>
      match e with
      | Submit tnow fd => handleFormSubmit_page clock tnow fd p
      | Delete b did => deleteTransaction_page clock b did p
      | OpenEdit _ | OpenAdd | Close => mkPage (app_step (state p) e) (view p)
      | SortBy c => sortTable_page c p
      | SetTarget v => setSavingsTarget clock v p
      | ChangeCurrency c => currencySelect_change clock c p
      | ToggleDark => toggleDarkMode clock p
      end
  end.

(** The pages a visit reaches: loaded from [localStorage] on a body
    without the class 'dark' and before any chart exists, then any
    events at any times. *)
Inductive ui_reachable : page -> Prop :=
  | ui_start ls a d0 clock :
      app_load ls = Some a -> body_dark d0 = false -> chart_objs d0 = None ->
      ui_reachable (mkPage a (initializeApp clock a d0))
  | ui_next p clock ev : ui_reachable p -> ui_reachable (ui_step clock p ev).

(** One step of the page, by any event at any time. *)
Definition ui_rel (p p' : page) : Prop := exists clock ev, p' = ui_step clock p ev.


(** The filter inputs with another month. *)
Definition with_month (m : string) (f : filter_inputs) : filter_inputs :=
  mkFilterInputs (searchInput f) (categoryFilter f) m (startDateFilter f) (endDateFilter f).

(** What the page shows is the state: the theme, the charts (built at
    some time), the dashboard texts, the month options, and the table
    filtered by the current inputs but for the month. *)
Definition view_inv (p : page) : Prop :=
  let a := state p in
  let d := view p in
  body_dark d = isDarkMode a /\
  (isDarkMode a = true -> darkModeIcon d = "☀️"%string) /\
  (exists t, chart_objs d = Some (initializeCharts (isDarkMode a) tz t (txs_of a))) /\
  (exists d0, dashboard d = updateDashboard (currentCurrency a) (savingsTarget a) (txs_of a) d0) /\
  monthOptions d = populateMonthFilter tz (txs_of a) /\
  (exists m, tbody d = renderTransactionTable tz (currentCurrency a) (with_month m (inputs d)) (txs_of a)).

End Page.

(** ** Lemmas *)

Lemma with_month_same f : with_month (monthFilter f) f = f.
Proof. destruct f. reflexivity. Qed.

Lemma with_month_twice m m' f : with_month m (with_month m' f) = with_month m f.
Proof. reflexivity. Qed.

Lemma updateDashboard_Permutation c target l1 l2 d0 :
  l1 ≡ₚ l2 -> updateDashboard c target l1 d0 = updateDashboard c target l2 d0.
Proof. intros Hp. unfold updateDashboard, dashboard_totals. rewrite !(total_of_Permutation _ _ _ Hp). reflexivity. Qed.

Section PageLemmas.
Context `{S : ArraySort} `{!ArraySortLaws S} (tz : Z).

(** The refresh after an add, an edit or a delete shows the new state. *)
Lemma view_inv_mutation clock a a' d :
  view_inv tz (mkPage a d) -> isDarkMode a' = isDarkMode a ->
  view_inv tz (mkPage a' (refresh_after_mutation tz clock a' d)).
Proof.
  intros Hinv Hd. unfold view_inv in Hinv. cbn [state view] in Hinv.
  destruct Hinv as (Hb & Hi & (t & Hc) & _ & _ & _).
  unfold view_inv, refresh_after_mutation, do_populate, do_render, do_updateDashboard.
  cbn [state view body_dark darkModeIcon chart_objs dashboard monthOptions tbody inputs].
  rewrite Hc, updateCharts_initialized, Hb, Hd.
  split; [reflexivity|]. split; [exact Hi|]. split; [eauto|]. split; [eauto|].
  split; [reflexivity|]. exists (monthFilter (inputs d)). destruct (inputs d); reflexivity.
Qed.

(** A state change the page does not show. *)
Lemma view_inv_unseen a a' d :
  view_inv tz (mkPage a d) ->
  txs_of a' = txs_of a -> isDarkMode a' = isDarkMode a ->
  currentCurrency a' = currentCurrency a -> savingsTarget a' = savingsTarget a ->
  view_inv tz (mkPage a' d).
Proof. intros Hinv Ht Hd Hc Hs. unfold view_inv in *. cbn in *. rewrite Ht, Hd, Hc, Hs. exact Hinv. Qed.

Ltac view_inv_hyp H :=
  unfold view_inv in H; cbn [state view] in H;
  let Hb := fresh "Hb" in let Hi := fresh "Hi" in let t := fresh "t" in let Hc := fresh "Hc" in
  let d0 := fresh "d0" in let Hdash := fresh "Hdash" in let Hm := fresh "Hm" in
  let m := fresh "m" in let Ht := fresh "Ht" in
  destruct H as (Hb & Hi & (t & Hc) & (d0 & Hdash) & Hm & (m & Ht)).

Ltac view_dom_simpl :=
  unfold view_inv, do_populate, do_render, do_updateDashboard, do_updateCharts, do_icons, do_toggle,
    set_inputs;
  cbn [state view body_dark darkModeIcon chart_objs dashboard monthOptions tbody inputs].

(** A sort reorders the list; the table is re-rendered and everything
    else, which does not depend on the order, stays right. *)
Lemma view_inv_sort a d c :
  view_inv tz (mkPage a d) ->
  view_inv tz (mkPage (app_step a (SortBy c))
                 (do_render tz (app_step a (SortBy c)) (do_icons c (app_step a (SortBy c)) d))).
Proof.
  intros Hinv. view_inv_hyp Hinv.
  assert (Hp : txs_of (app_step a (SortBy c)) ≡ₚ txs_of a) by apply sort_permutation.
  view_dom_simpl.
  change (isDarkMode (app_step a (SortBy c))) with (isDarkMode a).
  change (currentCurrency (app_step a (SortBy c))) with (currentCurrency a).
  change (savingsTarget (app_step a (SortBy c))) with (savingsTarget a).
  rewrite Hb, Hc, Hdash, Hm, <- (initializeCharts_Permutation _ _ _ _ _ Hp),
    <- (updateDashboard_Permutation _ _ _ _ _ Hp), <- (populateMonthFilter_Permutation _ _ _ Hp).
  split; [reflexivity|]. split; [exact Hi|]. split; [eauto|]. split; [eauto|].
  split; [reflexivity|]. exists (monthFilter (inputs d)). rewrite with_month_same. reflexivity.
Qed.

(** The savings target: [updateDashboard()]. *)
Lemma view_inv_target clock a d v :
  view_inv tz (mkPage a d) -> 0 <= v ->
  view_inv tz (mkPage (app_step a (SetTarget v)) (do_updateDashboard tz clock (app_step a (SetTarget v)) d)).
Proof.
  intros Hinv Hv. view_inv_hyp Hinv. unfold app_step. rewrite (proj2 (Z.ltb_ge v 0) Hv).
  view_dom_simpl. unfold txs_of in *. cbn [isDarkMode currentCurrency savingsTarget app_store].
  rewrite Hc, updateCharts_initialized, Hb.
  split; [reflexivity|]. split; [exact Hi|]. split; [eauto|]. split; [eauto|]. eauto.
Qed.

(** The currency: dashboard, table and charts. *)
Lemma view_inv_currency clock a d c :
  view_inv tz (mkPage a d) ->
  let a' := app_step a (ChangeCurrency c) in
  view_inv tz (mkPage a' (do_updateCharts tz clock a' (do_render tz a' (do_updateDashboard tz clock a' d)))).
Proof.
  intros Hinv a'. view_inv_hyp Hinv. subst a'.
  view_dom_simpl. unfold txs_of in *. cbn [app_step isDarkMode currentCurrency savingsTarget app_store].
  rewrite Hc, !updateCharts_initialized, Hb.
  split; [reflexivity|]. split; [exact Hi|]. split; [eauto|]. split; [eauto|].
  split; [exact Hm|]. exists (monthFilter (inputs d)). rewrite with_month_same. reflexivity.
Qed.

(** The theme: the class, the icon and the charts' colours. *)
Lemma view_inv_toggle clock a d :
  view_inv tz (mkPage a d) ->
  let a' := app_step a ToggleDark in
  view_inv tz (mkPage a' (do_updateCharts tz clock a' (do_toggle a' d))).
Proof.
  intros Hinv a'. view_inv_hyp Hinv. subst a'.
  view_dom_simpl. unfold txs_of in *. cbn [app_step isDarkMode currentCurrency savingsTarget app_store].
  rewrite Hc, updateCharts_initialized, Hb.
  split; [reflexivity|]. split; [destruct (isDarkMode a); [discriminate|reflexivity]|].
  split; [eauto|]. split; [eauto|]. eauto.
Qed.

(** The filter inputs: the table. *)
Lemma view_inv_filter a d f :
  view_inv tz (mkPage a d) -> view_inv tz (filterTransactions tz f (mkPage a d)).
Proof.
  intros Hinv. unfold filterTransactions. cbn [state view]. view_inv_hyp Hinv. view_dom_simpl.
  split; [exact Hb|]. split; [exact Hi|]. split; [eauto|]. split; [eauto|].
  split; [exact Hm|]. exists (monthFilter f). rewrite with_month_same. reflexivity.
Qed.

(** The first page. *)
Lemma view_inv_initializeApp clock a d0 :
  body_dark d0 = false -> chart_objs d0 = None ->
  view_inv tz (mkPage a (initializeApp tz clock a d0)).
Proof.
  intros Hb Hc. unfold initializeApp.
  destruct (isDarkMode a) eqn:Hd; view_dom_simpl; rewrite ?Hb, ?Hc, ?Hd;
    (split; [reflexivity|]); (split; [discriminate || reflexivity|]);
    (split; [eauto|]); (split; [eauto|]); (split; [reflexivity|]);
    exists (monthFilter (inputs d0)); cbn; destruct (inputs d0); reflexivity.
Qed.

End PageLemmas.

(** The state the liveness property aims at: no transaction in memory,
    none stored, and the table's message on the page. *)
Definition emptied (p : page) : Prop :=
  txs_of (state p) = [] /\ tbody (view p) = EmptyState /\
  storage (state p) !! "transactions"%string = Some (transactions_text []).

(** Deleting by the id of the first transaction shortens the list. *)
Lemma delete_head_shorter (t : transaction) r :
  (length (List.filter (fun x => id x !== id t) (t :: r)) < length (t :: r))%nat.
Proof.
  cbn [List.filter]. rewrite bool_decide_eq_true_2 by reflexivity.
  cbn [negb length]. pose proof (List.filter_length_le (fun x => id x !== id t) r). lia.
Qed.

Lemma emptied_after_delete `{S : ArraySort} tz clock a d did :
  txs_of (app_step a (Delete true did)) = [] ->
  emptied (ui_step tz clock (mkPage a d) (AppEvent (Delete true did))).
Proof.
  intros He. unfold emptied, ui_step, deleteTransaction_page. cbn [state view].
  unfold refresh_after_mutation, do_populate, do_render. cbn [tbody].
  assert (Hs : storage (app_step a (Delete true did)) =
               persist_transactions (storage a) (txs_of (app_step a (Delete true did))))
    by reflexivity.
  rewrite Hs, He. unfold persist_transactions. rewrite lookup_insert_eq. auto.
Qed.

(** ** Properties *)

Section PageProps.
Context `{S : ArraySort} `{!ArraySortLaws S} (tz : Z).

(** C1. In every state a visit reaches, the page shows the state: the
    body has the class 'dark' exactly in dark mode (with the sun icon),
    the charts are those [initializeCharts] builds for the current
    transactions and theme, the dashboard texts are those
    [updateDashboard] writes for the current transactions, currency and
    target, the month options are those of the current transactions, and
    the table lists the current transactions under the current search,
    category and date inputs and some month. *)
Theorem ui_view_invariant p : ui_reachable tz p -> view_inv tz p.
Proof.
  induction 1 as [ls a d0 clock _ Hb Hc|p clock ev _ IH]; [apply view_inv_initializeApp; assumption|].
  destruct p as [a d]. destruct ev as [e|f]; [|apply view_inv_filter, IH].
  destruct e as [tnow fd|[] did|i| | |c|v|c|];
    cbn [ui_step]; unfold handleFormSubmit_page, deleteTransaction_page, sortTable_page,
      setSavingsTarget, currencySelect_change, toggleDarkMode; cbn [state view].
  - apply (view_inv_mutation tz clock a); [exact IH|reflexivity].
  - apply (view_inv_mutation tz clock a); [exact IH|reflexivity].
  - exact IH.
  - apply (view_inv_unseen tz a (app_step a (OpenEdit i)) d);
      [exact IH|apply openEditModal_transactions|reflexivity..].
  - exact IH.
  - exact IH.
  - apply view_inv_sort, IH.
  - destruct (Z.ltb_spec v 0); [exact IH|]. apply view_inv_target; [exact IH|lia].
  - apply view_inv_currency, IH.
  - apply view_inv_toggle, IH.
Qed.

(** C5. From every state of the page the user can empty the list:
    confirming the delete of the first row, as often as there are
    transactions, leads to a page whose table shows the message, with
    nothing in memory and the empty array in storage. *)
Theorem ui_can_empty p : eventually (ui_rel tz) emptied p.
Proof.
  apply (eventually_measure _ _ (fun p => length (txs_of (state p)))). intros [a d].
  destruct (txs_of a) as [|t r] eqn:Ht.
  - right. exists (ui_step tz (fun _ => 0) (mkPage a d) (AppEvent (Delete true ""))).
    split; [exists (fun _ => 0), (AppEvent (Delete true "")); reflexivity|]. left.
    apply emptied_after_delete. unfold txs_of in *. cbn. rewrite Ht. reflexivity.
  - right. exists (ui_step tz (fun _ => 0) (mkPage a d) (AppEvent (Delete true (id t)))).
    split; [exists (fun _ => 0), (AppEvent (Delete true (id t))); reflexivity|]. right.
    unfold txs_of in *. cbn. rewrite Ht. apply delete_head_shorter.
Qed.

(** C34. After a transaction is added or a delete is confirmed, the month
    select reads "" (all months) and keeps the other inputs, while the
    table was rendered before that reset, under the month chosen before:
    the table and the select disagree whenever a month was chosen.  The
    month options are those of the new list. *)
Theorem month_filter_reset_after_submit clock tnow fd did p p' :
  p' = handleFormSubmit_page tz clock tnow fd p \/ p' = deleteTransaction_page tz clock true did p ->
  inputs (view p') = with_month "" (inputs (view p)) /\
  tbody (view p') =
    renderTransactionTable tz (currentCurrency (state p')) (inputs (view p)) (txs_of (state p')) /\
  monthOptions (view p') = populateMonthFilter tz (txs_of (state p')).
Proof. intros [->| ->]; repeat split. Qed.

End PageProps.

(** ** Examples and witnesses *)

(** A page as the browser loads it: light body, no chart yet, empty inputs. *)
Definition ex_dom : dom :=
  mkDom false "🌙" (mkDashboardDom "" "" "" "" None "") EmptyState []
    (mkSortIcons "↕️" "↕️" "↕️")
    (mkFilterInputs "" "" "" "" "") None.

Lemma ui_view_invariant_witness :
  @view_inv insertion_array_sort 25200000
    (mkPage ex_app (@initializeApp insertion_array_sort 25200000 (fun _ => 1704168000000) ex_app ex_dom)).
Proof.
  apply (ui_view_invariant (S := insertion_array_sort) 25200000).
  apply (ui_start 25200000 ∅); reflexivity.
Defined.

Lemma month_filter_reset_after_submit_witness :
  let tz := 25200000 in
  let now := 1704240000000 in
  let clock (i : Z) := now in
  let p0 := mkPage ex_app (@initializeApp insertion_array_sort tz clock ex_app ex_dom) in
  let p1 := @ui_step insertion_array_sort tz clock p0 (AppEvent (Submit now ex_form)) in
  let p2 := @ui_step insertion_array_sort tz clock p1 (FilterInput (mkFilterInputs "" "" "2024-01" "" "")) in
  let feb := mkFormData Expense "Hiburan" 50000 "2024-02-05" "Bioskop" in
  let p3 := @handleFormSubmit_page insertion_array_sort tz clock (now + 1) feb p2 in
  inputs (view p3) = with_month "" (inputs (view p2)) /\
  tbody (view p3) =
    renderTransactionTable tz (currentCurrency (state p3)) (inputs (view p2)) (txs_of (state p3)) /\
  monthOptions (view p3) = populateMonthFilter tz (txs_of (state p3)).
Proof.
  intros tz now clock p0 p1 p2 feb p3.
  apply (month_filter_reset_after_submit (S := insertion_array_sort) tz clock (now + 1) feb "" p2 p3).
  left. reflexivity.
Defined.
