(* ===== verification/Schema.v ===== *)
(** * The type of the stored transactions

    The program writes [JSON.stringify(transactions)] under the key
    'transactions' (src/script.js 247, 267) and reads it back with
    [JSON.parse(...) || []] (src/script.js 2), using each element as an
    object with the six properties [{ id, type, category, amount, date,
    description }] it creates (src/script.js 227-241).  This file gives
    that format as a type of JSON values, [stored_schema], with the
    judgement [has_type], and shows that the judgement is the one the
    loader decides: an element decodes exactly when it has the type of a
    transaction.  The theorem of the file is a type preservation
    statement: in every state the page reaches, the stored text parses to
    a value of the stored type, or to a falsy value while the list is
    empty (a key never written reads [null]). *)

From stdpp Require Import gmap.
From S2P Require Import Prelude JsString Transaction Sort Json Storage App.

Open Scope Z_scope.

(** ** Types of JSON values *)

Inductive jtype :=
  | TStr                                 (* a string *)
  | TNum                                 (* a number *)
  | TEnum (names : list string)          (* one of these strings *)
  | TArr (elem : jtype)                  (* an array of elements of a type *)
  | TObj (fields : list (string * jtype)). (* an object with these properties, at least *)

(** [has_type v ty]: the value [v] has the type [ty]; an object's
    property is read as [obj[key]] reads it ([member]). *)
Fixpoint has_type (v : json) (ty : jtype) : bool :=
  match ty, v with
  | TStr, JStr _ => true
  | TNum, JNum _ => true
  | TEnum names, JStr s => bool_decide (s ∈ names)
  | TArr t, JArr items => forallb (fun x => has_type x t) items
  | TObj fields, JObj m =>
      forallb (fun kt => match member kt.1 m with Some x => has_type x kt.2 | None => false end) fields
  | _, _ => false
  end.

(** The object of one transaction, as [handleFormSubmit] builds it. *)
Definition tx_schema : jtype :=
  TObj [("id", TStr); ("type", TEnum ["income"; "expense"]); ("category", TStr);
        ("amount", TNum); ("date", TStr); ("description", TStr)].

Definition stored_schema : jtype := TArr tx_schema.

(** The text [JSON.parse] reads at start-up: the stored value, or
    "null" for a key never written. *)
Definition stored_text (ls : gmap string string) : string :=
  match ls !! "transactions"%string with Some s => s | None => "null" end.

(** ** Lemmas *)

Lemma type_of_name_typed s :
  is_Some (type_of_name s) <-> bool_decide (s ∈ ["income"; "expense"]%string) = true.
Proof.
  rewrite bool_decide_eq_true, !elem_of_cons, elem_of_nil. unfold type_of_name.
  case_bool_decide as H1; [subst; split; eauto|]. case_bool_decide as H2; [subst; split; eauto|].
  split; [intros [? [=]]|intros [|[|[]]]; contradiction].
Qed.

Ltac decode_cases :=
  cbn; rewrite ?andb_false_r, ?andb_true_r; try (split; [intros [? [=]]|discriminate]).

(** The loader decodes exactly the values of the type of a transaction. *)
Lemma tx_of_json_typed v : is_Some (tx_of_json v) <-> has_type v tx_schema = true.
Proof.
  destruct v as [| | | | |m]; decode_cases. unfold get_str.
  destruct (member "id" m) as [[]|]; decode_cases.
  destruct (member "type" m) as [[]|]; decode_cases.
  destruct (member "category" m) as [[]|]; decode_cases.
  destruct (member "amount" m) as [[]|]; decode_cases.
  destruct (member "date" m) as [[]|]; decode_cases.
  destruct (member "description" m) as [[]|]; decode_cases.
  rewrite <- type_of_name_typed.
  destruct (type_of_name _); split; intros H; eauto; destruct H; discriminate.
Qed.

Lemma mapM_tx_of_json_typed items l :
  mapM tx_of_json items = Some l -> has_type (JArr items) stored_schema = true.
Proof.
  revert l. induction items as [|x items IH]; intros l H; [reflexivity|].
  cbn [mapM] in H. destruct (tx_of_json x) eqn:Hx; [|discriminate].
  destruct (mapM tx_of_json items) eqn:Hr; [|discriminate].
  cbn [has_type stored_schema forallb]. apply andb_true_intro. split.
  - apply tx_of_json_typed. eauto.
  - exact (IH _ eq_refl).
Qed.

(** ** Properties *)

(** C4. Type preservation for the stored list: in every state the page
    reaches, the stored text parses, and either its value has the type
    [stored_schema] (an array of objects with a string id, a type
    'income' or 'expense', a string category, a number amount, a string
    date and a string description) or it is a falsy value and the list
    is empty. *)
Theorem stored_transactions_typed `{S : ArraySort} `{!ArraySortLaws S} a :
  app_reachable a ->
  exists v, JSON_parse (stored_text (storage a)) = Some v /\
    (has_type v stored_schema = true \/
     (json_truthy v = false /\ transactions (app_store a) = [])).
Proof.
  intros Hr. destruct (tx_stored_inv_reachable a Hr) as (l & Hl & Hp).
  unfold load_transactions in Hl. fold (stored_text (storage a)) in Hl.
  destruct (JSON_parse (stored_text (storage a))) as [v|]; [|discriminate].
  exists v. split; [reflexivity|].
  destruct (json_truthy v) eqn:Ht.
  - left. destruct v as [| | | |items|]; try discriminate.
    destruct (mapM tx_of_json items) eqn:Hm; [|discriminate].
    exact (mapM_tx_of_json_typed items _ Hm).
  - right. split; [reflexivity|]. injection Hl as <-. apply Permutation_nil, Hp.
Qed.

Lemma stored_transactions_typed_witness :
  exists v, JSON_parse (stored_text (storage ex_app)) = Some v /\
    (has_type v stored_schema = true \/
     (json_truthy v = false /\ transactions (app_store ex_app) = [])).
Proof.
  apply (stored_transactions_typed (S := insertion_array_sort)).
  apply (reach_load ∅). reflexivity.
Defined.
