(* ===== verification/Pwa.v ===== *)
(** * Service worker, install prompt and offline indicator

    [registerServiceWorker] (src/script.js 23-50) writes the worker's code
    into a string, wraps it in a [Blob] and registers the object URL
    [URL.createObjectURL(blob)]; once the registration succeeds it calls
    [showInstallPrompt].  The listener of [beforeinstallprompt] (53-58)
    keeps the event in [deferredPrompt] and calls [showInstallPrompt]
    too.  [showInstallPrompt] (60-81) checks that an event is kept and
    that 'pwaInstallDismissed' is not stored, and then sets a timer; the
    timer opens a dialog, whose confirmation calls
    [deferredPrompt.prompt()] and forgets the event once [userChoice]
    resolves, and whose cancellation stores 'pwaInstallDismissed'.  The
    offline indicator (84-93) is hidden exactly while [navigator.onLine].

    The asynchronous parts are explicit steps of a transition system
    [pwa_step]: the registration settling, a timer firing, the user
    answering a dialog, [userChoice] resolving, the connection changing,
    another dialog of the page opening.  SweetAlert2 shows one dialog at
    a time: a [Swal.fire] while the install dialog is open (a second
    timer, a toast or confirmation of the page) closes it and resolves
    its promise as not confirmed, so its callback stores
    'pwaInstallDismissed'; the state records whether the install dialog
    is open.
    The browser's part is modelled from the Service Workers
    specification: the Start Register algorithm rejects a script URL
    whose scheme is neither http nor https, and [URL.createObjectURL]
    returns a [blob:] URL.

    The theorems: the worker is never registered, so the install prompt
    only ever comes from [beforeinstallprompt]; and since the guard of
    [showInstallPrompt] is read when the timer is set and not when it
    fires, a timer still pending once an earlier prompt's [userChoice]
    has cleared [deferredPrompt] opens a dialog whose confirmation calls
    [prompt()] on [null] and throws (two [beforeinstallprompt] events
    reach such a state). *)

From stdpp Require Import gmap.
From S2P Require Import Prelude JsString.

Open Scope Z_scope.

(** ** The browser's part *)

(** [URL.createObjectURL(blob)]: [blob:<origin>/<uuid>]. *)
Definition createObjectURL (origin uuid : string) : string :=
  ("blob:" ++ origin ++ "/" ++ uuid)%string.

(** The scheme of a URL: the text before the first ':'. *)
Fixpoint url_scheme (u : string) : string :=
  match u with
  | EmptyString => EmptyString
  | String c r => if Ascii.eqb c ":" then EmptyString else String c (url_scheme r)
  end.

(** The scheme check of the Start Register algorithm. *)
Definition register_accepts (scriptURL : string) : bool :=
  bool_decide (url_scheme scriptURL ∈ ["http"; "https"]%string).

(** ** The worker's code (the string [swCode])

    A cache named 'finance-tracker-v1' filled with ['/'] at install, and
    a fetch handler answering from the cache first. *)

Definition urlsToCache : list string := ["/"].

(** [caches.match(event.request).then(response => response || fetch(event.request))] *)
Definition sw_fetch {R} (cache : gmap string R) (network : string -> option R) (request : string)
    : option R :=
  match cache !! request with
  | Some r => Some r
  | None => network request
  end.

(** [cache.addAll(urlsToCache)] at install. *)
Definition sw_install {R} (network : string -> option R) : option (gmap string R) :=
  foldr (fun u acc => match acc, network u with
                      | Some c, Some r => Some (<[u := r]> c)
                      | _, _ => None
                      end) (Some ∅) urlsToCache.

(** ** The page's part *)

Record pwa := mkPwa {
  deferredPrompt : option Z;            (* the kept beforeinstallprompt event *)
  pwa_storage : gmap string string;     (* localStorage *)
  sw_pending : option string;           (* a registration not settled yet, its URL *)
  sw_registered : bool;
  timers : nat;                         (* setTimeout(..., 3000) callbacks not run yet *)
  dialog_open : bool;                   (* the install dialog is shown and not answered *)
  choices : list Z;                     (* prompt() calls whose userChoice is pending *)
  type_error : bool;                    (* a callback threw: deferredPrompt was null *)
  offline_hidden : bool                 (* #offlineIndicator has the class 'hidden' *)
}.

Inductive pwa_event :=
  | RegisterServiceWorker (hasServiceWorker : bool) (origin uuid : string)
  | RegistrationSettles
  | BeforeInstallPrompt (e : Z)
  | TimerFires
  | DialogAnswer (isConfirmed : bool)
  | UserChoiceSettles
  | OnlineChange (onLine : bool)
  | OtherDialog.                          (* any other Swal.fire of the page *)

(** [deferredPrompt && !localStorage.getItem('pwaInstallDismissed')]:
    a missing key and the empty string are falsy. *)
Definition install_guard (s : pwa) : bool :=
  match deferredPrompt s with
  | None => false
  | Some _ =>
      match pwa_storage s !! "pwaInstallDismissed"%string with
      | None => true
      | Some v => v === ""%string
      end
  end.

Definition with_timers (s : pwa) (n : nat) : pwa :=
  mkPwa (deferredPrompt s) (pwa_storage s) (sw_pending s) (sw_registered s) n (dialog_open s)
    (choices s) (type_error s) (offline_hidden s).

(** [showInstallPrompt()]: a timer when the guard holds. *)
Definition showInstallPrompt (s : pwa) : pwa :=
  if install_guard s then with_timers s (S (timers s)) else s.

(** The install dialog closes unconfirmed: by its cancel button, or
    because another [Swal.fire] replaced it, which resolves its promise
    with [isConfirmed = false]; the callback then runs
    [localStorage.setItem('pwaInstallDismissed', 'true')]. *)
Definition dismiss_open (s : pwa) : pwa :=
  if dialog_open s then
    mkPwa (deferredPrompt s) (<["pwaInstallDismissed"%string := "true"%string]> (pwa_storage s))
      (sw_pending s) (sw_registered s) (timers s) false (choices s) (type_error s) (offline_hidden s)
  else s.

(** One step; [None] when the event cannot happen in this state. *)
Definition pwa_step (s : pwa) (ev : pwa_event) : option pwa :=
  match ev with
  | RegisterServiceWorker hasSW origin uuid =>
      (* if ('serviceWorker' in navigator) navigator.serviceWorker.register(swUrl) *)
      if hasSW then
        Some (mkPwa (deferredPrompt s) (pwa_storage s) (Some (createObjectURL origin uuid))
                (sw_registered s) (timers s) (dialog_open s) (choices s) (type_error s) (offline_hidden s))
      else Some s
  | RegistrationSettles =>
      match sw_pending s with
      | None => None
      | Some url =>
          let s1 := mkPwa (deferredPrompt s) (pwa_storage s) None (sw_registered s) (timers s)
                      (dialog_open s) (choices s) (type_error s) (offline_hidden s) in
          if register_accepts url then
            (* .then(reg => { console.log(...); showInstallPrompt(); }) *)
            Some (showInstallPrompt
                    (mkPwa (deferredPrompt s1) (pwa_storage s1) None true (timers s1)
                       (dialog_open s1) (choices s1) (type_error s1) (offline_hidden s1)))
          else Some s1                   (* .catch(err => console.log(...)) *)
      end
  | BeforeInstallPrompt e =>
      Some (showInstallPrompt
              (mkPwa (Some e) (pwa_storage s) (sw_pending s) (sw_registered s) (timers s)
                 (dialog_open s) (choices s) (type_error s) (offline_hidden s)))
  | TimerFires =>
      match timers s with
      | O => None
      | S n =>                           (* Swal.fire({...}) *)
          let s1 := dismiss_open s in
          Some (mkPwa (deferredPrompt s1) (pwa_storage s1) (sw_pending s1) (sw_registered s1) n
                  true (choices s1) (type_error s1) (offline_hidden s1))
      end
  | DialogAnswer isConfirmed =>
      if negb (dialog_open s) then None
      else if isConfirmed then
        match deferredPrompt s with
        | Some e =>                      (* deferredPrompt.prompt(); userChoice.then(...) *)
            Some (mkPwa (Some e) (pwa_storage s) (sw_pending s) (sw_registered s) (timers s) false
                    (choices s ++ [e]) (type_error s) (offline_hidden s))
        | None =>                        (* null.prompt(): TypeError *)
            Some (mkPwa None (pwa_storage s) (sw_pending s) (sw_registered s) (timers s) false
                    (choices s) true (offline_hidden s))
        end
      else Some (dismiss_open s)
  | UserChoiceSettles =>
      match choices s with
      | [] => None
      | _ :: rest =>                     (* () => { deferredPrompt = null; } *)
          Some (mkPwa None (pwa_storage s) (sw_pending s) (sw_registered s) (timers s) (dialog_open s)
                  rest (type_error s) (offline_hidden s))
      end
  | OnlineChange onLine =>               (* updateOnlineStatus() *)
      Some (mkPwa (deferredPrompt s) (pwa_storage s) (sw_pending s) (sw_registered s) (timers s)
              (dialog_open s) (choices s) (type_error s) onLine)
  | OtherDialog => Some (dismiss_open s)
  end.

(** The state after [setupOfflineDetection()] on a page loaded with
    [localStorage] [ls] while [navigator.onLine = onLine]. *)
Definition pwa_init (ls : gmap string string) (onLine : bool) : pwa :=
  mkPwa None ls None false 0 false [] false onLine.

(** Running a sequence of events; [None] when one cannot happen. *)
Fixpoint pwa_run (s : pwa) (evs : list pwa_event) : option pwa :=
  match evs with
  | [] => Some s
  | ev :: rest => match pwa_step s ev with Some s' => pwa_run s' rest | None => None end
  end.

Inductive pwa_reachable : pwa -> Prop :=
  | pwa_start ls onLine : pwa_reachable (pwa_init ls onLine)
  | pwa_next s ev s' : pwa_reachable s -> pwa_step s ev = Some s' -> pwa_reachable s'.

(** ** Lemmas *)

Lemma register_accepts_blob origin uuid : register_accepts (createObjectURL origin uuid) = false.
Proof.
  unfold register_accepts, createObjectURL. rewrite !append_cons. cbn [url_scheme Ascii.eqb].
  reflexivity.
Qed.

Lemma pwa_run_reachable s evs s' :
  pwa_reachable s -> pwa_run s evs = Some s' -> pwa_reachable s'.
Proof.
  revert s. induction evs as [|ev evs IH]; intros s Hs Hrun; cbn [pwa_run] in Hrun.
  - injection Hrun as <-. exact Hs.
  - destruct (pwa_step s ev) as [s1|] eqn:E; [|discriminate]. exact (IH s1 (pwa_next s ev s1 Hs E) Hrun).
Qed.

(** The registration invariant: nothing registered, and a pending
    registration is the blob URL. *)
Definition sw_inv (s : pwa) : Prop :=
  sw_registered s = false /\ forall url, sw_pending s = Some url -> register_accepts url = false.

Lemma showInstallPrompt_sw s :
  sw_registered (showInstallPrompt s) = sw_registered s /\ sw_pending (showInstallPrompt s) = sw_pending s.
Proof. unfold showInstallPrompt. destruct (install_guard s); auto. Qed.

Lemma dismiss_open_sw s :
  sw_registered (dismiss_open s) = sw_registered s /\ sw_pending (dismiss_open s) = sw_pending s.
Proof. unfold dismiss_open. destruct (dialog_open s); auto. Qed.

Lemma pwa_step_sw_inv s ev s' : sw_inv s -> pwa_step s ev = Some s' -> sw_inv s'.
Proof.
  intros [Hr Hp] Hs. unfold sw_inv.
  destruct ev as [hasSW o u| |e| |b| |b|]; cbn [pwa_step] in Hs.
  - destruct hasSW; injection Hs as <-; cbn; [split; [exact Hr|]|split; assumption].
    intros url [= <-]. apply register_accepts_blob.
  - destruct (sw_pending s) as [url|] eqn:E; [|discriminate]. cbn zeta in Hs.
    rewrite (Hp url eq_refl) in Hs. injection Hs as <-. cbn. split; [exact Hr|discriminate].
  - injection Hs as <-. rewrite (proj1 (showInstallPrompt_sw _)), (proj2 (showInstallPrompt_sw _)).
    cbn. split; assumption.
  - destruct (timers s); [discriminate|]. injection Hs as <-. cbn.
    rewrite (proj1 (dismiss_open_sw s)), (proj2 (dismiss_open_sw s)). split; assumption.
  - destruct (dialog_open s); [|discriminate].
    destruct b; [destruct (deferredPrompt s)|]; injection Hs as <-; cbn;
      rewrite ?(proj1 (dismiss_open_sw s)), ?(proj2 (dismiss_open_sw s)); split; assumption.
  - destruct (choices s); [discriminate|]. injection Hs as <-. cbn. split; assumption.
  - injection Hs as <-. cbn. split; assumption.
  - injection Hs as <-. rewrite (proj1 (dismiss_open_sw s)), (proj2 (dismiss_open_sw s)).
    split; assumption.
Qed.

(** ** Properties *)

(** C30. The service worker is never registered: its script URL is the
    [blob:] URL of [URL.createObjectURL], which registration rejects, so
    in every state of a visit nothing is registered and the install
    prompt is never scheduled by a registration. *)
Theorem sw_never_registered s : pwa_reachable s -> sw_registered s = false.
Proof.
  intros Hr. enough (sw_inv s) as [H _] by exact H.
  induction Hr as [ls onLine|s ev s' _ IH Hstep]; [split; [reflexivity|discriminate]|].
  exact (pwa_step_sw_inv s ev s' IH Hstep).
Qed.

(** C36. The guard of [showInstallPrompt] is read when the timer is set,
    not when it fires: in any state with a timer pending and no kept
    event (an earlier prompt's [userChoice] has cleared [deferredPrompt]),
    the timer still opens the install dialog, and confirming it calls
    [prompt()] on [null] and throws. *)
Theorem install_prompt_null_after_choice s :
  (0 < timers s)%nat -> deferredPrompt s = None ->
  exists s1 s2, pwa_step s TimerFires = Some s1 /\ pwa_step s1 (DialogAnswer true) = Some s2 /\
    type_error s2 = true.
Proof.
  intros Ht Hd. unfold pwa_step. destruct (timers s) as [|n]; [lia|].
  eexists. eexists. split; [reflexivity|]. cbn [dialog_open negb deferredPrompt].
  assert (deferredPrompt (dismiss_open s) = None) as ->
    by (unfold dismiss_open; destruct (dialog_open s); exact Hd).
  split; reflexivity.
Qed.

Lemma sw_never_registered_witness :
  sw_registered (mkPwa None ∅ None false 0 false [] false true) = false.
Proof.
  apply sw_never_registered.
  apply (pwa_run_reachable (pwa_init ∅ true)
           [RegisterServiceWorker true "https://example.org" "1"; RegistrationSettles]);
    [constructor|reflexivity].
Defined.

(** Two [beforeinstallprompt] events set two timers; the first dialog is
    confirmed and its [userChoice] resolves, leaving a reachable state
    with a timer pending and no kept event. *)
Lemma install_prompt_null_after_choice_witness :
  let s := mkPwa None ∅ None false 1 false [] false true in
  pwa_run (pwa_init ∅ true)
    [BeforeInstallPrompt 1; BeforeInstallPrompt 2; TimerFires; DialogAnswer true; UserChoiceSettles] = Some s /\
  pwa_reachable s /\
  (0 < timers s)%nat /\ deferredPrompt s = None /\
  exists s1 s2, pwa_step s TimerFires = Some s1 /\ pwa_step s1 (DialogAnswer true) = Some s2 /\
    type_error s2 = true.
Proof.
  intros s. split; [reflexivity|]. split.
  { apply (pwa_run_reachable (pwa_init ∅ true)
             [BeforeInstallPrompt 1; BeforeInstallPrompt 2; TimerFires; DialogAnswer true;
              UserChoiceSettles]); [constructor|reflexivity]. }
  split; [cbn; lia|]. split; [reflexivity|].
  apply install_prompt_null_after_choice; [cbn; lia|reflexivity].
Defined.
